(** * Chargeback case store: schema, record generator and reporting layer

    A shallow embedding of the three scripts of the repository:

    - [setup_database.py]  ([init_database]): creates the SQLite file, its
      five tables and twelve secondary indexes;
    - [seed_data.py]       ([seed_database]): clears the tables and writes the
      synthetic data set (4 merchants, 7 customers, randomly many ordinary
      transactions, 23 chargeback cases and their case events);
    - [view_data.py]       ([view_database]): prints the reports.

    The scripts talk to SQLite through [sqlite3]; the statements they execute
    are modelled by functions on a record of tables ([Db]), with the
    constraints the [CREATE TABLE] texts declare.  The module [random] is
    modelled by an oracle: every property is proved for all oracles. *)

From Stdlib Require Import ZArith List String Ascii Bool Lia PeanoNat.
From Stdlib Require Import DecimalString DecimalNat Decimal.
Import ListNotations.

Local Open Scope string_scope.
Local Open Scope Z_scope.

(* ================================================================= *)
(** ** Values *)

(** Python floats that carry money, scores and percentages are all written
    with at most two decimals in the sources; they are kept exactly, as a
    number of hundredths. [dec 1249 99] is 1249.99. *)
Definition Dec := Z.
Definition dec (units hundredths : Z) : Dec := units * 100 + hundredths.

(** [random_date] returns [(datetime.now() - timedelta(days=d)).isoformat()];
    a timestamp is kept as the number [d] of days before the run. *)
Inductive Timestamp := DaysAgo (d : Z).

Definition days_ago (t : Timestamp) : Z := match t with DaysAgo d => d end.

(** The structured payloads ([velocity_data], [event_data]) are Python dicts
    that [json.dumps] turns into text. [JRandomDate] stands for a call of
    [random_date] not yet evaluated inside a dict display ([JTime] once it is
    evaluated). *)
#[warnings="-register-all"]
Inductive Json :=
| JNull
| JBool (b : bool)
| JInt (z : Z)
| JDec (c : Dec)
| JStr (s : string)
| JTime (t : Timestamp)
| JRandomDate (start_days_ago end_days_ago : Z)
| JList (l : list Json)
| JObj (kv : list (string * Json)).

(* ================================================================= *)
(** ** Rows of the five tables ([setup_database.py], the CREATE TABLE texts)

    A column declared [PRIMARY KEY] or [NOT NULL] has a plain type, every
    other column is nullable and has an [option] type.  A column holds
    values of the type that its declaration names: texts, integers, dates,
    and for [DECIMAL(10,2)] and [DECIMAL(5,2)] numbers with two decimals.
    (SQLite itself would store a value of any type in any column; a file
    with such values is not a [Db].) *)

Module Customers.
Record row := {
  customer_id : string;
  name : string;
  email : option string;
  region : option string;
  created_at : option Timestamp;
  total_chargebacks : option Z;
  total_refunds : option Dec
}.
End Customers.

Module Merchants.
Record row := {
  merchant_id : string;
  merchant_name : string;
  acquiring_bank : option string;
  win_rate : option Dec;
  created_at : option Timestamp
}.
End Merchants.

Module Transactions.
Record row := {
  transaction_id : string;
  customer_id : string;
  merchant_id : string;
  amount : Dec;
  currency : option string;
  payment_method : option string;
  card_last_4 : option string;
  transaction_date : option Timestamp;
  status : option string;
  avs_check : option string;
  cvv_check : option string;
  three_ds_used : option Z;
  auth_code : option string;
  ip_address : option string;
  device_fingerprint : option string;
  fraud_score : option Dec;
  risk_level : option string;
  velocity_flag : option Z;
  velocity_data : option Json;
  risk_assessed_at : option Timestamp
}.
End Transactions.

Module Chargebacks.
Record row := {
  chargeback_id : string;
  transaction_id : string;
  dispute_date : option Timestamp;
  reason_code : option string;
  dispute_type : option string;
  issuing_bank : option string;
  chargeback_amount : Dec;
  analyst_id : option string;
  status : option string;
  opened_at : option Timestamp;
  closed_at : option Timestamp;
  outcome : option string;
  retrieval_request_date : option Timestamp;
  response_deadline : option Timestamp;
  notes : option string
}.
End Chargebacks.

Module CaseEvents.
Record row := {
  event_id : Z;
  chargeback_id : string;
  event_type : string;
  event_date : option Timestamp;
  event_data : option Json;
  description : option string
}.
End CaseEvents.

(* ================================================================= *)
(** ** The database file *)

(** [CREATE INDEX name ON table(column)]: a plain index, a lookup structure
    that puts no constraint on the rows (the scripts never write
    [CREATE UNIQUE INDEX]). *)
Record Index := {
  idx_name : string;
  idx_table : string;
  idx_column : string
}.

Record Db := {
  tables : list string;
  indexes : list Index;
  customers : list Customers.row;
  merchants : list Merchants.row;
  transactions : list Transactions.row;
  chargebacks : list Chargebacks.row;
  case_events : list CaseEvents.row;
  (** the [sqlite_sequence] entry of [case_events] (AUTOINCREMENT) *)
  case_events_seq : Z
}.

(** What [sqlite3.connect] finds when the file does not exist yet. *)
Definition empty_db : Db :=
  {| tables := []; indexes := [];
     customers := []; merchants := []; transactions := [];
     chargebacks := []; case_events := []; case_events_seq := 0 |}.

Definition has_table (db : Db) (t : string) : bool :=
  existsb (String.eqb t) (tables db).

Definition has_index (db : Db) (n : string) : bool :=
  existsb (fun i => String.eqb n (idx_name i)) (indexes db).

Definition set_customers (db : Db) (l : list Customers.row) : Db :=
  {| tables := tables db; indexes := indexes db;
     customers := l; merchants := merchants db;
     transactions := transactions db; chargebacks := chargebacks db;
     case_events := case_events db; case_events_seq := case_events_seq db |}.

Definition set_merchants (db : Db) (l : list Merchants.row) : Db :=
  {| tables := tables db; indexes := indexes db;
     customers := customers db; merchants := l;
     transactions := transactions db; chargebacks := chargebacks db;
     case_events := case_events db; case_events_seq := case_events_seq db |}.

Definition set_transactions (db : Db) (l : list Transactions.row) : Db :=
  {| tables := tables db; indexes := indexes db;
     customers := customers db; merchants := merchants db;
     transactions := l; chargebacks := chargebacks db;
     case_events := case_events db; case_events_seq := case_events_seq db |}.

Definition set_chargebacks (db : Db) (l : list Chargebacks.row) : Db :=
  {| tables := tables db; indexes := indexes db;
     customers := customers db; merchants := merchants db;
     transactions := transactions db; chargebacks := l;
     case_events := case_events db; case_events_seq := case_events_seq db |}.

Definition set_case_events (db : Db) (l : list CaseEvents.row) (seq : Z) : Db :=
  {| tables := tables db; indexes := indexes db;
     customers := customers db; merchants := merchants db;
     transactions := transactions db; chargebacks := chargebacks db;
     case_events := l; case_events_seq := seq |}.

(* ================================================================= *)
(** ** Exceptions and results of statements *)

Inductive Exn :=
| IntegrityError (msg : string)     (* sqlite3.IntegrityError *)
| OperationalError (msg : string)   (* sqlite3.OperationalError *)
| TypeError (msg : string)
| ValueError (msg : string)
| IndexError (msg : string).

Definition is_IntegrityError (e : Exn) : bool :=
  match e with IntegrityError _ => true | _ => false end.

(** A statement either changes the database or raises, leaving it as it was. *)
Definition SqlResult := (Exn + Db)%type.

Definition no_such_table (t : string) : Exn :=
  OperationalError ("no such table: " ++ t).

(* ================================================================= *)
(** ** Statements of the schema ([init_database]) *)

Definition create_table (t : string) (db : Db) : SqlResult :=
  if has_table db t
  then inl (OperationalError ("table " ++ t ++ " already exists"))
  else inr {| tables := tables db ++ [t]; indexes := indexes db;
              customers := customers db; merchants := merchants db;
              transactions := transactions db; chargebacks := chargebacks db;
              case_events := case_events db;
              case_events_seq := case_events_seq db |}.

Definition create_index (n t c : string) (db : Db) : SqlResult :=
  if has_index db n
  then inl (OperationalError ("index " ++ n ++ " already exists"))
  else if negb (has_table db t)
  then inl (no_such_table ("main." ++ t))
  else inr {| tables := tables db;
              indexes := indexes db
                         ++ [{| idx_name := n; idx_table := t; idx_column := c |}];
              customers := customers db; merchants := merchants db;
              transactions := transactions db; chargebacks := chargebacks db;
              case_events := case_events db;
              case_events_seq := case_events_seq db |}.

(* ================================================================= *)
(** ** INSERT

    Every insert checks the primary key; the [FOREIGN KEY] clauses are checked
    only on a connection that has executed [PRAGMA foreign_keys = ON]
    (argument [fk]): SQLite keeps that setting per connection and a new
    connection starts with it off. *)

Definition fk_failed : Exn := IntegrityError "FOREIGN KEY constraint failed".
Definition unique_failed (col : string) : Exn :=
  IntegrityError ("UNIQUE constraint failed: " ++ col).

Definition customer_exists (db : Db) (k : string) : bool :=
  existsb (fun r => String.eqb (Customers.customer_id r) k) (customers db).

Definition merchant_exists (db : Db) (k : string) : bool :=
  existsb (fun r => String.eqb (Merchants.merchant_id r) k) (merchants db).

Definition transaction_exists (db : Db) (k : string) : bool :=
  existsb (fun r => String.eqb (Transactions.transaction_id r) k) (transactions db).

Definition chargeback_exists (db : Db) (k : string) : bool :=
  existsb (fun r => String.eqb (Chargebacks.chargeback_id r) k) (chargebacks db).

Definition insert_customer (r : Customers.row) (fk : bool) (db : Db) : SqlResult :=
  if negb (has_table db "customers") then inl (no_such_table "customers")
  else if customer_exists db (Customers.customer_id r)
  then inl (unique_failed "customers.customer_id")
  else inr (set_customers db (customers db ++ [r])).

Definition insert_merchant (r : Merchants.row) (fk : bool) (db : Db) : SqlResult :=
  if negb (has_table db "merchants") then inl (no_such_table "merchants")
  else if merchant_exists db (Merchants.merchant_id r)
  then inl (unique_failed "merchants.merchant_id")
  else inr (set_merchants db (merchants db ++ [r])).

Definition insert_transaction (r : Transactions.row) (fk : bool) (db : Db)
  : SqlResult :=
  if negb (has_table db "transactions") then inl (no_such_table "transactions")
  else if transaction_exists db (Transactions.transaction_id r)
  then inl (unique_failed "transactions.transaction_id")
  else if fk && negb (customer_exists db (Transactions.customer_id r)
                      && merchant_exists db (Transactions.merchant_id r))
  then inl fk_failed
  else inr (set_transactions db (transactions db ++ [r])).

Definition insert_chargeback (r : Chargebacks.row) (fk : bool) (db : Db)
  : SqlResult :=
  if negb (has_table db "chargebacks") then inl (no_such_table "chargebacks")
  else if chargeback_exists db (Chargebacks.chargeback_id r)
  then inl (unique_failed "chargebacks.chargeback_id")
  else if fk && negb (transaction_exists db (Chargebacks.transaction_id r))
  then inl fk_failed
  else inr (set_chargebacks db (chargebacks db ++ [r])).

(** [event_id INTEGER PRIMARY KEY AUTOINCREMENT]: the insert statements of the
    scripts never give an [event_id]; SQLite takes one more than the larger
    of the largest id in the table (0 when the table is empty) and of the
    [sqlite_sequence] entry, the largest id ever used.  Row ids are 64-bit
    integers: once the largest one has been used the insert fails with
    SQLITE_FULL, which [sqlite3] raises as OperationalError. *)
Definition max_rowid : Z := 9223372036854775807.

Definition largest_event_id (db : Db) : Z :=
  match map CaseEvents.event_id (case_events db) with
  | [] => 0
  | x :: r => fold_right Z.max x r
  end.

Definition last_rowid (db : Db) : Z :=
  Z.max (largest_event_id db) (case_events_seq db).

Definition next_event_id (db : Db) : Z := 1 + last_rowid db.

Definition database_full : Exn := OperationalError "database or disk is full".

Definition insert_case_event
    (cb_id event_type : string) (event_date : option Timestamp)
    (event_data : option Json) (description : option string)
    (fk : bool) (db : Db) : SqlResult :=
  if negb (has_table db "case_events") then inl (no_such_table "case_events")
  else if max_rowid <=? last_rowid db then inl database_full
  else if fk && negb (chargeback_exists db cb_id)
  then inl fk_failed
  else
    let id := next_event_id db in
    inr (set_case_events db
           (case_events db
            ++ [{| CaseEvents.event_id := id;
                   CaseEvents.chargeback_id := cb_id;
                   CaseEvents.event_type := event_type;
                   CaseEvents.event_date := event_date;
                   CaseEvents.event_data := event_data;
                   CaseEvents.description := description |}])
           id).

(* ================================================================= *)
(** ** DELETE FROM table

    With foreign keys enforced, deleting a row that a child row references is
    refused. *)

Definition delete_case_events (fk : bool) (db : Db) : SqlResult :=
  if negb (has_table db "case_events") then inl (no_such_table "case_events")
  else inr (set_case_events db [] (case_events_seq db)).

Definition delete_chargebacks (fk : bool) (db : Db) : SqlResult :=
  if negb (has_table db "chargebacks") then inl (no_such_table "chargebacks")
  else if fk && existsb (fun e => chargeback_exists db (CaseEvents.chargeback_id e))
                  (case_events db)
  then inl fk_failed
  else inr (set_chargebacks db []).

Definition delete_transactions (fk : bool) (db : Db) : SqlResult :=
  if negb (has_table db "transactions") then inl (no_such_table "transactions")
  else if fk && existsb (fun c => transaction_exists db (Chargebacks.transaction_id c))
                  (chargebacks db)
  then inl fk_failed
  else inr (set_transactions db []).

Definition delete_customers (fk : bool) (db : Db) : SqlResult :=
  if negb (has_table db "customers") then inl (no_such_table "customers")
  else if fk && existsb (fun t => customer_exists db (Transactions.customer_id t))
                  (transactions db)
  then inl fk_failed
  else inr (set_customers db []).

Definition delete_merchants (fk : bool) (db : Db) : SqlResult :=
  if negb (has_table db "merchants") then inl (no_such_table "merchants")
  else if fk && existsb (fun t => merchant_exists db (Transactions.merchant_id t))
                  (transactions db)
  then inl fk_failed
  else inr (set_merchants db []).

(* ================================================================= *)
(** ** UPDATE and the SELECTs of the generator *)

(** [UPDATE customers SET total_chargebacks = ? WHERE customer_id = ?] *)
Definition update_total_chargebacks (count : Z) (cid : string)
    (fk : bool) (db : Db) : SqlResult :=
  if negb (has_table db "customers") then inl (no_such_table "customers")
  else inr (set_customers db
         (map (fun r =>
                 if String.eqb (Customers.customer_id r) cid
                 then {| Customers.customer_id := Customers.customer_id r;
                         Customers.name := Customers.name r;
                         Customers.email := Customers.email r;
                         Customers.region := Customers.region r;
                         Customers.created_at := Customers.created_at r;
                         Customers.total_chargebacks := Some count;
                         Customers.total_refunds := Customers.total_refunds r |}
                 else r)
              (customers db))).

(** [SELECT COUNT( * ) FROM chargebacks c
     JOIN transactions t ON c.transaction_id = t.transaction_id
     WHERE t.customer_id = ?]: the rows of the join are the pairs (c, t)
    that satisfy the ON condition. *)
Definition chargebacks_join_transactions (db : Db)
  : list (Chargebacks.row * Transactions.row) :=
  filter (fun ct => String.eqb (Chargebacks.transaction_id (fst ct))
                               (Transactions.transaction_id (snd ct)))
         (list_prod (chargebacks db) (transactions db)).

Definition count_chargebacks_of_customer (cid : string) (db : Db) : Z :=
  Z.of_nat (List.length
    (filter (fun ct => String.eqb (Transactions.customer_id (snd ct)) cid)
            (chargebacks_join_transactions db))).

(* ================================================================= *)
(** ** The scripts' world: file, connection, random generator, stdout *)

(** One line of standard output. Text is kept without its emoji, a formatted
    number is kept as the number; blank lines and the separator lines
    ["=" * 80] are left out. *)
Inductive Cell :=
| CNull
| CInt (z : Z)
| CDec (c : Dec)
| CSum (terms : list Dec)     (* SUM over these values, in this order *)
| CAvg (terms : list Dec)     (* AVG over these values, in this order *)
| CText (s : string)
| CTime (t : Timestamp).

Inductive Out :=
| Line (s : string)
| LineInt (label : string) (z : Z)          (* f"label: {z}" *)
| LineMoney (label : string) (c : Cell)     (* f"label: ${c:,.2f}" *)
| LineCount (label : string) (z : Z)        (* f"   label  {z} rows" *)
| Table (headers : list string) (rows : list (list Cell)).   (* tabulate *)

Record St := {
  (** the file [chargeback_system.db]: [None] when it does not exist,
      otherwise what has been committed to it *)
  disk : option Db;
  (** what the open connection sees (committed or not) *)
  work : Db;
  (** the connection's [PRAGMA foreign_keys] *)
  foreign_keys : bool;
  (** the random generator: an oracle and the number of draws made so far *)
  rand : nat -> Z;
  pos : nat;
  (** standard output, first line first *)
  out : list Out
}.

Inductive Res (A : Type) :=
| Ok (a : A) (st : St)
| Raise (e : Exn) (st : St).
Arguments Ok {A} a st.
Arguments Raise {A} e st.

Definition M (A : Type) := St -> Res A.

Definition ret {A} (a : A) : M A := fun st => Ok a st.

Definition bind {A B} (m : M A) (k : A -> M B) : M B :=
  fun st => match m st with
            | Ok a st' => k a st'
            | Raise e st' => Raise e st'
            end.

Definition raise {A} (e : Exn) : M A := fun st => Raise e st.

Notation "x <- c1 ;; c2" := (bind c1 (fun x => c2))
  (at level 61, c1 at next level, right associativity).
Notation "c1 ;; c2" := (bind c1 (fun _ => c2))
  (at level 61, right associativity).

Definition state_of {A} (r : Res A) : St :=
  match r with Ok _ st => st | Raise _ st => st end.

Definition succeeded {A} (r : Res A) : bool :=
  match r with Ok _ _ => true | Raise _ _ => false end.

Definition set_work (st : St) (db : Db) : St :=
  {| disk := disk st; work := db; foreign_keys := foreign_keys st;
     rand := rand st; pos := pos st; out := out st |}.

(** [print(...)] *)
Definition print (o : Out) : M unit :=
  fun st => Ok tt {| disk := disk st; work := work st;
                     foreign_keys := foreign_keys st;
                     rand := rand st; pos := pos st; out := out st ++ [o] |}.

(** [DB_PATH.exists()] *)
Definition db_path_exists : M bool :=
  fun st => Ok (match disk st with Some _ => true | None => false end) st.

(** [DB_PATH.unlink()] *)
Definition db_path_unlink : M unit :=
  fun st => Ok tt {| disk := None; work := work st;
                     foreign_keys := foreign_keys st;
                     rand := rand st; pos := pos st; out := out st |}.

(** [sqlite3.connect(str(DB_PATH))]: a new connection on the file's content
    (an empty database when there is no file), foreign keys not enforced. *)
Definition connect : M unit :=
  fun st => Ok tt {| disk := disk st;
                     work := match disk st with Some d => d | None => empty_db end;
                     foreign_keys := false;
                     rand := rand st; pos := pos st; out := out st |}.

(** [cursor.execute("PRAGMA foreign_keys = ON")] *)
Definition pragma_foreign_keys_on : M unit :=
  fun st => Ok tt {| disk := disk st; work := work st; foreign_keys := true;
                     rand := rand st; pos := pos st; out := out st |}.

(** [cursor.execute(statement)] *)
Definition execute (stmt : bool -> Db -> SqlResult) : M unit :=
  fun st => match stmt (foreign_keys st) (work st) with
            | inr db => Ok tt (set_work st db)
            | inl e => Raise e st
            end.

(** [cursor.execute(query); cursor.fetchone()[0]] and the like *)
Definition query {A} (q : Db -> A) : M A := fun st => Ok (q (work st)) st.

(** [conn.close()]: the connection ends and what it had not committed is
    lost.  The scripts use no connection after closing it; from here on the
    state carries the empty view, until [connect] opens a new connection. *)
Definition close : M unit :=
  fun st => Ok tt {| disk := disk st; work := empty_db; foreign_keys := false;
                     rand := rand st; pos := pos st; out := out st |}.

(** [conn.commit()] *)
Definition commit : M unit :=
  fun st => Ok tt {| disk := Some (work st); work := work st;
                     foreign_keys := foreign_keys st;
                     rand := rand st; pos := pos st; out := out st |}.

(** [for x in l: body(x)] *)
Fixpoint for_each {A} (l : list A) (body : A -> M unit) : M unit :=
  match l with
  | [] => ret tt
  | x :: l' => body x ;; for_each l' body
  end.

(* ================================================================= *)
(** ** [setup_database.py] *)

Definition schema_tables : list string :=
  ["customers"; "merchants"; "transactions"; "chargebacks"; "case_events"].

Definition schema_indexes : list (string * string * string) :=
  [ ("idx_transactions_customer", "transactions", "customer_id");
    ("idx_transactions_merchant", "transactions", "merchant_id");
    ("idx_transactions_date", "transactions", "transaction_date");
    ("idx_transactions_risk_level", "transactions", "risk_level");
    ("idx_transactions_status", "transactions", "status");
    ("idx_chargebacks_transaction", "chargebacks", "transaction_id");
    ("idx_chargebacks_status", "chargebacks", "status");
    ("idx_chargebacks_opened", "chargebacks", "opened_at");
    ("idx_chargebacks_outcome", "chargebacks", "outcome");
    ("idx_case_events_chargeback", "case_events", "chargeback_id");
    ("idx_case_events_type", "case_events", "event_type");
    ("idx_case_events_date", "case_events", "event_date") ].

(** [SELECT COUNT( * ) FROM table] *)
Definition count_rows (t : string) (db : Db) : Z :=
  if String.eqb t "customers" then Z.of_nat (List.length (customers db))
  else if String.eqb t "merchants" then Z.of_nat (List.length (merchants db))
  else if String.eqb t "transactions" then Z.of_nat (List.length (transactions db))
  else if String.eqb t "chargebacks" then Z.of_nat (List.length (chargebacks db))
  else Z.of_nat (List.length (case_events db)).

(** [ORDER BY]: a stable insertion sort.  SQL leaves the order of rows with
    equal keys open (SQLite follows its access path); the sort keeps them in
    the order of insertion.  Two dates tie here when they are the same
    number of days ago, where the stored texts still differ in their time
    of day: the listings that are ordered by a date are determined up to
    these ties only, and nothing below depends on their order. *)
Fixpoint insert_sorted {A} (le : A -> A -> bool) (x : A) (l : list A) : list A :=
  match l with
  | [] => [x]
  | y :: l' => if le x y then x :: l else y :: insert_sorted le x l'
  end.

Definition order_by {A} (le : A -> A -> bool) (l : list A) : list A :=
  fold_right (insert_sorted le) [] l.

(** [SELECT name FROM sqlite_master WHERE type='table' ORDER BY name]: the
    tables created so far and, once a table with an AUTOINCREMENT column
    exists, the table [sqlite_sequence] that SQLite keeps for it. *)
Definition sqlite_master_tables (db : Db) : list string :=
  order_by String.leb
    (tables db ++ (if has_table db "case_events" then ["sqlite_sequence"] else [])).

(** [SELECT COUNT( * ) FROM table] for a name that [sqlite_master] lists;
    [sqlite_sequence] has one row per AUTOINCREMENT table that was ever
    inserted into. *)
Definition count_rows_master (t : string) (db : Db) : Z :=
  if String.eqb t "sqlite_sequence"
  then (if case_events_seq db =? 0 then 0 else 1)
  else count_rows t db.

Definition init_database : M unit :=
  e <- db_path_exists ;;
  (if e : bool
   then print (Line "Removing existing database") ;; db_path_unlink
   else ret tt) ;;
  connect ;;
  print (Line "Creating fresh database") ;;
  pragma_foreign_keys_on ;;
  print (Line "Creating customers table...") ;;
  execute (fun _ => create_table "customers") ;;
  print (Line "Creating merchants table...") ;;
  execute (fun _ => create_table "merchants") ;;
  print (Line "Creating transactions table...") ;;
  execute (fun _ => create_table "transactions") ;;
  print (Line "Creating chargebacks table...") ;;
  execute (fun _ => create_table "chargebacks") ;;
  print (Line "Creating case_events table...") ;;
  execute (fun _ => create_table "case_events") ;;
  print (Line "Creating indexes for query optimization...") ;;
  for_each schema_indexes
    (fun i => let '(idx_name, table, column) := i in
              execute (fun _ => create_index idx_name table column) ;;
              print (Line idx_name)) ;;
  commit ;;
  print (Line "Database initialized successfully!") ;;
  tables <- query sqlite_master_tables ;;
  print (LineInt "Created tables" (Z.of_nat (List.length tables))) ;;
  for_each tables
    (fun table => count <- query (count_rows_master table) ;;
                  print (LineCount table count)) ;;
  close ;;
  print (Line "Database location: chargeback_system.db") ;;
  print (Line "Database size: (bytes of the file)") ;;
  print (Line "Database is ready to use!") ;;
  print (Line "You can now:") ;;
  print (Line "Import data into the tables") ;;
  print (Line "Query chargeback information") ;;
  print (Line "Track dispute cases and outcomes").

(* ================================================================= *)
(** ** [seed_data.py]: the module [random] and the helpers *)

Definition set_pos (st : St) (p : nat) : St :=
  {| disk := disk st; work := work st; foreign_keys := foreign_keys st;
     rand := rand st; pos := p; out := out st |}.

(** One draw of the generator. *)
Definition draw : M Z := fun st => Ok (rand st (pos st)) (set_pos st (S (pos st))).

(** [str(n)] of a number that is not negative, and of an integer *)
Definition str_nat (n : nat) : string := NilZero.string_of_uint (Nat.to_uint n).
Definition str (z : Z) : string := NilZero.string_of_int (Z.to_int z).

(** [random.randint(a, b)] is [randrange(a, b + 1)]: any integer of [a, b];
    on an empty range [ValueError], whose message (Python 3.11) gives the
    start, the stop and the width of the range. *)
Definition empty_range (a b : Z) : Exn :=
  ValueError ("empty range for randrange() (" ++ str a ++ ", " ++ str (b + 1)
              ++ ", " ++ str (b + 1 - a) ++ ")").

Definition randint (a b : Z) : M Z :=
  if b <? a then raise (empty_range a b)
  else r <- draw ;; ret (a + r mod (b - a + 1)).

(** [round(random.uniform(a, b), 2)], in hundredths. *)
Definition uniform_round2 (a b : Dec) : M Dec :=
  if b <? a then randint b a else randint a b.

(** [random.choice(seq)] *)
Definition choice {A} (l : list A) : M A :=
  match l with
  | [] => raise (IndexError "Cannot choose from an empty sequence")
  | x :: _ => i <- randint 0 (Z.of_nat (List.length l) - 1) ;;
              ret (nth (Z.to_nat i) l x)
  end.

(** [random_date(start_days_ago=365, end_days_ago=1)].  The clock is not
    part of the model: a date is kept as the number of days before the
    moment of the run, and [datetime.now() - timedelta(days=n)] is taken to
    exist.  It does for day counts between 0 and 700000 on every clock of
    this era and later; the scripts call [random_date] with literal counts
    between 0 and 730. *)
Definition random_date (start_days_ago end_days_ago : Z) : M Timestamp :=
  days_ago <- randint end_days_ago start_days_ago ;;
  ret (DaysAgo days_ago).

(** [s.rjust(width, "0")] *)
Fixpoint zeros (n : nat) : string :=
  match n with O => "" | S n' => String "0" (zeros n') end.
Definition zfill (width : nat) (s : string) : string :=
  zeros (width - String.length s) ++ s.

(** [f"{num:04d}"]: at least four characters; the sign of a negative number
    comes first and counts, the zeros stand between the sign and the
    digits. *)
Definition format_04d (num : Z) : string :=
  if num <? 0 then "-" ++ zfill 3 (str_nat (Z.to_nat (- num)))
  else zfill 4 (str_nat (Z.to_nat num)).

(** [generate_id(prefix, num)]: [f"{prefix}_{num:04d}"] *)
Definition generate_id (prefix : string) (num : Z) : string :=
  prefix ++ "_" ++ format_04d num.

(** [for x in l: s = body(x, s)]: a loop that updates local variables [s]. *)
Fixpoint for_fold {A S} (l : list A) (body : A -> S -> M S) (s : S) : M S :=
  match l with
  | [] => ret s
  | x :: l' => s' <- body x s ;; for_fold l' body s'
  end.

(** [range(n)] *)
Definition range (n : Z) : list Z := map Z.of_nat (seq 0 (Z.to_nat n)).

(** [d.get(k, [])] on a dict display whose keys are written once *)
Fixpoint dict_get {V} (d : list (string * list V)) (k : string) : list V :=
  match d with
  | [] => []
  | (k', v) :: d' => if String.eqb k' k then v else dict_get d' k
  end.

(* ================================================================= *)
(** ** The data of the generator *)

Definition merchants_data : list (string * string * string * Dec) :=
  [ ("merch_001", "TechStore Pro", "Chase Bank", dec 72 50);
    ("merch_002", "FashionHub", "Bank of America", dec 68 30);
    ("merch_003", "Electronics Plus", "Wells Fargo", dec 75 10);
    ("merch_004", "Home Essentials", "Citi Bank", dec 70 80) ].

Definition customers_data : list (string * string * string * string) :=
  [ ("cust_001", "Sarah Johnson", "sarah.j@email.com", "US");
    ("cust_002", "Michael Chen", "m.chen@email.com", "US");
    ("cust_003", "Emma Williams", "emma.w@email.com", "US");
    ("cust_004", "David Rodriguez", "d.rodriguez@email.com", "US");
    ("cust_005", "Lisa Anderson", "lisa.a@email.com", "US");
    ("cust_006", "James Taylor", "j.taylor@email.com", "US");
    ("cust_007", "Maria Garcia", "maria.g@email.com", "US") ].

(** An entry of the list [chargeback_cases]: the dict that each case block
    appends. [fraud_type] is the category tag; it is not written to the
    database. *)
Module Case.
Record dict := {
  chargeback_id : string;
  transaction_id : string;
  dispute_date : Timestamp;
  reason_code : string;
  dispute_type : string;
  issuing_bank : string;
  chargeback_amount : Dec;
  analyst_id : string;
  status : string;
  opened_at : Timestamp;
  closed_at : option Timestamp;
  outcome : option string;
  notes : string;
  fraud_type : string
}.
End Case.

(** [seed_database] has 23 case blocks, textual copies of one another up to
    their literals: [cbN_tx_id = generate_id(...)], the counter increment, the
    INSERT of the disputed transaction and the [chargeback_cases.append].
    [CaseBlock] holds the literals of one block in source order: the tuple of
    the INSERT (without the transaction id), then the values of the dict.  A
    pair [(a, b)] stands for a call [random_date(a, b)]. *)
Record CaseBlock := Block {
  tx_var : string;                   (* the name of the Python variable *)
  tx_customer_id : string;
  tx_merchant_id : string;
  tx_amount : Dec;
  tx_currency : string;
  tx_payment_method : string;
  tx_card_last_4 : string;
  tx_transaction_date : Z * Z;
  tx_status : string;
  tx_avs_check : string;
  tx_cvv_check : string;
  tx_three_ds_used : Z;
  tx_auth_code : string;
  tx_ip_address : string;
  tx_device_fingerprint : string;
  tx_fraud_score : Dec;
  tx_risk_level : string;
  tx_velocity_flag : Z;
  tx_velocity_data : Json;
  tx_risk_assessed_at : Z * Z;
  cb_chargeback_id : string;
  cb_dispute_date : Z * Z;
  cb_reason_code : string;
  cb_dispute_type : string;
  cb_issuing_bank : string;
  cb_chargeback_amount : Dec;
  cb_analyst_id : string;
  cb_status : string;
  cb_opened_at : Z * Z;
  cb_closed_at : option (Z * Z);
  cb_outcome : option string;
  cb_notes : string;
  cb_fraud_type : string
}.

Definition case_blocks : list CaseBlock :=
  [
    (* Case 1: Stolen Card *)
    Block "cb1_tx_id"
      "cust_001" "merch_001" (dec 1249 99) "USD" "visa" "4521"
      (30, 25) "disputed" "N" "N" 0 "AUTH12345"
      "185.220.101.45" "DEV999001" (dec 95 50) "high" 1
      (JObj [ ("cards_last_24h", JInt 8); ("same_ip_count", JInt 0); ("transactions_last_week", JInt 12) ])
      (30, 25)
      "cb_001" (25, 20) "4855" "fraud" "Chase Bank"
      (dec 1249 99) "analyst_001" "open" (20, 18) None None
      "Cardholder reports card stolen. Transaction from unusual location. Multiple high-value transactions in 24h."
      "true_fraud";
    (* Case 2: Account Takeover *)
    Block "cb2_tx_id"
      "cust_002" "merch_002" (dec 899 50) "USD" "mastercard" "5432"
      (28, 23) "disputed" "Z" "N" 0 "AUTH67890"
      "203.0.113.22" "DEV999002" (dec 88 20) "high" 1
      (JObj [ ("cards_last_24h", JInt 5); ("same_ip_count", JInt 0); ("transactions_last_week", JInt 7) ])
      (28, 23)
      "cb_002" (23, 18) "4853" "fraud" "Bank of America"
      (dec 899 50) "analyst_002" "open" (18, 16) None None
      "Account takeover suspected. Login from new device and location. Customer denies all transactions."
      "true_fraud";
    (* Case 3: Item Not Received *)
    Block "cb3_tx_id"
      "cust_003" "merch_001" (dec 299 99) "USD" "visa" "1234"
      (45, 40) "disputed" "Y" "Y" 1 "AUTH11111"
      "192.168.1.100" "DEV123456" (dec 15 0) "low" 0
      (JObj [ ("cards_last_24h", JInt 1); ("same_ip_count", JInt 5); ("transactions_last_week", JInt 2) ])
      (45, 40)
      "cb_003" (35, 30) "4855" "service_not_provided" "Wells Fargo"
      (dec 299 99) "analyst_003" "open" (30, 28) None None
      "Customer claims item never received. Tracking shows delivered. Customer has history of similar claims."
      "friendly_fraud";
    (* Case 4: Product Quality Issue *)
    Block "cb4_tx_id"
      "cust_004" "merch_003" (dec 549 99) "USD" "amex" "5678"
      (60, 55) "disputed" "Y" "Y" 1 "AUTH22222"
      "192.168.1.101" "DEV123457" (dec 12 50) "low" 0
      (JObj [ ("cards_last_24h", JInt 1); ("same_ip_count", JInt 8); ("transactions_last_week", JInt 3) ])
      (60, 55)
      "cb_004" (50, 45) "4855" "service_not_provided" "Citi Bank"
      (dec 549 99) "analyst_004" "open" (45, 43) None None
      "Customer claims product defective. Merchant provided refund but customer filed chargeback anyway."
      "friendly_fraud";
    (* Case 5: Subscription Cancellation *)
    Block "cb5_tx_id"
      "cust_005" "merch_002" (dec 79 99) "USD" "visa" "9012"
      (90, 85) "disputed" "Y" "Y" 1 "AUTH33333"
      "192.168.1.102" "DEV123458" (dec 10 0) "low" 0
      (JObj [ ("cards_last_24h", JInt 1); ("same_ip_count", JInt 12); ("transactions_last_week", JInt 1) ])
      (90, 85)
      "cb_005" (80, 75) "4855" "service_not_provided" "Chase Bank"
      (dec 79 99) "analyst_005" "open" (75, 73) None None
      "Customer cancelled subscription but was charged. Claims cancellation before billing cycle."
      "friendly_fraud";
    (* Case 6: Unauthorized Family Member *)
    Block "cb6_tx_id"
      "cust_006" "merch_004" (dec 199 99) "USD" "mastercard" "3456"
      (40, 35) "disputed" "Y" "Y" 1 "AUTH44444"
      "192.168.1.103" "DEV123459" (dec 18 0) "low" 0
      (JObj [ ("cards_last_24h", JInt 1); ("same_ip_count", JInt 6); ("transactions_last_week", JInt 4) ])
      (40, 35)
      "cb_006" (30, 25) "4855" "fraud" "Bank of America"
      (dec 199 99) "analyst_006" "open" (25, 23) None None
      "Customer claims unauthorized transaction. Same IP, device, and shipping address. Likely family member."
      "friendly_fraud";
    (* Case 7: Duplicate Charge *)
    Block "cb7_tx_id"
      "cust_001" "merch_003" (dec 149 99) "USD" "visa" "4521"
      (20, 18) "disputed" "Y" "Y" 1 "AUTH66666"
      "192.168.1.100" "DEV123456" (dec 5 0) "low" 0
      (JObj [ ("cards_last_24h", JInt 1); ("same_ip_count", JInt 5); ("transactions_last_week", JInt 2) ])
      (20, 18)
      "cb_007" (15, 12) "4837" "duplicate" "Chase Bank"
      (dec 149 99) "analyst_007" "open" (12, 10) None None
      "Customer charged twice for same purchase. Merchant confirmed duplicate. Refund processed."
      "merchant_error";
    (* Case 8: Wrong Amount *)
    Block "cb8_tx_id"
      "cust_002" "merch_002" (dec 249 99) "USD" "mastercard" "5432"
      (25, 22) "disputed" "Y" "Y" 1 "AUTH77777"
      "192.168.1.101" "DEV123457" (dec 8 0) "low" 0
      (JObj [ ("cards_last_24h", JInt 1); ("same_ip_count", JInt 8); ("transactions_last_week", JInt 3) ])
      (25, 22)
      "cb_008" (18, 15) "4837" "duplicate" "Bank of America"
      (dec 249 99) "analyst_008" "open" (15, 13) None None
      "Customer ordered for $99.99 but charged $249.99. Merchant pricing error. Partial refund issued."
      "merchant_error";
    (* Case 9: Legitimate Purchase - Customer Confusion *)
    Block "cb9_tx_id"
      "cust_003" "merch_001" (dec 179 99) "USD" "visa" "1234"
      (70, 65) "disputed" "Y" "Y" 1 "AUTH88888"
      "192.168.1.100" "DEV123456" (dec 12 0) "low" 0
      (JObj [ ("cards_last_24h", JInt 1); ("same_ip_count", JInt 5); ("transactions_last_week", JInt 2) ])
      (70, 65)
      "cb_009" (60, 55) "4855" "fraud" "Wells Fargo"
      (dec 179 99) "analyst_009" "won" (55, 53) (Some (40, 38)) (Some "won")
      "Customer claimed unauthorized. Merchant provided proof: same IP, device, shipping address, email confirmation. Chargeback reversed."
      "not_guilty";
    (* Case 10: Subscription Renewal - Customer Forgot *)
    Block "cb10_tx_id"
      "cust_004" "merch_002" (dec 49 99) "USD" "amex" "5678"
      (85, 80) "disputed" "Y" "Y" 1 "AUTH99999"
      "192.168.1.101" "DEV123457" (dec 10 0) "low" 0
      (JObj [ ("cards_last_24h", JInt 1); ("same_ip_count", JInt 8); ("transactions_last_week", JInt 3) ])
      (85, 80)
      "cb_010" (75, 70) "4855" "service_not_provided" "Citi Bank"
      (dec 49 99) "analyst_010" "won" (70, 68) (Some (55, 53)) (Some "won")
      "Customer claimed unauthorized subscription. Merchant provided signed TOS, agreement, 6 months usage logs. Chargeback reversed."
      "not_guilty";
    (* Case 11: Digital Goods Delivered *)
    Block "cb11_tx_id"
      "cust_005" "merch_003" (dec 89 99) "USD" "visa" "9012"
      (50, 45) "disputed" "Y" "Y" 1 "AUTH10101"
      "192.168.1.102" "DEV123458" (dec 8 0) "low" 0
      (JObj [ ("cards_last_24h", JInt 1); ("same_ip_count", JInt 12); ("transactions_last_week", JInt 1) ])
      (50, 45)
      "cb_011" (40, 35) "4855" "service_not_provided" "Chase Bank"
      (dec 89 99) "analyst_011" "won" (35, 33) (Some (20, 18)) (Some "won")
      "Customer claimed digital product not received. Merchant provided delivery confirmation, download logs, IP match, usage analytics. Chargeback reversed."
      "not_guilty";
    (* Case 12: Return Policy Violation *)
    Block "cb12_tx_id"
      "cust_006" "merch_004" (dec 299 99) "USD" "mastercard" "3456"
      (65, 60) "disputed" "Y" "Y" 1 "AUTH20202"
      "192.168.1.103" "DEV123459" (dec 15 0) "low" 0
      (JObj [ ("cards_last_24h", JInt 1); ("same_ip_count", JInt 6); ("transactions_last_week", JInt 4) ])
      (65, 60)
      "cb_012" (55, 50) "4855" "service_not_provided" "Bank of America"
      (dec 299 99) "analyst_012" "won" (50, 48) (Some (35, 33)) (Some "won")
      "Customer claimed defective. Merchant provided return policy, photos of used item, expired return window (45 vs 30 days). Chargeback reversed."
      "not_guilty";
    (* Case 13: Item Delivered - Customer Dishonest *)
    Block "cb13_tx_id"
      "cust_007" "merch_001" (dec 399 99) "USD" "visa" "7890"
      (55, 50) "disputed" "Y" "Y" 1 "AUTH30303"
      "192.168.1.104" "DEV123460" (dec 11 0) "low" 0
      (JObj [ ("cards_last_24h", JInt 1); ("same_ip_count", JInt 10); ("transactions_last_week", JInt 2) ])
      (55, 50)
      "cb_013" (45, 40) "4855" "service_not_provided" "Wells Fargo"
      (dec 399 99) "analyst_013" "won" (40, 38) (Some (25, 23)) (Some "won")
      "Customer claimed not received. Merchant provided delivery confirmation, signature, GPS tracking. Chargeback reversed."
      "not_guilty";
    (* Case 14: Card Skimming - True Fraud [cust_003 - has history] *)
    Block "cb14_tx_id"
      "cust_003" "merch_002" (dec 675 50) "USD" "visa" "1234"
      (42, 38) "disputed" "N" "N" 0 "AUTH45678"
      "198.51.100.10" "DEV999003" (dec 92 30) "high" 1
      (JObj [ ("cards_last_24h", JInt 6); ("same_ip_count", JInt 0); ("transactions_last_week", JInt 9) ])
      (42, 38)
      "cb_014" (38, 33) "4855" "fraud" "Wells Fargo"
      (dec 675 50) "analyst_014" "open" (33, 31) None None
      "Card skimming detected. Transaction from compromised terminal. Multiple unauthorized transactions from same card."
      "true_fraud";
    (* Case 15: CNP Fraud - True Fraud [cust_001 - has history with cb_001] *)
    Block "cb15_tx_id"
      "cust_001" "merch_004" (dec 1125 0) "USD" "visa" "4521"
      (50, 45) "disputed" "N" "N" 0 "AUTH56789"
      "172.217.12.46" "DEV999004" (dec 89 70) "high" 1
      (JObj [ ("cards_last_24h", JInt 4); ("same_ip_count", JInt 0); ("transactions_last_week", JInt 6) ])
      (50, 45)
      "cb_015" (45, 40) "4855" "fraud" "Chase Bank"
      (dec 1125 0) "analyst_015" "open" (40, 38) None None
      "Card Not Present (CNP) fraud. Card details stolen. Transaction from unusual location. Customer reported card lost."
      "true_fraud";
    (* Case 16: Synthetic Identity Fraud - True Fraud [new customer or cust_007] *)
    Block "cb16_tx_id"
      "cust_007" "merch_001" (dec 825 75) "USD" "mastercard" "7890"
      (55, 50) "disputed" "Z" "N" 0 "AUTH67891"
      "104.248.90.2" "DEV999005" (dec 91 20) "high" 1
      (JObj [ ("cards_last_24h", JInt 7); ("same_ip_count", JInt 0); ("transactions_last_week", JInt 11) ])
      (55, 50)
      "cb_016" (50, 45) "4853" "fraud" "Wells Fargo"
      (dec 825 75) "analyst_016" "open" (45, 43) None None
      "Synthetic identity fraud suspected. Account opened recently with minimal history. High-value transaction from new device."
      "true_fraud";
    (* Case 17: Item Not Received - Repeat Offender [cust_003 - has history] *)
    Block "cb17_tx_id"
      "cust_003" "merch_003" (dec 425 99) "USD" "visa" "1234"
      (120, 115) "disputed" "Y" "Y" 1 "AUTH78901"
      "192.168.1.100" "DEV123456" (dec 14 50) "low" 0
      (JObj [ ("cards_last_24h", JInt 1); ("same_ip_count", JInt 5); ("transactions_last_week", JInt 2) ])
      (120, 115)
      "cb_017" (110, 105) "4855" "service_not_provided" "Wells Fargo"
      (dec 425 99) "analyst_017" "won" (105, 103) (Some (90, 88)) (Some "won")
      "Customer claims item never received. Tracking shows delivered. Customer has 3 previous 'item not received' claims. Chargeback reversed in favor of merchant."
      "friendly_fraud";
    (* Case 18: Subscription Renewal Dispute [cust_005 - has history] *)
    Block "cb18_tx_id"
      "cust_005" "merch_001" (dec 99 99) "USD" "visa" "9012"
      (180, 175) "disputed" "Y" "Y" 1 "AUTH89012"
      "192.168.1.102" "DEV123458" (dec 11 0) "low" 0
      (JObj [ ("cards_last_24h", JInt 1); ("same_ip_count", JInt 12); ("transactions_last_week", JInt 1) ])
      (180, 175)
      "cb_018" (170, 165) "4855" "service_not_provided" "Chase Bank"
      (dec 99 99) "analyst_018" "won" (165, 163) (Some (150, 148)) (Some "won")
      "Customer claims subscription cancelled but was charged. Previous subscription dispute history. Merchant provided evidence, chargeback reversed."
      "friendly_fraud";
    (* Case 19: Quality Issue - Repeat Pattern [cust_004 - has history] *)
    Block "cb19_tx_id"
      "cust_004" "merch_004" (dec 375 50) "USD" "amex" "5678"
      (200, 195) "disputed" "Y" "Y" 1 "AUTH90123"
      "192.168.1.101" "DEV123457" (dec 13 0) "low" 0
      (JObj [ ("cards_last_24h", JInt 1); ("same_ip_count", JInt 8); ("transactions_last_week", JInt 3) ])
      (200, 195)
      "cb_019" (190, 185) "4855" "service_not_provided" "Citi Bank"
      (dec 375 50) "analyst_019" "won" (185, 183) (Some (170, 168)) (Some "won")
      "Customer claims product defective. Merchant provided refund but customer filed chargeback. Pattern of quality disputes. Chargeback reversed."
      "friendly_fraud";
    (* Case 20: Family Member Purchase [cust_006 - has history] *)
    Block "cb20_tx_id"
      "cust_006" "merch_002" (dec 275 25) "USD" "mastercard" "3456"
      (150, 145) "disputed" "Y" "Y" 1 "AUTH01234"
      "192.168.1.103" "DEV123459" (dec 16 50) "low" 0
      (JObj [ ("cards_last_24h", JInt 1); ("same_ip_count", JInt 6); ("transactions_last_week", JInt 4) ])
      (150, 145)
      "cb_020" (140, 135) "4855" "fraud" "Bank of America"
      (dec 275 25) "analyst_020" "won" (135, 133) (Some (120, 118)) (Some "won")
      "Customer claims unauthorized. Same IP, device, and shipping address as previous orders. Likely family member. Previous similar claim. Chargeback reversed."
      "friendly_fraud";
    (* Case 21: Processing Error [cust_001 - has history] *)
    Block "cb21_tx_id"
      "cust_001" "merch_002" (dec 189 99) "USD" "visa" "4521"
      (100, 95) "disputed" "Y" "Y" 1 "AUTH12346"
      "192.168.1.100" "DEV123456" (dec 6 0) "low" 0
      (JObj [ ("cards_last_24h", JInt 1); ("same_ip_count", JInt 5); ("transactions_last_week", JInt 2) ])
      (100, 95)
      "cb_021" (90, 85) "4837" "duplicate" "Chase Bank"
      (dec 189 99) "analyst_021" "lost" (85, 83) (Some (75, 73)) (Some "lost")
      "Payment processing error caused duplicate authorization. Merchant confirmed error. Refund processed. Chargeback upheld in favor of customer."
      "merchant_error";
    (* Case 22: Refund Not Processed [cust_002 - has history] *)
    Block "cb22_tx_id"
      "cust_002" "merch_003" (dec 319 99) "USD" "mastercard" "5432"
      (130, 125) "disputed" "Y" "Y" 1 "AUTH23457"
      "192.168.1.101" "DEV123457" (dec 7 50) "low" 0
      (JObj [ ("cards_last_24h", JInt 1); ("same_ip_count", JInt 8); ("transactions_last_week", JInt 3) ])
      (130, 125)
      "cb_022" (120, 115) "4837" "duplicate" "Bank of America"
      (dec 319 99) "analyst_022" "lost" (115, 113) (Some (105, 103)) (Some "lost")
      "Customer returned item and refund was authorized but not processed due to system error. Merchant acknowledged and processed refund. Chargeback upheld in favor of customer."
      "merchant_error";
    (* Case 23: Authorization Hold Not Released [cust_007 - has history] *)
    Block "cb23_tx_id"
      "cust_007" "merch_004" (dec 225 0) "USD" "visa" "7890"
      (75, 70) "disputed" "Y" "Y" 1 "AUTH34568"
      "192.168.1.104" "DEV123460" (dec 9 0) "low" 0
      (JObj [ ("cards_last_24h", JInt 1); ("same_ip_count", JInt 10); ("transactions_last_week", JInt 2) ])
      (75, 70)
      "cb_023" (65, 60) "4837" "duplicate" "Wells Fargo"
      (dec 225 0) "analyst_023" "lost" (60, 58) (Some (50, 48)) (Some "lost")
      "Authorization hold from cancelled order not released. Merchant confirmed error and released hold. Customer charged twice. Chargeback upheld in favor of customer."
      "merchant_error" ].

(* ================================================================= *)
(** ** [seed_database], step by step *)

(** "Clear existing data for fresh start" *)
Definition clear_existing_data : M unit :=
  execute delete_case_events ;;
  execute delete_chargebacks ;;
  execute delete_transactions ;;
  execute delete_customers ;;
  execute delete_merchants ;;
  commit.

(** "1. Create Merchants" *)
Definition create_merchants : M unit :=
  for_each merchants_data
    (fun m => let '(merchant_id, name, bank, win_rate) := m in
       created <- random_date 730 1 ;;
       execute (insert_merchant
         {| Merchants.merchant_id := merchant_id;
            Merchants.merchant_name := name;
            Merchants.acquiring_bank := Some bank;
            Merchants.win_rate := Some win_rate;
            Merchants.created_at := Some created |})).

(** "2. Create Customers": the INSERT names five columns; the other two take
    their DEFAULT, 0 and 0.00. *)
Definition create_customers : M unit :=
  for_each customers_data
    (fun c => let '(customer_id, name, email, region) := c in
       created <- random_date 730 1 ;;
       execute (insert_customer
         {| Customers.customer_id := customer_id;
            Customers.name := name;
            Customers.email := Some email;
            Customers.region := Some region;
            Customers.created_at := Some created;
            Customers.total_chargebacks := Some 0;
            Customers.total_refunds := Some (dec 0 0) |})).

(** "3. Create normal transactions for each customer": the body of the inner
    loop; it returns the incremented [transaction_counter]. *)
Definition normal_transaction (customer_id : string) (transaction_counter : nat)
  : M nat :=
  let tx_id := generate_id "txn" (Z.of_nat transaction_counter) in
  merchant_id <- choice ["merch_001"; "merch_002"; "merch_003"; "merch_004"] ;;
  amount <- uniform_round2 (dec 25 0) (dec 850 0) ;;
  tx_date <- random_date 180 10 ;;
  fraud_score <- uniform_round2 (dec 5 0) (dec 25 0) ;;
  last_week <- randint 1 3 ;;
  let velocity_data :=
    JObj [ ("cards_last_24h", JInt 0); ("same_ip_count", JInt 1);
           ("transactions_last_week", JInt last_week) ] in
  payment_method <- choice ["visa"; "mastercard"; "amex"] ;;
  card <- randint 1000 9999 ;;
  avs <- choice ["Y"; "N"; "Z"] ;;
  cvv <- choice ["Y"; "N"] ;;
  three_ds <- choice [0; 1] ;;
  auth <- randint 10000 99999 ;;
  ip3 <- randint 1 255 ;;
  ip4 <- randint 1 255 ;;
  dev <- randint 100000 999999 ;;
  execute (insert_transaction
    {| Transactions.transaction_id := tx_id;
       Transactions.customer_id := customer_id;
       Transactions.merchant_id := merchant_id;
       Transactions.amount := amount;
       Transactions.currency := Some "USD";
       Transactions.payment_method := Some payment_method;
       Transactions.card_last_4 := Some (str card);
       Transactions.transaction_date := Some tx_date;
       Transactions.status := Some "completed";
       Transactions.avs_check := Some avs;
       Transactions.cvv_check := Some cvv;
       Transactions.three_ds_used := Some three_ds;
       Transactions.auth_code := Some ("AUTH" ++ str auth);
       Transactions.ip_address := Some ("192.168." ++ str ip3 ++ "." ++ str ip4);
       Transactions.device_fingerprint := Some ("DEV" ++ str dev);
       Transactions.fraud_score := Some fraud_score;
       Transactions.risk_level := Some "low";
       Transactions.velocity_flag := Some 0;
       Transactions.velocity_data := Some velocity_data;
       Transactions.risk_assessed_at := Some tx_date |}) ;;
  ret (S transaction_counter).

Definition create_normal_transactions (transaction_counter : nat) : M nat :=
  for_fold customers_data
    (fun c counter => let '(customer_id, _, _, _) := c in
       num_transactions <- randint 5 10 ;;
       for_fold (range num_transactions)
         (fun _ counter => normal_transaction customer_id counter) counter)
    transaction_counter.

(** One case block of "4. Create Chargeback Cases"; the local variables it
    updates are [transaction_counter] and [chargeback_cases]. *)
Definition case_block (b : CaseBlock) (locals : nat * list Case.dict)
  : M (nat * list Case.dict) :=
  let '(transaction_counter, chargeback_cases) := locals in
  let cb_tx_id := generate_id "txn" (Z.of_nat transaction_counter) in
  let transaction_counter := S transaction_counter in
  tx_date <- random_date (fst (tx_transaction_date b)) (snd (tx_transaction_date b)) ;;
  assessed <- random_date (fst (tx_risk_assessed_at b)) (snd (tx_risk_assessed_at b)) ;;
  execute (insert_transaction
    {| Transactions.transaction_id := cb_tx_id;
       Transactions.customer_id := tx_customer_id b;
       Transactions.merchant_id := tx_merchant_id b;
       Transactions.amount := tx_amount b;
       Transactions.currency := Some (tx_currency b);
       Transactions.payment_method := Some (tx_payment_method b);
       Transactions.card_last_4 := Some (tx_card_last_4 b);
       Transactions.transaction_date := Some tx_date;
       Transactions.status := Some (tx_status b);
       Transactions.avs_check := Some (tx_avs_check b);
       Transactions.cvv_check := Some (tx_cvv_check b);
       Transactions.three_ds_used := Some (tx_three_ds_used b);
       Transactions.auth_code := Some (tx_auth_code b);
       Transactions.ip_address := Some (tx_ip_address b);
       Transactions.device_fingerprint := Some (tx_device_fingerprint b);
       Transactions.fraud_score := Some (tx_fraud_score b);
       Transactions.risk_level := Some (tx_risk_level b);
       Transactions.velocity_flag := Some (tx_velocity_flag b);
       Transactions.velocity_data := Some (tx_velocity_data b);
       Transactions.risk_assessed_at := Some assessed |}) ;;
  dispute <- random_date (fst (cb_dispute_date b)) (snd (cb_dispute_date b)) ;;
  opened <- random_date (fst (cb_opened_at b)) (snd (cb_opened_at b)) ;;
  closed <- match cb_closed_at b with
            | None => ret None
            | Some (s, e) => t <- random_date s e ;; ret (Some t)
            end ;;
  ret (transaction_counter,
       (chargeback_cases ++
       [ {| Case.chargeback_id := cb_chargeback_id b;
            Case.transaction_id := cb_tx_id;
            Case.dispute_date := dispute;
            Case.reason_code := cb_reason_code b;
            Case.dispute_type := cb_dispute_type b;
            Case.issuing_bank := cb_issuing_bank b;
            Case.chargeback_amount := cb_chargeback_amount b;
            Case.analyst_id := cb_analyst_id b;
            Case.status := cb_status b;
            Case.opened_at := opened;
            Case.closed_at := closed;
            Case.outcome := cb_outcome b;
            Case.notes := cb_notes b;
            Case.fraud_type := cb_fraud_type b |} ])%list).

Definition create_chargeback_cases (transaction_counter : nat)
  : M (nat * list Case.dict) :=
  for_fold case_blocks case_block (transaction_counter, []).

(** "Insert all chargebacks" *)
Definition chargeback_row (cb : Case.dict) (deadline : Timestamp)
  : Chargebacks.row :=
  {| Chargebacks.chargeback_id := Case.chargeback_id cb;
     Chargebacks.transaction_id := Case.transaction_id cb;
     Chargebacks.dispute_date := Some (Case.dispute_date cb);
     Chargebacks.reason_code := Some (Case.reason_code cb);
     Chargebacks.dispute_type := Some (Case.dispute_type cb);
     Chargebacks.issuing_bank := Some (Case.issuing_bank cb);
     Chargebacks.chargeback_amount := Case.chargeback_amount cb;
     Chargebacks.analyst_id := Some (Case.analyst_id cb);
     Chargebacks.status := Some (Case.status cb);
     Chargebacks.opened_at := Some (Case.opened_at cb);
     Chargebacks.closed_at := Case.closed_at cb;
     Chargebacks.outcome := Case.outcome cb;
     Chargebacks.retrieval_request_date := None;
     Chargebacks.response_deadline := Some deadline;
     Chargebacks.notes := Some (Case.notes cb) |}.

Definition insert_all_chargebacks (chargeback_cases : list Case.dict) : M unit :=
  for_each chargeback_cases
    (fun cb => deadline <- random_date 30 10 ;;
               execute (insert_chargeback (chargeback_row cb deadline))).

(** The value of a variable [cbN_tx_id], as the case block of that name set
    it. *)
Fixpoint tx_id_of (var : string) (bs : list CaseBlock) (cases : list Case.dict)
  : string :=
  match bs, cases with
  | b :: bs', c :: cases' =>
      if String.eqb (tx_var b) var then Case.transaction_id c
      else tx_id_of var bs' cases'
  | _, _ => ""
  end.

Definition case_evidence_display (cb7_tx_id cb21_tx_id : string)
  : list (string * list (string * Json * string)) :=
  [
    ("cb_001",
     [
      ("support_ticket",
        JObj
          [ ("ticket_id", JStr "TKT12345");
            ("customer_contact_date", JRandomDate 25 20);
            ("contact_method", JStr "phone");
            ("customer_statement", JStr "Card stolen on date X, reported immediately to bank");
            ("card_cancelled", JBool true);
            ("police_report", JStr "POL-RPT-2024-001");
            ("card_issuer_notified", JBool true) ],
        "Customer reported card stolen. Immediate card cancellation requested. Police report filed.");
      ("transaction_analysis",
        JObj
          [ ("unusual_location", JBool true);
            ("location_country", JStr "Russia");
            ("location_city", JStr "Moscow");
            ("customer_location", JStr "San Francisco, CA");
            ("distance_miles", JInt 5900);
            ("time_of_transaction", JStr "03:45 AM local time");
            ("multiple_cards_24h", JInt 8);
            ("velocity_score", JDec (dec 95 50)) ],
        "Transaction originated from Russia (IP: 185.220.101.45), 5900 miles from customer's location. Multiple cards used in 24h.");
      ("fraud_indicators",
        JObj
          [ ("avs_match", JStr "N");
            ("cvv_match", JStr "N");
            ("3ds_used", JBool false);
            ("device_fingerprint", JStr "DEV999001");
            ("device_known", JBool false);
            ("browser_fingerprint", JStr "Mozilla/5.0 (unknown) - first seen");
            ("ip_reputation", JStr "high_risk");
            ("transaction_pattern", JStr "unusual_behavior") ],
        "Strong fraud indicators: AVS/CVV failed, no 3DS, new device, high-risk IP address.");
      ("velocity_check",
        JObj
          [ ("cards_last_24h", JInt 8);
            ("transactions_last_week", JInt 12);
            ("amount_last_24h", JDec (dec 8750 50));
            ("velocity_flag", JBool true);
            ("same_ip_count", JInt 0);
            ("risk_level", JStr "critical") ],
        "High velocity detected: 8 different cards used in 24h, $8,750.50 in transactions, 12 transactions in 7 days.");
      ("previous_dispute",
        JObj
          [ ("total_disputes", JInt 0);
            ("fraud_disputes", JInt 0);
            ("customer_standing", JStr "good");
            ("account_age_days", JInt 1245);
            ("first_dispute", JBool true) ],
        "Customer has 0 previous disputes. First-time fraud claim. Account in good standing for 3.4 years.") ]);
    ("cb_002",
     [
      ("support_ticket",
        JObj
          [ ("ticket_id", JStr "TKT12346");
            ("customer_contact_date", JRandomDate 23 18);
            ("contact_method", JStr "email");
            ("customer_statement", JStr "Received email about password change. Did not authorize. Account locked.");
            ("account_locked", JBool true);
            ("password_reset_attempts", JInt 5);
            ("suspicious_activity_alert", JBool true) ],
        "Customer reported unauthorized account access. Account locked after suspicious login attempts.");
      ("login_analysis",
        JObj
          [ ("login_location", JStr "Ukraine");
            ("login_ip", JStr "203.0.113.22");
            ("login_device", JStr "Windows 10 - new device");
            ("customer_location", JStr "New York, NY");
            ("login_time", JStr "02:15 AM EST");
            ("device_known", JBool false);
            ("browser_fingerprint", JStr "Chrome/120.0 - first seen");
            ("session_duration", JStr "45 minutes");
            ("actions_taken", JList [JStr "password_change"; JStr "email_change"; JStr "purchase"]) ],
        "Account login from Ukraine (IP: 203.0.113.22) at 2:15 AM. New device, password and email changed, then purchase made.");
      ("fraud_indicators",
        JObj
          [ ("avs_match", JStr "Z");
            ("cvv_match", JStr "N");
            ("3ds_used", JBool false);
            ("device_fingerprint", JStr "DEV999002");
            ("ip_reputation", JStr "medium_risk");
            ("account_takeover_score", JDec (dec 88 20));
            ("session_anomaly", JBool true) ],
        "Account takeover indicators: Partial AVS match, CVV failed, no 3DS, new device, suspicious session activity.");
      ("velocity_check",
        JObj
          [ ("cards_last_24h", JInt 5);
            ("transactions_last_week", JInt 7);
            ("amount_last_24h", JDec (dec 3200 0));
            ("same_ip_count", JInt 0);
            ("account_access_pattern", JStr "unusual") ],
        "Multiple unauthorized transactions: 5 cards in 24h, $3,200 total, all from different IP addresses.");
      ("previous_dispute",
        JObj
          [ ("total_disputes", JInt 0);
            ("account_security", JStr "good");
            ("first_security_incident", JBool true) ],
        "No previous disputes. First security incident. Customer maintains account security practices.") ]);
    ("cb_003",
     [
      ("support_ticket",
        JObj
          [ ("ticket_id", JStr "TKT12347");
            ("customer_contact_date", JRandomDate 35 30);
            ("contact_method", JStr "chat");
            ("customer_statement", JStr "Ordered item on date X, never received. Tracking shows delivered but not at my address.");
            ("tracking_number", JStr "1Z999AA10123456784");
            ("delivery_date", JRandomDate 40 35);
            ("delivery_status", JStr "delivered") ],
        "Customer contacted support claiming item never received. Tracking shows delivered.");
      ("shipping_evidence",
        JObj
          [ ("tracking_number", JStr "1Z999AA10123456784");
            ("carrier", JStr "UPS");
            ("delivered_date", JRandomDate 40 35);
            ("delivery_address", JStr "123 Main St, San Francisco, CA 94102");
            ("signature_required", JBool true);
            ("signature_name", JStr "E. Williams");
            ("delivery_photo", JStr "PHOTO-DEL-2024-001");
            ("gps_coordinates", JStr "37.7749,-122.4194");
            ("delivery_time", JStr "2:30 PM") ],
        "Delivery confirmed: Tracking shows delivered to customer address on date. Signature captured: 'E. Williams'. GPS coordinates match.");
      ("login",
        JObj
          [ ("login_location", JStr "San Francisco, CA");
            ("login_ip", JStr "192.168.1.100");
            ("login_device", JStr "iPhone 14 Pro - known device");
            ("device_fingerprint", JStr "DEV123456");
            ("login_time", JRandomDate 45 42);
            ("device_known", JBool true);
            ("same_ip_as_transaction", JBool true) ],
        "Customer logged in from usual location (San Francisco). Same device and IP as transaction. Device fingerprint matches historical data.");
      ("refund",
        JObj
          [ ("refund_offered", JBool true);
            ("refund_date", JRandomDate 32 30);
            ("refund_amount", JDec (dec 299 99));
            ("refund_status", JStr "declined");
            ("customer_response", JStr "Customer declined refund, filed chargeback instead");
            ("refund_method", JStr "original_payment") ],
        "Merchant offered full refund ($299.99) but customer declined. Customer filed chargeback instead of accepting refund.");
      ("previous_dispute",
        JObj
          [ ("total_disputes", JInt 3);
            ("similar_disputes", JInt 2);
            ("dispute_pattern", JStr "item_not_received");
            ("win_rate", JDec (dec 0 0));
            ("customer_behavior", JStr "repeat_offender") ],
        "Customer has 3 previous disputes, 2 for 'item not received'. Pattern of similar claims. All previous cases lost by customer.") ]);
    ("cb_004",
     [
      ("support_ticket",
        JObj
          [ ("ticket_id", JStr "TKT12348");
            ("customer_contact_date", JRandomDate 50 45);
            ("contact_method", JStr "email");
            ("customer_statement", JStr "Product received but defective. Doesn't work as described.");
            ("product_sku", JStr "ELEC-12345");
            ("order_date", JRandomDate 60 55);
            ("return_requested", JBool true) ],
        "Customer contacted support claiming product defective. Return requested.");
      ("refund",
        JObj
          [ ("refund_offered", JBool true);
            ("refund_date", JRandomDate 48 45);
            ("refund_amount", JDec (dec 549 99));
            ("refund_status", JStr "processed");
            ("refund_method", JStr "credit_card");
            ("refund_confirmation", JStr "REF-2024-001");
            ("customer_acknowledgment", JBool false) ],
        "Merchant processed full refund ($549.99) on date. Customer received refund confirmation but filed chargeback anyway.");
      ("product_evidence",
        JObj
          [ ("product_sku", JStr "ELEC-12345");
            ("warranty_status", JStr "active");
            ("return_window", JStr "30 days");
            ("return_request_date", JRandomDate 50 45);
            ("days_since_purchase", JInt 12);
            ("return_policy_compliance", JBool true);
            ("product_condition", JStr "unopened");
            ("return_shipping_label", JStr "LABEL-2024-001") ],
        "Product return processed within 30-day window. Return shipping label provided. Customer received refund but still filed chargeback.");
      ("login",
        JObj
          [ ("login_location", JStr "Los Angeles, CA");
            ("login_ip", JStr "192.168.1.101");
            ("device_fingerprint", JStr "DEV123457");
            ("device_known", JBool true);
            ("same_ip_as_transaction", JBool true);
            ("login_frequency", JStr "daily") ],
        "Customer logged in from usual location. Same device and IP as transaction. Regular account activity.");
      ("previous_dispute",
        JObj
          [ ("total_disputes", JInt 1);
            ("similar_disputes", JInt 1);
            ("dispute_pattern", JStr "quality_issue");
            ("refund_after_chargeback", JBool true) ],
        "Customer has 1 previous dispute for quality issue. Previously received refund after chargeback.") ]);
    ("cb_005",
     [
      ("support_ticket",
        JObj
          [ ("ticket_id", JStr "TKT12349");
            ("customer_contact_date", JRandomDate 80 75);
            ("contact_method", JStr "email");
            ("customer_statement", JStr "Cancelled subscription on date X but was charged anyway. Should not have been billed.");
            ("subscription_id", JStr "SUB-78901");
            ("cancellation_date_claimed", JRandomDate 92 88);
            ("billing_date", JRandomDate 90 85) ],
        "Customer claims subscription cancelled before billing cycle but was charged anyway.");
      ("subscription_evidence",
        JObj
          [ ("subscription_id", JStr "SUB-78901");
            ("subscription_start", JRandomDate 180 175);
            ("billing_cycle", JStr "monthly");
            ("cancellation_date_actual", JRandomDate 88 85);
            ("cancellation_date_claimed", JRandomDate 92 88);
            ("last_billing_date", JRandomDate 90 85);
            ("tos_agreement", JStr "TOS-2024-001");
            ("cancellation_policy", JStr "7-day notice required");
            ("cancellation_method", JStr "email");
            ("cancellation_confirmation", JStr "CANCEL-2024-001") ],
        "Subscription records show cancellation on date (3 days after billing). Customer claims cancellation before billing. 7-day notice policy applies.");
      ("login",
        JObj
          [ ("login_location", JStr "Chicago, IL");
            ("login_ip", JStr "192.168.1.102");
            ("device_fingerprint", JStr "DEV123458");
            ("device_known", JBool true);
            ("account_activity", JStr "active");
            ("service_usage", JStr "last_30_days") ],
        "Customer logged in from usual location. Account shows active service usage in last 30 days after claimed cancellation.");
      ("refund",
        JObj
          [ ("refund_offered", JBool true);
            ("refund_date", JRandomDate 78 75);
            ("refund_amount", JDec (dec 79 99));
            ("refund_status", JStr "pending");
            ("customer_response", JStr "pending") ],
        "Merchant offered prorated refund. Waiting for customer response.");
      ("previous_dispute",
        JObj
          [ ("total_disputes", JInt 0);
            ("subscription_history", JStr "new_customer");
            ("first_billing_cycle", JBool true) ],
        "No previous disputes. Customer is new subscriber. This is first billing cycle dispute.") ]);
    ("cb_006",
     [
      ("support_ticket",
        JObj
          [ ("ticket_id", JStr "TKT12350");
            ("customer_contact_date", JRandomDate 30 25);
            ("contact_method", JStr "phone");
            ("customer_statement", JStr "Did not authorize this transaction. Don't recognize this purchase.");
            ("transaction_amount", JDec (dec 199 99));
            ("merchant_name", JStr "Home Essentials") ],
        "Customer claims unauthorized transaction. Does not recognize purchase.");
      ("transaction_analysis",
        JObj
          [ ("ip_address", JStr "192.168.1.103");
            ("device_fingerprint", JStr "DEV123459");
            ("shipping_address", JStr "123 Oak St, Boston, MA 02101");
            ("billing_address", JStr "123 Oak St, Boston, MA 02101");
            ("email_used", JStr "j.taylor@email.com");
            ("address_match", JBool true);
            ("device_match", JBool true);
            ("ip_match", JBool true);
            ("historical_orders", JInt 4) ],
        "Transaction analysis: Same IP (192.168.1.103), device (DEV123459), shipping address, and email as 4 previous orders.");
      ("login",
        JObj
          [ ("login_location", JStr "Boston, MA");
            ("login_ip", JStr "192.168.1.103");
            ("device_fingerprint", JStr "DEV123459");
            ("device_known", JBool true);
            ("same_ip_as_transaction", JBool true);
            ("login_frequency", JStr "weekly") ],
        "Customer logged in from same location (Boston). Same device and IP as transaction. Regular account activity.");
      ("fraud_indicators",
        JObj
          [ ("avs_match", JStr "Y");
            ("cvv_match", JStr "Y");
            ("3ds_used", JBool true);
            ("device_known", JBool true);
            ("ip_reputation", JStr "low_risk");
            ("fraud_score", JDec (dec 18 0));
            ("risk_level", JStr "low") ],
        "All fraud checks passed: AVS match, CVV match, 3DS used, known device, low risk IP. Fraud score: 18.0.");
      ("previous_dispute",
        JObj
          [ ("total_disputes", JInt 2);
            ("similar_disputes", JInt 1);
            ("dispute_pattern", JStr "unauthorized_family");
            ("family_member_pattern", JBool true) ],
        "Customer has 2 previous disputes. Pattern suggests family member usage. Previous 'unauthorized' claim resolved in favor of merchant.") ]);
    ("cb_007",
     [
      ("support_ticket",
        JObj
          [ ("ticket_id", JStr "TKT12351");
            ("customer_contact_date", JRandomDate 15 12);
            ("contact_method", JStr "chat");
            ("customer_statement", JStr "Charged twice for same order. Order #ORD-12345 charged on date X and date Y.");
            ("order_number", JStr "ORD-12345");
            ("transaction_ids", JList [JStr cb7_tx_id; JStr (cb7_tx_id ++ "_DUPLICATE")]);
            ("amount", JDec (dec 149 99)) ],
        "Customer reported duplicate charge for same order. Two identical transactions detected.");
      ("merchant_investigation",
        JObj
          [ ("order_number", JStr "ORD-12345");
            ("transaction_1", JStr cb7_tx_id);
            ("transaction_2", JStr (cb7_tx_id ++ "_DUPLICATE"));
            ("amount_1", JDec (dec 149 99));
            ("amount_2", JDec (dec 149 99));
            ("transaction_1_date", JRandomDate 20 18);
            ("transaction_2_date", JRandomDate 20 18);
            ("time_difference_seconds", JInt 45);
            ("merchant_confirmed", JBool true);
            ("error_type", JStr "system_duplicate");
            ("root_cause", JStr "payment_gateway_timeout_retry") ],
        "Merchant investigation: Confirmed duplicate charge. Same order #ORD-12345 charged twice within 45 seconds. System error due to payment gateway timeout retry.");
      ("refund",
        JObj
          [ ("refund_processed", JBool true);
            ("refund_date", JRandomDate 12 10);
            ("refund_amount", JDec (dec 149 99));
            ("refund_method", JStr "credit_card");
            ("refund_confirmation", JStr "REF-2024-002");
            ("refund_status", JStr "completed");
            ("customer_notified", JBool true) ],
        "Merchant confirmed error and processed immediate refund ($149.99). Refund confirmation sent to customer.");
      ("login",
        JObj
          [ ("login_location", JStr "San Francisco, CA");
            ("login_ip", JStr "192.168.1.100");
            ("device_known", JBool true);
            ("same_ip_as_transaction", JBool true) ],
        "Customer logged in from usual location. Same IP as transaction.");
      ("system_fix",
        JObj
          [ ("issue_resolved", JBool true);
            ("fix_date", JRandomDate 10 8);
            ("fix_description", JStr "Payment gateway retry logic updated to prevent duplicate charges");
            ("prevention_measures", JStr "Added duplicate transaction detection") ],
        "System fix implemented: Payment gateway retry logic updated. Duplicate transaction detection added.") ]);
    ("cb_008",
     [
      ("support_ticket",
        JObj
          [ ("ticket_id", JStr "TKT12352");
            ("customer_contact_date", JRandomDate 18 15);
            ("contact_method", JStr "email");
            ("customer_statement", JStr "Ordered item for $99.99 but charged $249.99. Price on website was $99.99.");
            ("order_number", JStr "ORD-12346");
            ("expected_amount", JDec (dec 99 99));
            ("charged_amount", JDec (dec 249 99));
            ("difference", JDec (dec 150 0)) ],
        "Customer reported wrong amount charged. Expected $99.99, charged $249.99.");
      ("merchant_investigation",
        JObj
          [ ("order_number", JStr "ORD-12346");
            ("product_sku", JStr "PROD-56789");
            ("website_price", JDec (dec 99 99));
            ("charged_amount", JDec (dec 249 99));
            ("pricing_error", JBool true);
            ("error_type", JStr "database_price_mismatch");
            ("correct_price", JDec (dec 99 99));
            ("error_source", JStr "price_sync_issue");
            ("merchant_confirmed", JBool true) ],
        "Merchant investigation: Confirmed pricing error. Product SKU PROD-56789 shows $99.99 on website but database had old price $249.99. Price sync issue.");
      ("refund",
        JObj
          [ ("refund_processed", JBool true);
            ("refund_date", JRandomDate 15 13);
            ("refund_amount", JDec (dec 150 0));
            ("refund_method", JStr "credit_card");
            ("refund_confirmation", JStr "REF-2024-003");
            ("partial_refund", JBool true);
            ("customer_notified", JBool true) ],
        "Merchant processed partial refund ($150.00 difference). Customer charged correct amount of $99.99.");
      ("login",
        JObj
          [ ("login_location", JStr "New York, NY");
            ("login_ip", JStr "192.168.1.101");
            ("device_known", JBool true) ],
        "Customer logged in from usual location.");
      ("system_fix",
        JObj
          [ ("issue_resolved", JBool true);
            ("fix_date", JRandomDate 13 11);
            ("fix_description", JStr "Price database sync fixed. Added validation to prevent price mismatches");
            ("prevention_measures", JStr "Automated price validation before checkout") ],
        "System fix: Price database sync corrected. Added automated price validation to prevent future mismatches.") ]);
    ("cb_009",
     [
      ("support_ticket",
        JObj
          [ ("ticket_id", JStr "TKT12353");
            ("customer_contact_date", JRandomDate 60 55);
            ("contact_method", JStr "chargeback_notification");
            ("customer_statement", JStr "Customer filed chargeback claiming unauthorized transaction.");
            ("chargeback_reason", JStr "fraud");
            ("amount", JDec (dec 179 99)) ],
        "Customer filed chargeback claiming unauthorized transaction. Chargeback received for investigation.");
      ("transaction_evidence",
        JObj
          [ ("ip_address", JStr "192.168.1.100");
            ("device_fingerprint", JStr "DEV123456");
            ("shipping_address", JStr "123 Main St, San Francisco, CA 94102");
            ("billing_address", JStr "123 Main St, San Francisco, CA 94102");
            ("email_used", JStr "emma.w@email.com");
            ("email_confirmation", JStr "EMAIL-CONF-2024-001");
            ("order_confirmation_sent", JBool true);
            ("order_confirmation_opened", JBool true);
            ("order_confirmation_date", JRandomDate 70 65) ],
        "Transaction evidence: Same IP, device, shipping address, and email as customer. Order confirmation email sent and opened by customer.");
      ("login",
        JObj
          [ ("login_location", JStr "San Francisco, CA");
            ("login_ip", JStr "192.168.1.100");
            ("device_fingerprint", JStr "DEV123456");
            ("device_known", JBool true);
            ("login_before_transaction", JBool true);
            ("login_time", JRandomDate 70 69);
            ("transaction_time", JRandomDate 70 65) ],
        "Customer logged in from usual location 1 hour before transaction. Same device and IP. Device fingerprint matches account history.");
      ("delivery_evidence",
        JObj
          [ ("tracking_number", JStr "1Z999AA10123456785");
            ("carrier", JStr "FedEx");
            ("delivered_date", JRandomDate 68 65);
            ("delivery_address", JStr "123 Main St, San Francisco, CA 94102");
            ("signature_required", JBool true);
            ("signature_name", JStr "E. Williams");
            ("delivery_photo", JStr "PHOTO-DEL-2024-002");
            ("gps_coordinates", JStr "37.7749,-122.4194") ],
        "Delivery confirmed: Item delivered to customer address. Signature captured: 'E. Williams'. GPS coordinates match shipping address.");
      ("previous_dispute",
        JObj
          [ ("total_disputes", JInt 1);
            ("similar_disputes", JInt 1);
            ("dispute_pattern", JStr "unauthorized_claim");
            ("win_rate", JDec (dec 0 0)) ],
        "Customer has 1 previous dispute for 'unauthorized' transaction. Previous case lost by customer. Pattern of chargeback abuse.") ]);
    ("cb_010",
     [
      ("support_ticket",
        JObj
          [ ("ticket_id", JStr "TKT12354");
            ("customer_contact_date", JRandomDate 75 70);
            ("contact_method", JStr "chargeback_notification");
            ("customer_statement", JStr "Customer filed chargeback claiming unauthorized subscription charge.");
            ("subscription_id", JStr "SUB-78902");
            ("amount", JDec (dec 49 99)) ],
        "Customer filed chargeback claiming unauthorized subscription. Chargeback received for investigation.");
      ("subscription_evidence",
        JObj
          [ ("subscription_id", JStr "SUB-78902");
            ("subscription_start", JRandomDate 240 235);
            ("billing_cycle", JStr "monthly");
            ("tos_agreement_date", JRandomDate 240 235);
            ("tos_agreement_signed", JBool true);
            ("tos_version", JStr "v2.1");
            ("agreement_acceptance_ip", JStr "192.168.1.101");
            ("usage_logs", JObj
              [ ("last_30_days", JInt 180);
                ("last_7_days", JInt 45);
                ("last_login", JRandomDate 85 83) ]) ],
        "Subscription evidence: Active subscription for 8 months. TOS signed and accepted. Customer logged in 2 days before billing. 180 usage sessions in last 30 days.");
      ("login",
        JObj
          [ ("login_location", JStr "Los Angeles, CA");
            ("login_ip", JStr "192.168.1.101");
            ("device_fingerprint", JStr "DEV123457");
            ("device_known", JBool true);
            ("login_frequency", JStr "daily");
            ("last_login_before_billing", JRandomDate 85 83) ],
        "Customer logged in from usual location. Same device and IP as subscription signup. Active daily usage. Last login 2 days before billing.");
      ("refund",
        JObj
          [ ("refund_offered", JBool false);
            ("chargeback_response", JStr "evidence_package_submitted");
            ("evidence_submitted_date", JRandomDate 70 68);
            ("evidence_package", JObj
              [ ("tos_agreement", JStr "TOS-2024-002");
                ("usage_logs", JStr "LOGS-2024-001");
                ("ip_match_evidence", JStr "IP-EVIDENCE-001");
                ("device_match_evidence", JStr "DEVICE-EVIDENCE-001") ]) ],
        "Merchant provided comprehensive evidence package: Signed TOS, 6 months usage logs, IP match, device match. Chargeback response submitted.");
      ("previous_dispute",
        JObj
          [ ("total_disputes", JInt 0);
            ("subscription_history", JStr "long_term");
            ("billing_history", JStr "consistent") ],
        "No previous disputes. Long-term subscriber with consistent billing history. 8 months of successful payments.") ]);
    ("cb_011",
     [
      ("support_ticket",
        JObj
          [ ("ticket_id", JStr "TKT12355");
            ("customer_contact_date", JRandomDate 40 35);
            ("contact_method", JStr "chargeback_notification");
            ("customer_statement", JStr "Customer filed chargeback claiming digital product not received.");
            ("product_type", JStr "digital_license");
            ("amount", JDec (dec 89 99)) ],
        "Customer filed chargeback claiming digital product not received. Chargeback received for investigation.");
      ("delivery_evidence",
        JObj
          [ ("product_type", JStr "digital_license");
            ("delivery_method", JStr "email");
            ("delivery_email", JStr "lisa.a@email.com");
            ("delivery_date", JRandomDate 50 45);
            ("email_opened", JBool true);
            ("email_opened_date", JRandomDate 50 49);
            ("license_key_sent", JStr "LICENSE-2024-001");
            ("download_link_sent", JBool true);
            ("download_link_accessed", JBool true);
            ("download_ip", JStr "192.168.1.102");
            ("download_date", JRandomDate 50 48);
            ("download_count", JInt 3) ],
        "Digital delivery confirmed: License key sent via email. Email opened by customer. Download link accessed 3 times from customer IP (192.168.1.102).");
      ("usage_analytics",
        JObj
          [ ("product_activated", JBool true);
            ("activation_date", JRandomDate 50 48);
            ("activation_ip", JStr "192.168.1.102");
            ("usage_sessions", JInt 12);
            ("last_usage_date", JRandomDate 45 40);
            ("usage_duration_hours", JInt 45);
            ("feature_usage", JList [JStr "feature_a"; JStr "feature_b"; JStr "feature_c"]) ],
        "Product usage analytics: License activated and used 12 times. 45 hours of usage. Last usage 5 days before chargeback. Multiple features accessed.");
      ("login",
        JObj
          [ ("login_location", JStr "Chicago, IL");
            ("login_ip", JStr "192.168.1.102");
            ("device_fingerprint", JStr "DEV123458");
            ("device_known", JBool true);
            ("same_ip_as_download", JBool true);
            ("same_ip_as_activation", JBool true) ],
        "Customer logged in from usual location. Same IP used for download, activation, and usage. Device fingerprint matches.");
      ("previous_dispute",
        JObj
          [ ("total_disputes", JInt 0);
            ("digital_purchases", JInt 5);
            ("all_delivered", JBool true) ],
        "No previous disputes. Customer has 5 previous digital purchases, all successfully delivered and activated.") ]);
    ("cb_012",
     [
      ("support_ticket",
        JObj
          [ ("ticket_id", JStr "TKT12356");
            ("customer_contact_date", JRandomDate 55 50);
            ("contact_method", JStr "chargeback_notification");
            ("customer_statement", JStr "Customer filed chargeback claiming defective product.");
            ("product_sku", JStr "PROD-12346");
            ("amount", JDec (dec 299 99)) ],
        "Customer filed chargeback claiming defective product. Chargeback received for investigation.");
      ("return_policy_evidence",
        JObj
          [ ("return_window_days", JInt 30);
            ("purchase_date", JRandomDate 65 60);
            ("return_request_date", JRandomDate 55 50);
            ("days_since_purchase", JInt 45);
            ("return_window_expired", JBool true);
            ("return_policy_url", JStr "https://merchant.com/returns");
            ("policy_acknowledged", JBool true);
            ("policy_acknowledgment_date", JRandomDate 65 60) ],
        "Return policy: 30-day return window. Purchase made 45 days ago. Return window expired 15 days before chargeback. Customer acknowledged policy at purchase.");
      ("product_evidence",
        JObj
          [ ("product_sku", JStr "PROD-12346");
            ("product_condition_received", JStr "new");
            ("product_condition_returned", JStr "used");
            ("return_photos", JList [JStr "PHOTO-RET-001"; JStr "PHOTO-RET-002"]);
            ("product_usage_evidence", JBool true);
            ("warranty_claim", JBool false);
            ("defect_photos_provided", JBool false) ],
        "Product evidence: Item received new, returned used. Photos show significant wear. No defect photos provided. Warranty claim not filed.");
      ("refund",
        JObj
          [ ("refund_offered", JBool false);
            ("chargeback_response", JStr "evidence_package_submitted");
            ("evidence_submitted_date", JRandomDate 50 48);
            ("evidence_package", JObj
              [ ("return_policy", JStr "POLICY-2024-001");
                ("product_photos", JStr "PHOTOS-2024-001");
                ("policy_acknowledgment", JStr "ACK-2024-001") ]) ],
        "Merchant provided evidence package: Return policy, photos of used item, policy acknowledgment. Chargeback response submitted.");
      ("previous_dispute",
        JObj
          [ ("total_disputes", JInt 2);
            ("similar_disputes", JInt 1);
            ("dispute_pattern", JStr "return_policy_violation");
            ("win_rate", JDec (dec 0 0)) ],
        "Customer has 2 previous disputes. Pattern of return policy violations. All previous cases lost by customer.") ]);
    ("cb_013",
     [
      ("support_ticket",
        JObj
          [ ("ticket_id", JStr "TKT12357");
            ("customer_contact_date", JRandomDate 45 40);
            ("contact_method", JStr "chargeback_notification");
            ("customer_statement", JStr "Customer filed chargeback claiming item never received.");
            ("order_number", JStr "ORD-12347");
            ("amount", JDec (dec 399 99)) ],
        "Customer filed chargeback claiming item never received. Chargeback received for investigation.");
      ("delivery_evidence",
        JObj
          [ ("tracking_number", JStr "1Z999AA10123456786");
            ("carrier", JStr "UPS");
            ("delivered_date", JRandomDate 52 50);
            ("delivery_address", JStr "456 Pine St, Seattle, WA 98101");
            ("signature_required", JBool true);
            ("signature_name", JStr "M. Garcia");
            ("signature_match", JBool true);
            ("delivery_photo", JStr "PHOTO-DEL-2024-003");
            ("gps_coordinates", JStr "47.6062,-122.3321");
            ("gps_match", JBool true);
            ("delivery_time", JStr "3:45 PM");
            ("delivery_proof", JStr "COMPLETE") ],
        "Delivery confirmed: Item delivered to customer address. Signature captured: 'M. Garcia'. GPS coordinates match shipping address. Photo evidence available.");
      ("login",
        JObj
          [ ("login_location", JStr "Seattle, WA");
            ("login_ip", JStr "192.168.1.104");
            ("device_fingerprint", JStr "DEV123460");
            ("device_known", JBool true);
            ("same_ip_as_transaction", JBool true);
            ("login_after_delivery", JBool true);
            ("login_date", JRandomDate 51 50) ],
        "Customer logged in from usual location (Seattle) 1 day after delivery. Same device and IP as transaction.");
      ("refund",
        JObj
          [ ("refund_offered", JBool false);
            ("chargeback_response", JStr "evidence_package_submitted");
            ("evidence_submitted_date", JRandomDate 40 38);
            ("evidence_package", JObj
              [ ("delivery_confirmation", JStr "DEL-2024-001");
                ("signature_proof", JStr "SIG-2024-001");
                ("gps_tracking", JStr "GPS-2024-001");
                ("delivery_photo", JStr "PHOTO-2024-001") ]) ],
        "Merchant provided comprehensive evidence: Delivery confirmation, signature proof, GPS tracking, delivery photo. Chargeback response submitted.");
      ("previous_dispute",
        JObj
          [ ("total_disputes", JInt 1);
            ("similar_disputes", JInt 1);
            ("dispute_pattern", JStr "item_not_received");
            ("win_rate", JDec (dec 0 0)) ],
        "Customer has 1 previous dispute for 'item not received'. Previous case lost by customer. Delivery was confirmed in previous case.") ]);
    ("cb_014",
     [
      ("support_ticket",
        JObj
          [ ("ticket_id", JStr "TKT12358");
            ("customer_contact_date", JRandomDate 38 33);
            ("contact_method", JStr "phone");
            ("customer_statement", JStr "Noticed unauthorized transactions. Card used at gas station recently.");
            ("card_cancelled", JBool true);
            ("terminal_compromised", JBool true);
            ("merchant_notified", JBool true) ],
        "Customer reported card skimming. Card cancelled. Compromised terminal identified.");
      ("transaction_analysis",
        JObj
          [ ("unusual_location", JBool true);
            ("location_country", JStr "USA");
            ("location_city", JStr "Los Angeles, CA");
            ("customer_location", JStr "San Francisco, CA");
            ("distance_miles", JInt 380);
            ("terminal_id", JStr "TERM-COMP-2024-001");
            ("terminal_risk", JStr "high");
            ("multiple_cards_24h", JInt 6);
            ("velocity_score", JDec (dec 92 30)) ],
        "Transaction from compromised terminal in Los Angeles. Terminal flagged for skimming. 6 cards used in 24h from same terminal.");
      ("fraud_indicators",
        JObj
          [ ("avs_match", JStr "N");
            ("cvv_match", JStr "N");
            ("3ds_used", JBool false);
            ("device_fingerprint", JStr "DEV999003");
            ("device_known", JBool false);
            ("terminal_compromised", JBool true);
            ("ip_reputation", JStr "medium_risk");
            ("transaction_pattern", JStr "skimming_pattern") ],
        "Strong fraud indicators: AVS/CVV failed, no 3DS, new device, compromised terminal. Skimming pattern detected.");
      ("velocity_check",
        JObj
          [ ("cards_last_24h", JInt 6);
            ("transactions_last_week", JInt 9);
            ("amount_last_24h", JDec (dec 4850 75));
            ("velocity_flag", JBool true);
            ("same_terminal_count", JInt 6);
            ("risk_level", JStr "critical") ],
        "High velocity detected: 6 different cards from same terminal in 24h, $4,850.75 in transactions, 9 transactions in 7 days.");
      ("previous_dispute",
        JObj
          [ ("total_disputes", JInt 2);
            ("fraud_disputes", JInt 1);
            ("customer_standing", JStr "good");
            ("first_skimming_incident", JBool true) ],
        "Customer has 2 previous disputes (1 fraud). First skimming incident. Account in good standing.") ]);
    ("cb_015",
     [
      ("support_ticket",
        JObj
          [ ("ticket_id", JStr "TKT12359");
            ("customer_contact_date", JRandomDate 45 40);
            ("contact_method", JStr "email");
            ("customer_statement", JStr "Card lost on date X. Reported to bank immediately. These transactions are not mine.");
            ("card_lost", JBool true);
            ("card_cancelled", JBool true);
            ("card_issuer_notified", JBool true) ],
        "Customer reported card lost. Card cancelled. Card issuer notified immediately.");
      ("transaction_analysis",
        JObj
          [ ("unusual_location", JBool true);
            ("location_country", JStr "Brazil");
            ("location_city", JStr "São Paulo");
            ("customer_location", JStr "San Francisco, CA");
            ("distance_miles", JInt 6500);
            ("time_of_transaction", JStr "04:20 AM local time");
            ("cnp_transaction", JBool true);
            ("card_details_stolen", JBool true) ],
        "Card Not Present (CNP) transaction from Brazil (IP: 172.217.12.46), 6500 miles from customer location. Card details stolen.");
      ("fraud_indicators",
        JObj
          [ ("avs_match", JStr "N");
            ("cvv_match", JStr "N");
            ("3ds_used", JBool false);
            ("device_fingerprint", JStr "DEV999004");
            ("device_known", JBool false);
            ("ip_reputation", JStr "high_risk");
            ("cnp_fraud_score", JDec (dec 89 70));
            ("transaction_pattern", JStr "stolen_card_details") ],
        "Strong CNP fraud indicators: AVS/CVV failed, no 3DS, new device, high-risk IP. Stolen card details pattern.");
      ("velocity_check",
        JObj
          [ ("cards_last_24h", JInt 4);
            ("transactions_last_week", JInt 6);
            ("amount_last_24h", JDec (dec 4250 0));
            ("velocity_flag", JBool true);
            ("same_ip_count", JInt 0);
            ("risk_level", JStr "critical") ],
        "High velocity detected: 4 cards in 24h, $4,250.00 in transactions, 6 transactions in 7 days from different IPs.");
      ("previous_dispute",
        JObj
          [ ("total_disputes", JInt 1);
            ("fraud_disputes", JInt 1);
            ("customer_standing", JStr "good");
            ("account_age_days", JInt 1245);
            ("first_card_loss", JBool true) ],
        "Customer has 1 previous fraud dispute (cb_001). First card loss incident. Account in good standing for 3.4 years.") ]);
    ("cb_016",
     [
      ("support_ticket",
        JObj
          [ ("ticket_id", JStr "TKT12360");
            ("customer_contact_date", JRandomDate 50 45);
            ("contact_method", JStr "phone");
            ("customer_statement", JStr "Account opened fraudulently. Identity stolen. Never created this account.");
            ("account_closure_requested", JBool true);
            ("identity_theft_report", JStr "IDT-RPT-2024-001");
            ("fraud_department_notified", JBool true) ],
        "Customer reported synthetic identity fraud. Account opened fraudulently. Identity theft report filed.");
      ("transaction_analysis",
        JObj
          [ ("unusual_location", JBool true);
            ("location_country", JStr "Nigeria");
            ("location_city", JStr "Lagos");
            ("account_creation_date", JRandomDate 60 55);
            ("account_age_days", JInt 5);
            ("minimal_history", JBool true);
            ("synthetic_pattern", JBool true);
            ("multiple_cards_24h", JInt 7) ],
        "Transaction from Nigeria (IP: 104.248.90.2). Account created 5 days ago with minimal history. Synthetic identity pattern.");
      ("fraud_indicators",
        JObj
          [ ("avs_match", JStr "Z");
            ("cvv_match", JStr "N");
            ("3ds_used", JBool false);
            ("device_fingerprint", JStr "DEV999005");
            ("device_known", JBool false);
            ("ip_reputation", JStr "high_risk");
            ("synthetic_score", JDec (dec 91 20));
            ("account_age_risk", JStr "new_account") ],
        "Synthetic fraud indicators: Partial AVS match, CVV failed, no 3DS, new device, new account, high-risk IP.");
      ("velocity_check",
        JObj
          [ ("cards_last_24h", JInt 7);
            ("transactions_last_week", JInt 11);
            ("amount_last_24h", JDec (dec 6250 25));
            ("velocity_flag", JBool true);
            ("same_ip_count", JInt 0);
            ("risk_level", JStr "critical") ],
        "High velocity detected: 7 cards in 24h, $6,250.25 in transactions, 11 transactions in 7 days from new account.");
      ("previous_dispute",
        JObj
          [ ("total_disputes", JInt 1);
            ("fraud_disputes", JInt 0);
            ("account_type", JStr "synthetic");
            ("first_identity_theft", JBool true) ],
        "Customer has 1 previous dispute (not_guilty case). Account identified as synthetic identity. First identity theft report.") ]);
    ("cb_017",
     [
      ("support_ticket",
        JObj
          [ ("ticket_id", JStr "TKT12361");
            ("customer_contact_date", JRandomDate 110 105);
            ("contact_method", JStr "chat");
            ("customer_statement", JStr "Ordered item on date X, never received. Tracking shows delivered but package stolen.");
            ("tracking_number", JStr "1Z999AA10123456787");
            ("delivery_date", JRandomDate 115 110);
            ("delivery_status", JStr "delivered");
            ("previous_claims", JInt 3) ],
        "Customer contacted support claiming item never received. Tracking shows delivered. Customer has 3 previous 'item not received' claims.");
      ("shipping_evidence",
        JObj
          [ ("tracking_number", JStr "1Z999AA10123456787");
            ("carrier", JStr "FedEx");
            ("delivered_date", JRandomDate 115 110);
            ("delivery_address", JStr "123 Main St, San Francisco, CA 94102");
            ("signature_required", JBool true);
            ("signature_name", JStr "E. Williams");
            ("delivery_photo", JStr "PHOTO-DEL-2024-004");
            ("gps_coordinates", JStr "37.7749,-122.4194");
            ("delivery_time", JStr "11:15 AM") ],
        "Delivery confirmed: Tracking shows delivered to customer address. Signature captured: 'E. Williams'. GPS coordinates match.");
      ("login",
        JObj
          [ ("login_location", JStr "San Francisco, CA");
            ("login_ip", JStr "192.168.1.100");
            ("device_fingerprint", JStr "DEV123456");
            ("device_known", JBool true);
            ("same_ip_as_transaction", JBool true);
            ("login_frequency", JStr "daily") ],
        "Customer logged in from usual location (San Francisco). Same device and IP as transaction. Regular account activity.");
      ("previous_dispute",
        JObj
          [ ("total_disputes", JInt 4);
            ("similar_disputes", JInt 3);
            ("dispute_pattern", JStr "item_not_received");
            ("win_rate", JDec (dec 0 0));
            ("customer_behavior", JStr "repeat_offender");
            ("risk_flag", JStr "high_risk_customer") ],
        "Customer has 4 previous disputes, 3 for 'item not received'. All previous cases lost by customer. High-risk repeat offender pattern.") ]);
    ("cb_018",
     [
      ("support_ticket",
        JObj
          [ ("ticket_id", JStr "TKT12362");
            ("customer_contact_date", JRandomDate 170 165);
            ("contact_method", JStr "email");
            ("customer_statement", JStr "Cancelled subscription months ago but was charged again. Should not have been billed.");
            ("subscription_id", JStr "SUB-78903");
            ("cancellation_date_claimed", JRandomDate 185 180);
            ("billing_date", JRandomDate 180 175) ],
        "Customer claims subscription cancelled before billing cycle but was charged anyway. Previous subscription dispute history.");
      ("subscription_evidence",
        JObj
          [ ("subscription_id", JStr "SUB-78903");
            ("subscription_start", JRandomDate 240 235);
            ("billing_cycle", JStr "monthly");
            ("cancellation_date_actual", JRandomDate 178 175);
            ("cancellation_date_claimed", JRandomDate 185 180);
            ("last_billing_date", JRandomDate 180 175);
            ("tos_agreement", JStr "TOS-2024-003");
            ("cancellation_policy", JStr "7-day notice required");
            ("previous_dispute", JStr "cb_005") ],
        "Subscription records show cancellation 3 days after billing. Customer claims cancellation before billing. Previous subscription dispute (cb_005).");
      ("login",
        JObj
          [ ("login_location", JStr "Chicago, IL");
            ("login_ip", JStr "192.168.1.102");
            ("device_fingerprint", JStr "DEV123458");
            ("device_known", JBool true);
            ("account_activity", JStr "active");
            ("service_usage", JStr "last_30_days") ],
        "Customer logged in from usual location. Account shows active service usage in last 30 days after claimed cancellation.");
      ("previous_dispute",
        JObj
          [ ("total_disputes", JInt 2);
            ("similar_disputes", JInt 2);
            ("dispute_pattern", JStr "subscription_renewal");
            ("subscription_history", JStr "repeat_offender") ],
        "Customer has 2 previous disputes, both for subscription renewal. Pattern of subscription chargeback abuse.") ]);
    ("cb_019",
     [
      ("support_ticket",
        JObj
          [ ("ticket_id", JStr "TKT12363");
            ("customer_contact_date", JRandomDate 190 185);
            ("contact_method", JStr "email");
            ("customer_statement", JStr "Product received but defective. Doesn't work as described. Same issue as before.");
            ("product_sku", JStr "PROD-12347");
            ("order_date", JRandomDate 200 195);
            ("return_requested", JBool true);
            ("previous_quality_claims", JInt 1) ],
        "Customer contacted support claiming product defective. Return requested. Previous quality dispute (cb_004).");
      ("refund",
        JObj
          [ ("refund_offered", JBool true);
            ("refund_date", JRandomDate 188 185);
            ("refund_amount", JDec (dec 375 50));
            ("refund_status", JStr "processed");
            ("refund_method", JStr "credit_card");
            ("refund_confirmation", JStr "REF-2024-004");
            ("customer_acknowledgment", JBool false) ],
        "Merchant processed full refund ($375.50). Customer received refund confirmation but filed chargeback anyway.");
      ("product_evidence",
        JObj
          [ ("product_sku", JStr "PROD-12347");
            ("warranty_status", JStr "active");
            ("return_window", JStr "30 days");
            ("return_request_date", JRandomDate 190 185);
            ("days_since_purchase", JInt 15);
            ("return_policy_compliance", JBool true);
            ("product_condition", JStr "unopened");
            ("pattern_match", JStr "cb_004") ],
        "Product return processed within 30-day window. Customer received refund but still filed chargeback. Matches pattern from cb_004.");
      ("previous_dispute",
        JObj
          [ ("total_disputes", JInt 2);
            ("similar_disputes", JInt 2);
            ("dispute_pattern", JStr "quality_issue");
            ("refund_after_chargeback", JBool true);
            ("repeat_pattern", JBool true) ],
        "Customer has 2 previous disputes, both for quality issues. Previously received refund after chargeback. Repeat pattern detected.") ]);
    ("cb_020",
     [
      ("support_ticket",
        JObj
          [ ("ticket_id", JStr "TKT12364");
            ("customer_contact_date", JRandomDate 140 135);
            ("contact_method", JStr "phone");
            ("customer_statement", JStr "Did not authorize this transaction. Don't recognize this purchase.");
            ("transaction_amount", JDec (dec 275 25));
            ("merchant_name", JStr "FashionHub");
            ("previous_similar_claim", JStr "cb_006") ],
        "Customer claims unauthorized transaction. Does not recognize purchase. Previous similar claim (cb_006).");
      ("transaction_analysis",
        JObj
          [ ("ip_address", JStr "192.168.1.103");
            ("device_fingerprint", JStr "DEV123459");
            ("shipping_address", JStr "123 Oak St, Boston, MA 02101");
            ("billing_address", JStr "123 Oak St, Boston, MA 02101");
            ("email_used", JStr "j.taylor@email.com");
            ("address_match", JBool true);
            ("device_match", JBool true);
            ("ip_match", JBool true);
            ("historical_orders", JInt 6) ],
        "Transaction analysis: Same IP (192.168.1.103), device (DEV123459), shipping address, and email as 6 previous orders.");
      ("login",
        JObj
          [ ("login_location", JStr "Boston, MA");
            ("login_ip", JStr "192.168.1.103");
            ("device_fingerprint", JStr "DEV123459");
            ("device_known", JBool true);
            ("same_ip_as_transaction", JBool true);
            ("login_frequency", JStr "weekly") ],
        "Customer logged in from same location (Boston). Same device and IP as transaction. Regular account activity.");
      ("previous_dispute",
        JObj
          [ ("total_disputes", JInt 3);
            ("similar_disputes", JInt 2);
            ("dispute_pattern", JStr "unauthorized_family");
            ("family_member_pattern", JBool true);
            ("previous_case", JStr "cb_006") ],
        "Customer has 3 previous disputes, 2 for 'unauthorized' (including cb_006). Strong pattern suggests family member usage.") ]);
    ("cb_021",
     [
      ("support_ticket",
        JObj
          [ ("ticket_id", JStr "TKT12365");
            ("customer_contact_date", JRandomDate 90 85);
            ("contact_method", JStr "chat");
            ("customer_statement", JStr "Charged twice for same order. Payment gateway error caused duplicate charge.");
            ("order_number", JStr "ORD-12348");
            ("transaction_ids", JList [JStr cb21_tx_id; JStr (cb21_tx_id ++ "_DUPLICATE")]);
            ("amount", JDec (dec 189 99));
            ("payment_gateway_error", JBool true) ],
        "Customer reported duplicate charge due to payment processing error. Two identical transactions detected.");
      ("merchant_investigation",
        JObj
          [ ("order_number", JStr "ORD-12348");
            ("transaction_1", JStr cb21_tx_id);
            ("transaction_2", JStr (cb21_tx_id ++ "_DUPLICATE"));
            ("amount_1", JDec (dec 189 99));
            ("amount_2", JDec (dec 189 99));
            ("transaction_1_date", JRandomDate 100 95);
            ("transaction_2_date", JRandomDate 100 95);
            ("time_difference_seconds", JInt 30);
            ("merchant_confirmed", JBool true);
            ("error_type", JStr "gateway_timeout");
            ("root_cause", JStr "payment_gateway_retry") ],
        "Merchant investigation: Confirmed duplicate charge. Same order charged twice within 30 seconds. Payment gateway timeout retry error.");
      ("refund",
        JObj
          [ ("refund_processed", JBool true);
            ("refund_date", JRandomDate 85 83);
            ("refund_amount", JDec (dec 189 99));
            ("refund_method", JStr "credit_card");
            ("refund_confirmation", JStr "REF-2024-005");
            ("refund_status", JStr "completed");
            ("customer_notified", JBool true) ],
        "Merchant confirmed error and processed immediate refund ($189.99). Refund confirmation sent to customer.");
      ("previous_dispute",
        JObj
          [ ("total_disputes", JInt 2);
            ("merchant_error_disputes", JInt 1);
            ("previous_case", JStr "cb_007");
            ("customer_relationship", JStr "good") ],
        "Customer has 2 previous disputes (1 merchant error - cb_007). Good customer relationship. Merchant errors acknowledged and resolved.") ]);
    ("cb_022",
     [
      ("support_ticket",
        JObj
          [ ("ticket_id", JStr "TKT12366");
            ("customer_contact_date", JRandomDate 120 115);
            ("contact_method", JStr "email");
            ("customer_statement", JStr "Returned item and refund was authorized but never received. Waiting 2 weeks for refund.");
            ("order_number", JStr "ORD-12349");
            ("return_date", JRandomDate 125 120);
            ("refund_authorized", JBool true);
            ("refund_status", JStr "pending") ],
        "Customer reported refund authorized but not processed. Return completed 2 weeks ago. Refund still pending.");
      ("merchant_investigation",
        JObj
          [ ("order_number", JStr "ORD-12349");
            ("return_date", JRandomDate 125 120);
            ("refund_authorized_date", JRandomDate 125 120);
            ("refund_processed_date", JNull);
            ("system_error", JBool true);
            ("error_type", JStr "refund_processing_failure");
            ("error_source", JStr "refund_system_bug");
            ("merchant_confirmed", JBool true);
            ("refund_amount", JDec (dec 319 99)) ],
        "Merchant investigation: Confirmed refund authorization but processing failed due to system bug. Refund system error identified.");
      ("refund",
        JObj
          [ ("refund_processed", JBool true);
            ("refund_date", JRandomDate 115 113);
            ("refund_amount", JDec (dec 319 99));
            ("refund_method", JStr "credit_card");
            ("refund_confirmation", JStr "REF-2024-006");
            ("refund_status", JStr "completed");
            ("refund_delay_days", JInt 14);
            ("customer_notified", JBool true);
            ("apology_sent", JBool true) ],
        "Merchant acknowledged error and processed refund ($319.99) with 14-day delay. Apology sent to customer.");
      ("previous_dispute",
        JObj
          [ ("total_disputes", JInt 2);
            ("merchant_error_disputes", JInt 1);
            ("previous_case", JStr "cb_008");
            ("customer_relationship", JStr "good") ],
        "Customer has 2 previous disputes (1 merchant error - cb_008). Good customer relationship. Merchant errors acknowledged.") ]);
    ("cb_023",
     [
      ("support_ticket",
        JObj
          [ ("ticket_id", JStr "TKT12367");
            ("customer_contact_date", JRandomDate 65 60);
            ("contact_method", JStr "chat");
            ("customer_statement", JStr "Cancelled order but authorization hold not released. Charged twice for cancelled order.");
            ("order_number", JStr "ORD-12350");
            ("order_cancelled_date", JRandomDate 75 70);
            ("authorization_hold", JBool true);
            ("hold_released", JBool false) ],
        "Customer reported authorization hold not released after order cancellation. Charged for cancelled order.");
      ("merchant_investigation",
        JObj
          [ ("order_number", JStr "ORD-12350");
            ("order_cancelled_date", JRandomDate 75 70);
            ("authorization_hold_date", JRandomDate 75 70);
            ("hold_release_date", JNull);
            ("system_error", JBool true);
            ("error_type", JStr "authorization_hold_failure");
            ("error_source", JStr "payment_processor_bug");
            ("merchant_confirmed", JBool true);
            ("hold_amount", JDec (dec 225 0)) ],
        "Merchant investigation: Confirmed authorization hold not released due to payment processor bug. System error identified.");
      ("refund",
        JObj
          [ ("refund_processed", JBool true);
            ("refund_date", JRandomDate 60 58);
            ("refund_amount", JDec (dec 225 0));
            ("refund_method", JStr "credit_card");
            ("refund_confirmation", JStr "REF-2024-007");
            ("refund_status", JStr "completed");
            ("hold_released", JBool true);
            ("customer_notified", JBool true) ],
        "Merchant confirmed error, released authorization hold, and processed refund ($225.00). Refund confirmation sent to customer.");
      ("system_fix",
        JObj
          [ ("issue_resolved", JBool true);
            ("fix_date", JRandomDate 58 56);
            ("fix_description", JStr "Payment processor authorization hold release logic fixed");
            ("prevention_measures", JStr "Added automated hold release for cancelled orders") ],
        "System fix implemented: Payment processor authorization hold release logic corrected. Automated hold release added for cancelled orders.");
      ("previous_dispute",
        JObj
          [ ("total_disputes", JInt 2);
            ("merchant_error_disputes", JInt 0);
            ("previous_case", JStr "cb_013");
            ("customer_relationship", JStr "good") ],
        "Customer has 2 previous disputes (1 not_guilty - cb_013). Good customer relationship. First merchant error case.") ]) ].

(** Evaluation of a dict display: the calls of [random_date] are made in the
    order in which they are written. *)
Fixpoint eval_json (j : Json) : M Json :=
  match j with
  | JRandomDate s e => t <- random_date s e ;; ret (JTime t)
  | JList l =>
      l' <- (fix eval_list (l : list Json) : M (list Json) :=
               match l with
               | [] => ret []
               | x :: r => x' <- eval_json x ;; r' <- eval_list r ;; ret (x' :: r')
               end) l ;;
      ret (JList l')
  | JObj kv =>
      kv' <- (fix eval_items (kv : list (string * Json)) : M (list (string * Json)) :=
                match kv with
                | [] => ret []
                | (k, x) :: r =>
                    x' <- eval_json x ;; r' <- eval_items r ;; ret ((k, x') :: r')
                end) kv ;;
      ret (JObj kv')
  | _ => ret j
  end.

Definition Event := (string * Json * string)%type.

Fixpoint eval_events (l : list Event) : M (list Event) :=
  match l with
  | [] => ret []
  | (event_type, event_data, description) :: r =>
      d <- eval_json event_data ;;
      r' <- eval_events r ;;
      ret ((event_type, d, description) :: r')
  end.

Fixpoint eval_evidence (d : list (string * list Event))
  : M (list (string * list Event)) :=
  match d with
  | [] => ret []
  | (k, evs) :: r =>
      evs' <- eval_events evs ;;
      r' <- eval_evidence r ;;
      ret ((k, evs') :: r')
  end.

(** "Fallback to generic events if case not found": the dict
    [generic_events], built anew for each case that needs it. *)
Definition generic_events (cb : Case.dict) : M (list (string * list Event)) :=
  t1 <- randint 10000 99999 ;;
  t2 <- randint 10000 99999 ;;
  t3 <- randint 10000 99999 ;;
  t4 <- randint 10000 99999 ;;
  ret [ ("true_fraud",
         [ ("support_ticket", JObj [("ticket_id", JStr ("TKT" ++ str t1))],
            "Customer reported fraud.");
           ("login", JObj [("ip_address", JStr "192.168.1.100")],
            "Customer logged in from unusual location.") ]);
        ("friendly_fraud",
         [ ("support_ticket", JObj [("ticket_id", JStr ("TKT" ++ str t2))],
            "Customer contacted support.");
           ("refund", JObj [("refund_amount", JDec (Case.chargeback_amount cb))],
            "Merchant offered refund.") ]);
        ("merchant_error",
         [ ("support_ticket", JObj [("ticket_id", JStr ("TKT" ++ str t3))],
            "Customer reported error.");
           ("refund", JObj [("refund_amount", JDec (Case.chargeback_amount cb))],
            "Merchant processed refund.") ]);
        ("not_guilty",
         [ ("support_ticket", JObj [("ticket_id", JStr ("TKT" ++ str t4))],
            "Chargeback received.");
           ("refund", JObj [("evidence_submitted", JBool true)],
            "Evidence package submitted.") ]) ].

Definition insert_events (cb_id : string) (events : list Event) : M unit :=
  for_each events
    (fun ev => let '(event_type, event_data, description) := ev in
       event_date <- random_date 10 1 ;;
       execute (insert_case_event cb_id event_type (Some event_date)
                  (Some event_data) (Some description))).

(** The events that the loop writes for one case: its authored list, or the
    generic list of its [fraud_type] when [case_evidence] has none (or an
    empty one) for it. *)
Definition events_of_case (case_evidence : list (string * list Event))
    (cb : Case.dict) : M (list Event) :=
  let cb_id := Case.chargeback_id cb in
  let events := dict_get case_evidence cb_id in
  match events with
  | [] =>
      let fraud_type := Case.fraud_type cb in
      generic <- generic_events cb ;;
      ret (dict_get generic fraud_type)
  | _ => ret events
  end.

Definition create_case_events (case_evidence : list (string * list Event))
    (chargeback_cases : list Case.dict) : M unit :=
  for_each chargeback_cases
    (fun cb => events <- events_of_case case_evidence cb ;;
               insert_events (Case.chargeback_id cb) events).

(** "6. Update customer statistics" *)
Definition update_customer_statistics : M unit :=
  for_each customers_data
    (fun c => let '(customer_id, _, _, _) := c in
       count <- query (count_chargebacks_of_customer customer_id) ;;
       execute (update_total_chargebacks count customer_id)).

Definition count_fraud_type (ft : string) (cases : list Case.dict) : Z :=
  Z.of_nat (List.length
    (filter (fun cb => String.eqb (Case.fraud_type cb) ft) cases)).

(** The body of [seed_database] once the file is known to exist. It returns
    the local variable [chargeback_cases], which alone carries the category of
    each case. *)
Definition seed_database_cases : M (list Case.dict) :=
  connect ;;
  print (Line "Seeding database with synthetic data...") ;;
  print (Line "Clearing existing data...") ;;
  clear_existing_data ;;
  print (Line "Creating merchants...") ;;
  create_merchants ;;
  print (Line "Creating customers and transactions...") ;;
  create_customers ;;
  transaction_counter <- create_normal_transactions 1%nat ;;
  print (Line "Creating chargeback cases...") ;;
  locals <- create_chargeback_cases transaction_counter ;;
  let chargeback_cases := snd locals in
  insert_all_chargebacks chargeback_cases ;;
  print (Line "Creating case events with detailed evidence...") ;;
  case_evidence <- eval_evidence
      (case_evidence_display (tx_id_of "cb7_tx_id" case_blocks chargeback_cases)
                             (tx_id_of "cb21_tx_id" case_blocks chargeback_cases)) ;;
  create_case_events case_evidence chargeback_cases ;;
  print (Line "Updating customer statistics...") ;;
  update_customer_statistics ;;
  commit ;;
  total_transactions <- query (count_rows "transactions") ;;
  total_events <- query (count_rows "case_events") ;;
  print (Line "Database seeded successfully!") ;;
  print (Line "Summary:") ;;
  print (LineInt "merchants" (Z.of_nat (List.length merchants_data))) ;;
  print (LineInt "customers" (Z.of_nat (List.length customers_data))) ;;
  print (LineInt "transactions" total_transactions) ;;
  print (LineInt "chargebacks" (Z.of_nat (List.length chargeback_cases))) ;;
  print (LineInt "True Fraud cases" (count_fraud_type "true_fraud" chargeback_cases)) ;;
  print (LineInt "Friendly Fraud cases" (count_fraud_type "friendly_fraud" chargeback_cases)) ;;
  print (LineInt "Merchant Error cases" (count_fraud_type "merchant_error" chargeback_cases)) ;;
  print (LineInt "Not Guilty (Merchant Won) cases" (count_fraud_type "not_guilty" chargeback_cases)) ;;
  print (LineInt "case events" total_events) ;;
  print (Line "Ready for analysis!") ;;
  close ;;
  ret chargeback_cases.

Definition seed_database : M unit :=
  e <- db_path_exists ;;
  if e : bool
  then seed_database_cases ;; ret tt
  else print (Line "Error: Database not found") ;;
       print (Line "Please run setup_database.py first!").

(* ================================================================= *)
(** ** [view_data.py] *)

(** [ORDER BY date DESC]: the most recent first, NULL last. *)
Definition date_desc (a b : option Timestamp) : bool :=
  match a, b with
  | Some x, Some y => days_ago x <=? days_ago y
  | Some _, None => true
  | None, Some _ => false
  | None, None => true
  end.

(** [LIMIT n] *)
Definition limit {A} (n : nat) (l : list A) : list A := firstn n l.

(** Aggregates: [SUM], [MIN], [MAX] and [AVG] of no value at all are NULL.

    A number with two decimals is stored as an integer when it has no
    fractional part and fits in 64 bits (the columns have NUMERIC affinity),
    otherwise as a floating-point number. *)
Definition int64_min : Z := - 9223372036854775808.
Definition int64_max : Z := 9223372036854775807.

Definition stored_as_integer (c : Dec) : bool :=
  (c mod 100 =? 0) && (int64_min <=? c / 100) && (c / 100 <=? int64_max).

(** [SUM] (SQLite 3.40, [sumStep] and [sumFinalize]): integers are added as
    64-bit integers for as long as no other value has been met; an overflow
    of that addition makes the query fail; after a value that is not an
    integer the result is the floating-point sum of all values.  That sum is
    in general not the exact decimal sum: the model keeps its terms and
    their order, not a value. *)
Record SumCtx := { iSum : Z; approx : bool; overflow : bool }.

Definition sum_step (p : SumCtx) (c : Dec) : SumCtx :=
  if stored_as_integer c
  then if approx p || overflow p then p
       else let s := iSum p + c / 100 in
            if (int64_min <=? s) && (s <=? int64_max)
            then {| iSum := s; approx := false; overflow := false |}
            else {| iSum := iSum p; approx := true; overflow := true |}
  else {| iSum := iSum p; approx := true; overflow := overflow p |}.

Definition sum_ctx (l : list Dec) : SumCtx :=
  fold_left sum_step l {| iSum := 0; approx := false; overflow := false |}.

Definition integer_overflow : Exn := OperationalError "integer overflow".

Definition sql_sum (l : list Dec) : Exn + Cell :=
  match l with
  | [] => inr CNull
  | _ => let p := sum_ctx l in
         if overflow p then inl integer_overflow
         else if approx p then inr (CSum l)
         else inr (CInt (iSum p))
  end.

Definition sql_min (l : list Z) : option Z :=
  match l with [] => None | x :: r => Some (fold_right Z.min x r) end.

Definition sql_max (l : list Z) : option Z :=
  match l with [] => None | x :: r => Some (fold_right Z.max x r) end.

Definition sql_avg (l : list Dec) : Cell :=
  match l with [] => CNull | _ => CAvg l end.

Definition count_distinct (l : list string) : Z :=
  Z.of_nat (List.length (nodup string_dec l)).

Definition cell_dec (o : option Dec) : Cell :=
  match o with Some c => CDec c | None => CNull end.
Definition cell_int (o : option Z) : Cell :=
  match o with Some c => CInt c | None => CNull end.
Definition cell_text (o : option string) : Cell :=
  match o with Some c => CText c | None => CNull end.
Definition cell_time (o : option Timestamp) : Cell :=
  match o with Some c => CTime c | None => CNull end.

(** the values of an optional column that are not NULL *)
Definition non_null {A B} (f : A -> option B) (l : list A) : list B :=
  flat_map (fun r => match f r with Some v => [v] | None => [] end) l.

(** [print(f"   label: ${value:,.2f}")]: the format is defined on numbers;
    on [None] Python raises
    "unsupported format string passed to NoneType.__format__". *)
Definition print_money (label : string) (value : Cell) : M unit :=
  match value with
  | CNull => raise (TypeError
               "unsupported format string passed to NoneType.__format__")
  | CText _ | CTime _ => raise (ValueError "Unknown format code 'f' for object of type 'str'")
  | _ => print (LineMoney label value)
  end.

(** A query on a table that must exist. *)
Definition select {A} (t : string) (q : Db -> A) : M A :=
  fun st => if has_table (work st) t then Ok (q (work st)) st
            else Raise (no_such_table t) st.

(** A query with [SUM], which can fail. *)
Definition select_sum {A} (t : string) (q : Db -> Exn + A) : M A :=
  fun st => if has_table (work st) t
            then match q (work st) with
                 | inr v => Ok v st
                 | inl e => Raise e st
                 end
            else Raise (no_such_table t) st.

(** "4. Transactions Summary": COUNT, two COUNT DISTINCT, SUM, AVG, MIN, MAX
    of [amount]. *)
Definition transaction_stats (db : Db)
  : Exn + Z * Z * Z * Cell * Cell * Cell * Cell :=
  let amounts := map Transactions.amount (transactions db) in
  match sql_sum amounts with
  | inl e => inl e
  | inr total =>
      inr (Z.of_nat (List.length (transactions db)),
           count_distinct (map Transactions.customer_id (transactions db)),
           count_distinct (map Transactions.merchant_id (transactions db)),
           total,
           sql_avg amounts,
           cell_dec (sql_min amounts),
           cell_dec (sql_max amounts))
  end.

(** [COUNT(CASE WHEN status = s THEN 1 END)] *)
Definition count_status (s : string) (db : Db) : Z :=
  Z.of_nat (List.length
    (filter (fun c => match Chargebacks.status c with
                      | Some x => String.eqb x s
                      | None => false
                      end) (chargebacks db))).

(** "Chargeback summary" *)
Definition chargeback_stats (db : Db) : Exn + Z * Z * Z * Z * Z * Cell :=
  match sql_sum (map Chargebacks.chargeback_amount (chargebacks db)) with
  | inl e => inl e
  | inr total =>
      inr (Z.of_nat (List.length (chargebacks db)),
           count_status "open" db, count_status "under_review" db,
           count_status "won" db, count_status "lost" db,
           total)
  end.

Definition customers_listing (db : Db) : list (list Cell) :=
  map (fun r => [CText (Customers.customer_id r); CText (Customers.name r);
                 cell_text (Customers.email r); cell_text (Customers.region r);
                 cell_int (Customers.total_chargebacks r);
                 cell_time (Customers.created_at r)])
      (order_by (fun a b => String.leb (Customers.customer_id a)
                                       (Customers.customer_id b))
                (customers db)).

Definition merchants_listing (db : Db) : list (list Cell) :=
  map (fun r => [CText (Merchants.merchant_id r); CText (Merchants.merchant_name r);
                 cell_text (Merchants.acquiring_bank r);
                 cell_dec (Merchants.win_rate r);
                 cell_time (Merchants.created_at r)])
      (order_by (fun a b => String.leb (Merchants.merchant_id a)
                                       (Merchants.merchant_id b))
                (merchants db)).

Definition sample_transactions (db : Db) : list (list Cell) :=
  map (fun t => [CText (Transactions.transaction_id t);
                 CText (Transactions.customer_id t);
                 CText (Transactions.merchant_id t);
                 CDec (Transactions.amount t);
                 cell_text (Transactions.currency t);
                 cell_text (Transactions.payment_method t);
                 cell_time (Transactions.transaction_date t);
                 cell_text (Transactions.status t);
                 cell_text (Transactions.risk_level t);
                 cell_dec (Transactions.fraud_score t)])
      (limit 10
         (order_by (fun a b => date_desc (Transactions.transaction_date a)
                                         (Transactions.transaction_date b))
                   (transactions db))).

(** "All Chargebacks": chargebacks JOIN transactions JOIN customers JOIN
    merchants, ORDER BY c.dispute_date DESC. *)
Definition chargebacks_listing (db : Db) : list (list Cell) :=
  let joined :=
    flat_map (fun ct : Chargebacks.row * Transactions.row =>
      let (c, t) := ct in
      flat_map (fun cust =>
        flat_map (fun m => [(c, t, cust, m)])
          (filter (fun m => String.eqb (Transactions.merchant_id t)
                                       (Merchants.merchant_id m))
                  (merchants db)))
        (filter (fun cust => String.eqb (Transactions.customer_id t)
                                        (Customers.customer_id cust))
                (customers db)))
      (chargebacks_join_transactions db) in
  map (fun x => let '(c, t, cust, m) := x in
         [CText (Chargebacks.chargeback_id c);
          CText (Chargebacks.transaction_id c);
          cell_time (Chargebacks.dispute_date c);
          cell_text (Chargebacks.reason_code c);
          cell_text (Chargebacks.dispute_type c);
          CDec (Chargebacks.chargeback_amount c);
          cell_text (Chargebacks.status c);
          cell_text (Chargebacks.outcome c);
          cell_text (Chargebacks.issuing_bank c);
          CDec (Transactions.amount t);
          CText (Customers.name cust);
          CText (Merchants.merchant_name m)])
      (order_by (fun a b => let '(ca, _, _, _) := a in
                            let '(cb, _, _, _) := b in
                            date_desc (Chargebacks.dispute_date ca)
                                      (Chargebacks.dispute_date cb))
                joined).

(** [GROUP BY key]: the distinct keys in ascending order. *)
Definition group_keys (l : list string) : list string :=
  order_by String.leb (nodup string_dec l).

(** "6. Case Events Summary": event_type, COUNT, ORDER BY count DESC. *)
Definition event_type_counts (db : Db) : list (string * Z) :=
  let types := map CaseEvents.event_type (case_events db) in
  order_by (fun a b => snd b <=? snd a)
    (map (fun k => (k, Z.of_nat (List.length (filter (String.eqb k) types))))
         (group_keys types)).

Definition sample_events (db : Db) : list (list Cell) :=
  map (fun e => [CInt (CaseEvents.event_id e);
                 CText (CaseEvents.chargeback_id e);
                 CText (CaseEvents.event_type e);
                 cell_time (CaseEvents.event_date e);
                 cell_text (CaseEvents.description e)])
      (limit 10
         (order_by (fun a b => date_desc (CaseEvents.event_date a)
                                         (CaseEvents.event_date b))
                   (case_events db))).

(** [a >= b] on the values of [AVG], compared as exact fractions; NULL is
    below every number. *)
Definition avg_ge (a b : Cell) : bool :=
  match a, b with
  | CAvg l1, CAvg l2 =>
      fold_right Z.add 0 l2 * Z.of_nat (List.length l1)
      <=? fold_right Z.add 0 l1 * Z.of_nat (List.length l2)
  | _, CAvg _ => false
  | _, _ => true
  end.

(** "7. Risk Analysis": risk_level, COUNT, AVG(fraud_score), SUM(amount),
    WHERE risk_level IS NOT NULL GROUP BY risk_level
    ORDER BY avg_fraud_score DESC. *)
Definition risk_rows (db : Db) (k : string) : list Transactions.row :=
  filter (fun t => match Transactions.risk_level t with
                   | Some x => String.eqb x k
                   | None => false
                   end) (transactions db).

Definition risk_levels (db : Db) : list string :=
  group_keys (non_null Transactions.risk_level (transactions db)).

Definition risk_group (db : Db) (k : string) : Exn + string * Z * Cell * Cell :=
  let rows := risk_rows db k in
  match sql_sum (map Transactions.amount rows) with
  | inl e => inl e
  | inr total =>
      inr (k, Z.of_nat (List.length rows),
           sql_avg (non_null Transactions.fraud_score rows), total)
  end.

(** The rows of a query, when none of them fails. *)
Fixpoint all_rows {A} (l : list (Exn + A)) : Exn + list A :=
  match l with
  | [] => inr []
  | inl e :: _ => inl e
  | inr a :: r =>
      match all_rows r with
      | inl e => inl e
      | inr r' => inr (a :: r')
      end
  end.

Definition risk_stats (db : Db) : Exn + list (string * Z * Cell * Cell) :=
  match all_rows (map (risk_group db) (risk_levels db)) with
  | inl e => inl e
  | inr groups =>
      inr (order_by (fun a b => let '(_, _, avg_a, _) := a in
                                let '(_, _, avg_b, _) := b in
                                avg_ge avg_a avg_b)
                    groups)
  end.

Definition is_nil {A} (l : list A) : bool :=
  match l with [] => true | _ => false end.

Definition view_database : M unit :=
  e <- db_path_exists ;;
  if negb e
  then print (Line "Database not found") ;;
       print (Line "Please run setup_database.py first!")
  else
    connect ;;
    print (Line "CHARGEBACK SYSTEM DATABASE OVERVIEW") ;;
    print (Line "Database Summary:") ;;
    print (Line "Location: chargeback_system.db") ;;
    print (Line "Size: (bytes of the file)") ;;
    print (Line "Table Counts:") ;;
    for_each ["customers"; "merchants"; "transactions"; "chargebacks"; "case_events"]
      (fun table => count <- select table (count_rows table) ;;
                    print (LineCount table count)) ;;
    print (Line "CUSTOMERS") ;;
    customers <- select "customers" customers_listing ;;
    (if is_nil customers then print (Line "No customers found.")
     else print (Table ["ID"; "Name"; "Email"; "Region"; "Total CBs"; "Created"]
                       customers)) ;;
    print (Line "MERCHANTS") ;;
    merchants <- select "merchants" merchants_listing ;;
    (if is_nil merchants then print (Line "No merchants found.")
     else print (Table ["ID"; "Name"; "Acquiring Bank"; "Win Rate %"; "Created"]
                       merchants)) ;;
    print (Line "TRANSACTIONS SUMMARY") ;;
    stats <- select_sum "transactions" transaction_stats ;;
    let '(total, unique_customers, unique_merchants,
          total_amount, avg_amount, min_amount, max_amount) := stats in
    print (LineInt "Total Transactions" total) ;;
    print (LineInt "Unique Customers" unique_customers) ;;
    print (LineInt "Unique Merchants" unique_merchants) ;;
    print_money "Total Amount" total_amount ;;
    print_money "Average Amount" avg_amount ;;
    print_money "Min Amount" min_amount ;;
    print_money "Max Amount" max_amount ;;
    print (Line "Sample Transactions (first 10):") ;;
    transactions <- select "transactions" sample_transactions ;;
    (if is_nil transactions then ret tt
     else print (Table ["Transaction ID"; "Customer"; "Merchant"; "Amount";
                        "Currency"; "Payment Method"; "Date"; "Status";
                        "Risk Level"; "Fraud Score"] transactions)) ;;
    print (Line "CHARGEBACKS") ;;
    cb_stats <- select_sum "chargebacks" chargeback_stats ;;
    let '(cb_total, cb_open, cb_under_review, cb_won, cb_lost, cb_amount) :=
      cb_stats in
    print (LineInt "Total Chargebacks" cb_total) ;;
    print (LineInt "Open" cb_open) ;;
    print (LineInt "Under Review" cb_under_review) ;;
    print (LineInt "Won" cb_won) ;;
    print (LineInt "Lost" cb_lost) ;;
    print_money "Total Amount" cb_amount ;;
    print (Line "All Chargebacks:") ;;
    chargebacks <- select "chargebacks" chargebacks_listing ;;
    (if is_nil chargebacks then print (Line "No chargebacks found.")
     else print (Table ["Chargeback ID"; "Transaction ID"; "Dispute Date";
                        "Reason Code"; "Type"; "CB Amount"; "Status"; "Outcome";
                        "Issuing Bank"; "Tx Amount"; "Customer"; "Merchant"]
                       chargebacks)) ;;
    print (Line "CASE EVENTS") ;;
    events <- select "case_events" event_type_counts ;;
    (if is_nil events then print (Line "No case events found.")
     else
       print (Table ["Event Type"; "Count"]
                (map (fun kc => [CText (fst kc); CInt (snd kc)]) events)) ;;
       print (Line "Sample Events (last 10):") ;;
       sample <- select "case_events" sample_events ;;
       (if is_nil sample then ret tt
        else print (Table ["Event ID"; "Chargeback ID"; "Type"; "Date";
                           "Description"] sample))) ;;
    print (Line "RISK ANALYSIS") ;;
    risk <- select_sum "transactions" risk_stats ;;
    (if is_nil risk then ret tt
     else print (Table ["Risk Level"; "Count"; "Avg Fraud Score"; "Total Amount"]
                  (map (fun r => let '(level, count, avg, total) := r in
                                 [CText level; CInt count; avg; total]) risk))) ;;
    print (Line "Database view complete!") ;;
    close.

(* ================================================================= *)
(** * Properties: definitions *)

(** ** Stores *)

(** An initialized store has the five tables. *)
Definition initialized (db : Db) : bool := forallb (has_table db) schema_tables.

(** The store that [init_database] leaves on disk. *)
Definition fresh_db : Db :=
  {| tables := schema_tables;
     indexes := map (fun i => let '(n, t, c) := i in
                       {| idx_name := n; idx_table := t; idx_column := c |})
                    schema_indexes;
     customers := []; merchants := []; transactions := [];
     chargebacks := []; case_events := []; case_events_seq := 0 |}.

(** A world in which the database file does not exist and nothing was
    printed; [example_rand] is one possible behaviour of the generator. *)
Definition example_rand (n : nat) : Z := Z.of_nat n * 7919 + 13.

Definition no_file : St :=
  {| disk := None; work := empty_db; foreign_keys := false;
     rand := example_rand; pos := 0; out := [] |}.

(** The same world with a file that holds one customer, one merchant, a
    transaction between them and a chargeback on it. *)
Definition cust_001 : Customers.row :=
  {| Customers.customer_id := "cust_001"; Customers.name := "Sarah Johnson";
     Customers.email := None; Customers.region := None;
     Customers.created_at := None; Customers.total_chargebacks := Some 0;
     Customers.total_refunds := Some 0 |}.

Definition merch_001 : Merchants.row :=
  {| Merchants.merchant_id := "merch_001";
     Merchants.merchant_name := "TechStore Pro";
     Merchants.acquiring_bank := None; Merchants.win_rate := None;
     Merchants.created_at := None |}.

Definition plain_transaction (id cust merch : string) (amount : Dec)
  : Transactions.row :=
  {| Transactions.transaction_id := id; Transactions.customer_id := cust;
     Transactions.merchant_id := merch; Transactions.amount := amount;
     Transactions.currency := Some "USD"; Transactions.payment_method := None;
     Transactions.card_last_4 := None; Transactions.transaction_date := None;
     Transactions.status := Some "completed"; Transactions.avs_check := None;
     Transactions.cvv_check := None; Transactions.three_ds_used := Some 0;
     Transactions.auth_code := None; Transactions.ip_address := None;
     Transactions.device_fingerprint := None; Transactions.fraud_score := None;
     Transactions.risk_level := None; Transactions.velocity_flag := Some 0;
     Transactions.velocity_data := None; Transactions.risk_assessed_at := None |}.

Definition plain_chargeback (id tx : string) (amount : Dec) : Chargebacks.row :=
  {| Chargebacks.chargeback_id := id; Chargebacks.transaction_id := tx;
     Chargebacks.dispute_date := None; Chargebacks.reason_code := None;
     Chargebacks.dispute_type := None; Chargebacks.issuing_bank := None;
     Chargebacks.chargeback_amount := amount; Chargebacks.analyst_id := None;
     Chargebacks.status := Some "open"; Chargebacks.opened_at := None;
     Chargebacks.closed_at := None; Chargebacks.outcome := None;
     Chargebacks.retrieval_request_date := None;
     Chargebacks.response_deadline := None; Chargebacks.notes := None |}.

Definition small_db : Db :=
  set_chargebacks
    (set_transactions
       (set_merchants (set_customers fresh_db [cust_001]) [merch_001])
       [plain_transaction "txn_0001" "cust_001" "merch_001" (dec 100 0)])
    [plain_chargeback "cb_001" "txn_0001" (dec 100 0)].

Definition small_store : St :=
  {| disk := Some small_db; work := empty_db; foreign_keys := false;
     rand := example_rand; pos := 0; out := [] |}.

(** ** Runs

    [runs m st Q]: from [st] the computation [m] returns normally, in a state
    with the same foreign-key setting and the same tables, and [Q] holds of
    its value and final state. *)
Definition runs {A} (m : M A) (st : St) (Q : A -> St -> Prop) : Prop :=
  exists v st', m st = Ok v st'
                /\ foreign_keys st' = foreign_keys st
                /\ rand st' = rand st
                /\ tables (work st') = tables (work st)
                /\ Q v st'.

(** [completes m st Q]: from [st] the computation [m] returns normally, and
    [Q] holds of its value and final state. *)
Definition completes {A} (m : M A) (st : St) (Q : A -> St -> Prop) : Prop :=
  exists v st', m st = Ok v st' /\ Q v st'.

(** [raises m st e]: from [st] the computation [m] raises [e]. *)
Definition raises {A} (m : M A) (st : St) (e : Exn) : Prop :=
  exists st', m st = Raise e st'.

(** [fails m st e Q]: from [st] the computation [m] raises [e], and [Q]
    holds of the state in which it stops. *)
Definition fails {A} (m : M A) (st : St) (e : Exn) (Q : St -> Prop) : Prop :=
  exists st', m st = Raise e st' /\ Q st'.

(** [keeps_disk m]: whether it returns or raises, [m] leaves the file as it
    is (it does not commit). *)
Definition keeps_disk {A} (m : M A) : Prop :=
  forall st, disk (state_of (m st)) = disk st.

(** Statements that only consume random numbers or print leave the
    connection's tables and the file as they are. *)
Definition same_data (st st' : St) : Prop :=
  work st' = work st /\ disk st' = disk st.

(** ** The generator's bookkeeping *)

(** The id that the generator gives to the transaction of counter [n]. *)
Definition txn_id (n : nat) : string := generate_id "txn" (Z.of_nat n).

(** The transaction ids in use are those generated for 1, ..., c - 1. *)
Definition tx_ids_below (db : Db) (c : nat) : Prop :=
  map Transactions.transaction_id (transactions db)
  = map txn_id (seq 1 (c - 1)).

(** The transaction that a case block inserts. *)
Definition block_transaction (b : CaseBlock) (t : Transactions.row) : Prop :=
  Transactions.customer_id t = tx_customer_id b
  /\ Transactions.merchant_id t = tx_merchant_id b
  /\ Transactions.amount t = tx_amount b
  /\ Transactions.status t = Some (tx_status b)
  /\ Transactions.fraud_score t = Some (tx_fraud_score b)
  /\ Transactions.risk_level t = Some (tx_risk_level b).

(** The dict that a case block appends. *)
Definition block_case (b : CaseBlock) (c : Case.dict) : Prop :=
  Case.chargeback_id c = cb_chargeback_id b
  /\ Case.chargeback_amount c = cb_chargeback_amount b
  /\ Case.status c = cb_status b
  /\ Case.outcome c = cb_outcome b
  /\ (Case.closed_at c = None <-> cb_closed_at b = None)
  /\ Case.fraud_type c = cb_fraud_type b.

(** Every call of [random_date] written in a payload has a range that is not
    empty. *)
Fixpoint dates_ok (j : Json) : bool :=
  match j with
  | JRandomDate s e => e <=? s
  | JList l => forallb dates_ok l
  | JObj kv => forallb (fun kx => dates_ok (snd kx)) kv
  | _ => true
  end.

Definition block_dates_ok (b : CaseBlock) : bool :=
  (snd (tx_transaction_date b) <=? fst (tx_transaction_date b))
  && (snd (tx_risk_assessed_at b) <=? fst (tx_risk_assessed_at b))
  && (snd (cb_dispute_date b) <=? fst (cb_dispute_date b))
  && (snd (cb_opened_at b) <=? fst (cb_opened_at b))
  && match cb_closed_at b with
     | Some (s, e) => e <=? s
     | None => true
     end.

(** The type tags of the events of a case, in the order of the log. *)
Definition event_types (d : list (string * list Event)) (cb_id : string)
  : list string :=
  map (fun ev => fst (fst ev)) (dict_get d cb_id).

(** ** Recomputed from the tables *)

(** The chargebacks whose transaction belongs to customer [cid]. *)
Definition chargebacks_of_customer (db : Db) (cid : string)
  : list Chargebacks.row :=
  filter (fun c =>
            existsb (fun t =>
                       String.eqb (Transactions.transaction_id t)
                                  (Chargebacks.transaction_id c)
                       && String.eqb (Transactions.customer_id t) cid)
                    (transactions db))
         (chargebacks db).

(** The case events of chargeback [cb_id]. *)
Definition events_of_chargeback (db : Db) (cb_id : string)
  : list CaseEvents.row :=
  filter (fun e => String.eqb (CaseEvents.chargeback_id e) cb_id)
         (case_events db).

(** The transaction that a chargeback references, if it is stored. *)
Definition transaction_of (db : Db) (tx_id : string) : option Transactions.row :=
  find (fun t => String.eqb (Transactions.transaction_id t) tx_id)
       (transactions db).

(** Reading decimal digits back. *)
Definition parse_nat (s : string) : option nat :=
  option_map Nat.of_uint (NilEmpty.uint_of_string s).

(** The effect of the loops that insert transactions: rows are appended to
    [transactions], nothing else changes, and the bookkeeping invariant holds
    for the new counter. *)
Definition added_transactions (st : St) (c' : nat) (st' : St) : Prop :=
  (1 <= c')%nat
  /\ tx_ids_below (work st') c'
  /\ exists rows, work st' = set_transactions (work st)
                               (transactions (work st) ++ rows).

(** The store once the five DELETE statements of the generator have run:
    no row is left; the tables, the indexes and the [sqlite_sequence] entry
    are as they were. *)
Definition cleared (db : Db) : Db :=
  set_merchants
    (set_customers
       (set_transactions
          (set_chargebacks (set_case_events db [] (case_events_seq db)) [])
          [])
       [])
    [].

(** The generator writes 109 case events; their ids are the 109 integers
    that follow the [sqlite_sequence] entry, which must exist. *)
Definition events_per_run : Z := 109.

Definition sequence_has_room (db : Db) : Prop :=
  case_events_seq db + events_per_run <= max_rowid.

(** The same world with another content of the file. *)
Definition set_disk (st : St) (d : option Db) : St :=
  {| disk := d; work := work st; foreign_keys := foreign_keys st;
     rand := rand st; pos := pos st; out := out st |}.

(** The order in which the generator names the tables in its DELETE
    statements, and the order in which the report counts them. *)
Definition delete_order : list string :=
  ["case_events"; "chargebacks"; "transactions"; "customers"; "merchants"].

Definition count_order : list string :=
  ["customers"; "merchants"; "transactions"; "chargebacks"; "case_events"].

(** The first table of [order] that the file lacks. *)
Definition first_missing (db : Db) (order : list string) : option string :=
  find (fun t => negb (has_table db t)) order.

(** All five tables are empty. *)
Definition emptied (db : Db) : Prop :=
  customers db = [] /\ merchants db = [] /\ transactions db = []
  /\ chargebacks db = [] /\ case_events db = [].

(** The effect of the case blocks [done], run from counter [c0]. *)
Definition cases_built (st : St) (c0 : nat) (done : list CaseBlock)
    (locals : nat * list Case.dict) (st' : St) : Prop :=
  fst locals = (c0 + List.length done)%nat
  /\ tx_ids_below (work st') (fst locals)
  /\ exists rows,
       work st' = set_transactions (work st) (transactions (work st) ++ rows)
       /\ Forall2 block_transaction done rows
       /\ map Transactions.transaction_id rows
          = map txn_id (seq c0 (List.length done))
       /\ Forall2 block_case done (snd locals)
       /\ map Case.transaction_id (snd locals)
          = map txn_id (seq c0 (List.length done)).

(** Induction on payloads. *)
Section JsonInduction.
Variable P : Json -> Prop.
Hypothesis HNull : P JNull.
Hypothesis HBool : forall b, P (JBool b).
Hypothesis HInt : forall z, P (JInt z).
Hypothesis HDec : forall c, P (JDec c).
Hypothesis HStr : forall s, P (JStr s).
Hypothesis HTime : forall t, P (JTime t).
Hypothesis HRandomDate : forall s e, P (JRandomDate s e).
Hypothesis HList : forall l, Forall P l -> P (JList l).
Hypothesis HObj : forall kv, Forall (fun kx => P (snd kx)) kv -> P (JObj kv).

Fixpoint Json_induction (j : Json) : P j :=
  match j with
  | JNull => HNull
  | JBool b => HBool b
  | JInt z => HInt z
  | JDec c => HDec c
  | JStr s => HStr s
  | JTime t => HTime t
  | JRandomDate s e => HRandomDate s e
  | JList l =>
      HList l ((fix all (l : list Json) : Forall P l :=
                  match l with
                  | [] => Forall_nil P
                  | x :: r => Forall_cons x (Json_induction x) (all r)
                  end) l)
  | JObj kv =>
      HObj kv ((fix all (kv : list (string * Json))
                  : Forall (fun kx => P (snd kx)) kv :=
                  match kv with
                  | [] => Forall_nil _
                  | kx :: r => Forall_cons kx (Json_induction (snd kx)) (all r)
                  end) kv)
  end.
End JsonInduction.

(** The keys of a dict of events and the type tags under each key. *)
Definition skeleton (d : list (string * list Event)) : list (string * list string) :=
  map (fun kv => (fst kv, map (fun ev : Event => fst (fst ev)) (snd kv))) d.

(** The type tags of the generic events of a category. *)
Definition generic_event_types (fraud_type : string) : list string :=
  if String.eqb "true_fraud" fraud_type then ["support_ticket"; "login"]
  else if String.eqb "friendly_fraud" fraud_type then ["support_ticket"; "refund"]
  else if String.eqb "merchant_error" fraud_type then ["support_ticket"; "refund"]
  else if String.eqb "not_guilty" fraud_type then ["support_ticket"; "refund"]
  else [].

(** The type tags of the events written for a case, given the authored
    evidence: they depend on the case through its id and its category. *)
Definition written_types_of (d : list (string * list Event))
    (cb_id fraud_type : string) : list string :=
  match event_types d cb_id with
  | [] => generic_event_types fraud_type
  | l => l
  end.

Definition written_event_types (d : list (string * list Event)) (cb : Case.dict)
  : list string :=
  written_types_of d (Case.chargeback_id cb) (Case.fraud_type cb).

(** The (chargeback, type tag) pairs of a list of case events. *)
Definition event_tags (l : list CaseEvents.row) : list (string * string) :=
  map (fun e => (CaseEvents.chargeback_id e, CaseEvents.event_type e)) l.

(** Dates of a list of events and of a dict of them. *)
Definition events_dates_ok (l : list Event) : bool :=
  forallb (fun ev : Event => dates_ok (snd (fst ev))) l.

Definition evidence_dates_ok (d : list (string * list Event)) : bool :=
  forallb (fun kv => events_dates_ok (snd kv)) d.

(** The tags of the events that the generator writes for its cases. *)
Definition written_event_tags (d : list (string * list Event))
    (cases : list Case.dict) : list (string * string) :=
  flat_map (fun c => map (pair (Case.chargeback_id c)) (written_event_types d c))
           cases.

(** [ensures m st Q]: if [m] returns normally from [st], then [Q] holds of
    its value and final state. *)
Definition ensures {A} (m : M A) (st : St) (Q : A -> St -> Prop) : Prop :=
  forall v st', m st = Ok v st' -> Q v st'.

Definition customer_ids : list string :=
  map (fun c => fst (fst (fst c))) customers_data.

Definition merchant_ids : list string :=
  map (fun m => fst (fst (fst m))) merchants_data.

(** The shape of the transactions that step 3 of the generator writes. *)
Definition ordinary_transaction (t : Transactions.row) : Prop :=
  In (Transactions.customer_id t) customer_ids
  /\ In (Transactions.merchant_id t) merchant_ids
  /\ dec 25 0 <= Transactions.amount t <= dec 850 0
  /\ Transactions.status t = Some "completed"
  /\ Transactions.risk_level t = Some "low"
  /\ Transactions.velocity_flag t = Some 0
  /\ exists s, Transactions.fraud_score t = Some s /\ dec 5 0 <= s <= dec 25 0.

(** The transactions of one customer among [l]. *)
Definition transactions_of_customer (cid : string) (l : list Transactions.row)
  : list Transactions.row :=
  filter (fun t => String.eqb (Transactions.customer_id t) cid) l.

(** The state right after [sqlite3.connect]. *)
Definition connected (st : St) : St :=
  {| disk := disk st;
     work := match disk st with Some d => d | None => empty_db end;
     foreign_keys := false;
     rand := rand st; pos := pos st; out := out st |}.

(** What a run of the generator leaves in the tables, in terms of its list
    [cases] and of the counter [c0] that the first case block found. *)
Record seeded (cases : list Case.dict) (db : Db) : Prop := {
  seeded_merchants :
    map Merchants.merchant_id (merchants db)
    = map (fun m => fst (fst (fst m))) merchants_data;
  seeded_customers :
    map Customers.customer_id (customers db)
    = map (fun c => fst (fst (fst c))) customers_data;
  seeded_totals :
    forall r, In r (customers db) ->
      Customers.total_chargebacks r
      = Some (count_chargebacks_of_customer (Customers.customer_id r) db);
  seeded_transactions :
    exists c0 normal rows,
      (1 <= c0)%nat
      /\ transactions db = (normal ++ rows)%list
      /\ tx_ids_below db (c0 + List.length case_blocks)
      /\ Forall2 block_transaction case_blocks rows
      /\ map Transactions.transaction_id rows
         = map txn_id (seq c0 (List.length case_blocks))
      /\ map Case.transaction_id cases
         = map txn_id (seq c0 (List.length case_blocks));
  seeded_cases : Forall2 block_case case_blocks cases;
  seeded_chargebacks :
    Forall2 (fun c r => exists d, r = chargeback_row c d) cases (chargebacks db);
  seeded_events :
    event_tags (case_events db)
    = written_event_tags
        (case_evidence_display (tx_id_of "cb7_tx_id" case_blocks cases)
                               (tx_id_of "cb21_tx_id" case_blocks cases))
        cases;
  seeded_ordinary :
    exists normal rows,
      transactions db = (normal ++ rows)%list
      /\ List.length rows = List.length case_blocks
      /\ Forall ordinary_transaction normal
      /\ (5 * List.length customers_data <= List.length normal
          <= 10 * List.length customers_data)%nat
      /\ forall cid, In cid customer_ids ->
           (5 <= List.length (transactions_of_customer cid normal) <= 10)%nat
}.

(** ** Checks on the literals of the case blocks *)

Definition is_none {A} (o : option A) : bool :=
  match o with None => true | Some _ => false end.

(** [won] and [lost] are the terminal states of a case. *)
Definition terminal (status : option string) : bool :=
  match status with
  | Some s => String.eqb s "won" || String.eqb s "lost"
  | None => false
  end.

Definition fifty_points : Dec := dec 50 0.

Definition score_margin_ok (bs : list CaseBlock) : bool :=
  forallb (fun b1 =>
    forallb (fun b2 =>
      implb (String.eqb (cb_fraud_type b1) "true_fraud"
             && String.eqb (cb_fraud_type b2) "not_guilty")
            (tx_fraud_score b2 + fifty_points <=? tx_fraud_score b1)) bs) bs.

Definition outcome_pairing_ok (b : CaseBlock) : bool :=
  Bool.eqb (is_none (cb_closed_at b)) (is_none (cb_outcome b))
  && Bool.eqb (terminal (Some (cb_status b))) (negb (is_none (cb_outcome b))).

Definition merchant_error_ok (b : CaseBlock) : bool :=
  implb (String.eqb (cb_fraud_type b) "merchant_error")
    (if existsb (String.eqb (cb_chargeback_id b)) ["cb_021"; "cb_022"; "cb_023"]
     then String.eqb (cb_status b) "lost"
          && match cb_outcome b with Some o => String.eqb o "lost" | None => false end
     else existsb (String.eqb (cb_chargeback_id b)) ["cb_007"; "cb_008"]
          && String.eqb (cb_status b) "open"
          && is_none (cb_outcome b) && is_none (cb_closed_at b)).

Definition known_category (b : CaseBlock) : bool :=
  existsb (String.eqb (cb_fraud_type b))
          ["true_fraud"; "friendly_fraud"; "merchant_error"; "not_guilty"].

Definition has_events (d : list (string * list Event)) (b : CaseBlock) : bool :=
  negb (is_nil (written_types_of d (cb_chargeback_id b) (cb_fraud_type b))).

(** ** The claims of the specification that the code does not meet, as
    predicates *)

(** "initialize fails loudly and does not overwrite an existing store" *)
Definition refuses_to_overwrite (st : St) : Prop :=
  succeeded (init_database st) = false
  /\ disk (state_of (init_database st)) = disk st.

(** "a second chargeback on a transaction is rejected with a constraint
    violation" *)
Definition one_chargeback_per_transaction (fk : bool) (db : Db)
    (r : Chargebacks.row) : Prop :=
  existsb (fun c => String.eqb (Chargebacks.transaction_id c)
                               (Chargebacks.transaction_id r))
          (chargebacks db) = true ->
  exists msg, insert_chargeback r fk db = inl (IntegrityError msg).

(** "every merchant-error case is resolved lost" *)
Definition merchant_errors_lost (cases : list Case.dict) (db : Db) : Prop :=
  forall c r,
    In c cases -> Case.fraud_type c = "merchant_error" ->
    In r (chargebacks db) ->
    Chargebacks.chargeback_id r = Case.chargeback_id c ->
    Chargebacks.status r = Some "lost" /\ Chargebacks.outcome r = Some "lost".

(** The store after [init_database] has run where there was no file, and a
    transaction of a customer that does not exist. *)
Definition fresh_store : St := state_of (init_database no_file).

Definition orphan_transaction : Transactions.row :=
  plain_transaction (generate_id "txn" 0) "cust_999" "merch_001" (dec 100 0).

(** ** Further checks on the literals of the case blocks *)

Definition block_refs_ok (b : CaseBlock) : bool :=
  existsb (String.eqb (tx_customer_id b)) customer_ids
  && existsb (String.eqb (tx_merchant_id b)) merchant_ids.

Definition block_disputed (b : CaseBlock) : bool :=
  String.eqb (tx_status b) "disputed".

Definition block_amounts_agree (b : CaseBlock) : bool :=
  tx_amount b =? cb_chargeback_amount b.

(** A world whose database file exists but holds no table. *)
Definition empty_file : St :=
  {| disk := Some empty_db; work := empty_db; foreign_keys := false;
     rand := example_rand; pos := 0; out := [] |}.

(** The store [small_db] after an event with the largest 64-bit id was
    written to it and deleted: the sequence of [case_events] is used up. *)
Definition exhausted_db : Db := set_case_events small_db [] max_rowid.

Definition exhausted_store : St :=
  {| disk := Some exhausted_db; work := empty_db; foreign_keys := false;
     rand := example_rand; pos := 0; out := [] |}.

(** A file with three of the five tables: [chargebacks] and [transactions]
    are missing. *)
Definition partial_db : Db :=
  {| tables := ["customers"; "merchants"; "case_events"]; indexes := [];
     customers := []; merchants := []; transactions := [];
     chargebacks := []; case_events := []; case_events_seq := 0 |}.

Definition partial_file : St :=
  {| disk := Some partial_db; work := empty_db; foreign_keys := false;
     rand := example_rand; pos := 0; out := [] |}.



(** ** Reports *)

(** The integer additions of [SUM] over [l] stay within 64 bits. *)
Definition sum_fits (l : list Dec) : bool := negb (overflow (sum_ctx l)).

(** No [SUM] of the report overflows: the total of the transactions, the
    total of the chargebacks and the total of each risk level. *)
Definition sums_fit (db : Db) : bool :=
  sum_fits (map Transactions.amount (transactions db))
  && sum_fits (map Chargebacks.chargeback_amount (chargebacks db))
  && forallb (fun k => sum_fits (map Transactions.amount (risk_rows db k)))
             (risk_levels db).

(** The state after more output. *)
Definition add_out (st : St) (l : list Out) : St :=
  {| disk := disk st; work := work st; foreign_keys := foreign_keys st;
     rand := rand st; pos := pos st; out := (out st ++ l)%list |}.

(** The tables of [order] that come before the first missing one. *)
Fixpoint present_prefix (db : Db) (order : list string) : list string :=
  match order with
  | [] => []
  | t :: r => if has_table db t then t :: present_prefix db r else []
  end.

(** The line that the report prints for the count of a table. *)
Definition count_line (db : Db) (t : string) : Out :=
  LineCount t (count_rows t db).

(** What the report prints before it counts the tables. *)
Definition report_head : list Out :=
  [Line "CHARGEBACK SYSTEM DATABASE OVERVIEW"; Line "Database Summary:";
   Line "Location: chargeback_system.db"; Line "Size: (bytes of the file)";
   Line "Table Counts:"].

(** The cells that the format [,.2f] accepts. *)
Definition is_number (c : Cell) : bool :=
  match c with
  | CInt _ | CDec _ | CSum _ | CAvg _ => true
  | _ => false
  end.



(* ================================================================= *)
(** * Properties: proofs *)

(** ** The schema *)

Lemma init_database_run (st : St) :
  exists st', init_database st = Ok tt st'
              /\ disk st' = Some fresh_db /\ work st' = empty_db
              /\ foreign_keys st' = false.
Proof.
  destruct st as [d w f r p o].
  destruct d; cbv; eexists; (split; [reflexivity | auto]).
Qed.

Lemma initialized_fresh_db : initialized fresh_db = true.
Proof. reflexivity. Qed.

Lemma initialized_has_table (db : Db) (t : string) :
  initialized db = true -> In t schema_tables -> has_table db t = true.
Proof.
  unfold initialized. rewrite forallb_forall. auto.
Qed.

(** With foreign keys enforced, a transaction whose customer or merchant is
    missing is refused and nothing changes. *)
Lemma insert_transaction_fk_enforced (st : St) (r : Transactions.row) :
  foreign_keys st = true ->
  has_table (work st) "transactions" = true ->
  transaction_exists (work st) (Transactions.transaction_id r) = false ->
  customer_exists (work st) (Transactions.customer_id r)
    && merchant_exists (work st) (Transactions.merchant_id r) = false ->
  execute (insert_transaction r) st = Raise fk_failed st.
Proof.
  intros Hfk Ht Hx Hp. unfold execute, insert_transaction.
  rewrite Hfk, Ht, Hx, Hp. reflexivity.
Qed.

(** Without them (a connection that did not execute the pragma), the same
    insert is accepted. *)
Lemma insert_transaction_fk_off (st : St) (r : Transactions.row) :
  foreign_keys st = false ->
  has_table (work st) "transactions" = true ->
  transaction_exists (work st) (Transactions.transaction_id r) = false ->
  execute (insert_transaction r) st
  = Ok tt (set_work st (set_transactions (work st)
                          (transactions (work st) ++ [r]))).
Proof.
  intros Hfk Ht Hx. unfold execute, insert_transaction.
  rewrite Hfk, Ht, Hx. reflexivity.
Qed.

(** ** Rules for [runs] *)

Lemma runs_ret {A} (v : A) (st : St) (Q : A -> St -> Prop) :
  Q v st -> runs (ret v) st Q.
Proof. intros H. exists v, st. repeat split; auto. Qed.

Lemma runs_bind {A B} (m : M A) (k : A -> M B) (st : St)
    (Q1 : A -> St -> Prop) (Q : B -> St -> Prop) :
  runs m st Q1 ->
  (forall v st1,
      foreign_keys st1 = foreign_keys st ->
      rand st1 = rand st ->
      tables (work st1) = tables (work st) ->
      Q1 v st1 -> runs (k v) st1 Q) ->
  runs (bind m k) st Q.
Proof.
  intros (v & st1 & E & Hf & Hr & Ht & H1) Hk.
  destruct (Hk v st1 Hf Hr Ht H1) as (w & st2 & E2 & Hf2 & Hr2 & Ht2 & H2).
  exists w, st2. unfold bind. rewrite E.
  repeat split; auto; congruence.
Qed.

Lemma runs_weaken {A} (m : M A) (st : St) (Q Q' : A -> St -> Prop) :
  runs m st Q -> (forall v st', Q v st' -> Q' v st') -> runs m st Q'.
Proof.
  intros (v & st' & E & Hf & Hr & Ht & H) HQ.
  exists v, st'. repeat split; auto.
Qed.

Lemma runs_print (o : Out) (st : St) :
  runs (print o) st (fun _ st' => same_data st st').
Proof. exists tt. eexists. repeat split. Qed.

Lemma runs_query {A} (q : Db -> A) (st : St) :
  runs (query q) st (fun v st' => v = q (work st) /\ same_data st st').
Proof. exists (q (work st)), st. repeat split. Qed.

Lemma runs_commit (st : St) :
  runs commit st (fun _ st' => work st' = work st /\ disk st' = Some (work st)).
Proof. exists tt. eexists. repeat split. Qed.

Lemma runs_randint (a b : Z) (st : St) :
  a <= b ->
  runs (randint a b) st (fun v st' => a <= v <= b /\ same_data st st').
Proof.
  intros Hab. unfold randint.
  destruct (b <? a) eqn:E; [apply Z.ltb_lt in E; lia |].
  eexists. eexists. split; [reflexivity |].
  repeat split; simpl.
  - pose proof (Z.mod_pos_bound (rand st (pos st)) (b - a + 1)). lia.
  - pose proof (Z.mod_pos_bound (rand st (pos st)) (b - a + 1)). lia.
Qed.

Lemma runs_uniform_round2 (a b : Dec) (st : St) :
  runs (uniform_round2 a b) st (fun _ st' => same_data st st').
Proof.
  unfold uniform_round2. destruct (b <? a) eqn:E.
  - apply Z.ltb_lt in E.
    eapply runs_weaken; [apply runs_randint; lia | intros ? ? [_ H]; exact H].
  - apply Z.ltb_ge in E.
    eapply runs_weaken; [apply runs_randint; lia | intros ? ? [_ H]; exact H].
Qed.

Lemma runs_choice {A} (x : A) (l : list A) (st : St) :
  runs (choice (x :: l)) st (fun _ st' => same_data st st').
Proof.
  unfold choice. eapply runs_bind.
  - apply runs_randint. simpl List.length. lia.
  - intros v st1 _ _ _ [_ H]. apply runs_ret. exact H.
Qed.

Lemma runs_random_date (s e : Z) (st : St) :
  e <= s ->
  runs (random_date s e) st (fun _ st' => same_data st st').
Proof.
  intros H. unfold random_date. eapply runs_bind.
  - apply runs_randint. exact H.
  - intros v st1 _ _ _ [_ H1]. apply runs_ret. exact H1.
Qed.

Lemma runs_execute (stmt : bool -> Db -> SqlResult) (st : St) (db' : Db) :
  stmt (foreign_keys st) (work st) = inr db' ->
  tables db' = tables (work st) ->
  runs (execute stmt) st (fun _ st' => work st' = db' /\ disk st' = disk st).
Proof.
  intros E Ht. exists tt, (set_work st db').
  unfold execute. rewrite E. repeat split; auto.
Qed.

(** Loops: [I done s st] is the invariant after the elements [done]. *)
Lemma runs_for_fold {A S} (body : A -> S -> M S)
    (I : list A -> S -> St -> Prop) :
  forall (l done : list A) (s : S) (st : St),
    I done s st ->
    (forall x pre s1 st1,
        (exists post, done ++ l = pre ++ x :: post)%list ->
        foreign_keys st1 = foreign_keys st ->
        rand st1 = rand st ->
        tables (work st1) = tables (work st) ->
        I pre s1 st1 ->
        runs (body x s1) st1 (fun s2 st2 => I (pre ++ [x])%list s2 st2)) ->
    runs (for_fold l body s) st (fun s' st' => I (done ++ l)%list s' st').
Proof.
  induction l as [| x l IH]; intros done s st HI Hbody.
  - simpl. apply runs_ret. rewrite app_nil_r. exact HI.
  - simpl. eapply runs_bind.
    + apply (Hbody x done s st); auto. exists l. reflexivity.
    + intros s2 st2 Hf Hr Ht H2.
      replace (done ++ x :: l)%list with ((done ++ [x]) ++ l)%list
        by (rewrite <- app_assoc; reflexivity).
      apply IH; [exact H2 |].
      intros y pre s1 st1 [post Hpost] Hf1 Hr1 Ht1 H1.
      apply Hbody; try congruence.
      exists post. rewrite <- Hpost, <- app_assoc. reflexivity.
Qed.

Lemma runs_for_each {A} (body : A -> M unit) (I : list A -> St -> Prop) :
  forall (l done : list A) (st : St),
    I done st ->
    (forall x pre st1,
        (exists post, done ++ l = pre ++ x :: post)%list ->
        foreign_keys st1 = foreign_keys st ->
        rand st1 = rand st ->
        tables (work st1) = tables (work st) ->
        I pre st1 ->
        runs (body x) st1 (fun _ st2 => I (pre ++ [x])%list st2)) ->
    runs (for_each l body) st (fun _ st' => I (done ++ l)%list st').
Proof.
  induction l as [| x l IH]; intros done st HI Hbody.
  - simpl. apply runs_ret. rewrite app_nil_r. exact HI.
  - simpl. eapply runs_bind.
    + apply (Hbody x done st); auto. exists l. reflexivity.
    + intros [] st2 Hf Hr Ht H2.
      replace (done ++ x :: l)%list with ((done ++ [x]) ++ l)%list
        by (rewrite <- app_assoc; reflexivity).
      apply IH; [exact H2 |].
      intros y pre st1 [post Hpost] Hf1 Hr1 Ht1 H1.
      apply Hbody; try congruence.
      exists post. rewrite <- Hpost, <- app_assoc. reflexivity.
Qed.

(** ** Rules for [completes] and [raises] *)

Lemma runs_completes {A} (m : M A) (st : St) (Q : A -> St -> Prop) :
  runs m st Q -> completes m st Q.
Proof. intros (v & st' & E & _ & _ & _ & H). now exists v, st'. Qed.

Lemma completes_bind {A B} (m : M A) (k : A -> M B) (st : St)
    (Q1 : A -> St -> Prop) (Q : B -> St -> Prop) :
  runs m st Q1 ->
  (forall v st1,
      foreign_keys st1 = foreign_keys st ->
      rand st1 = rand st ->
      tables (work st1) = tables (work st) ->
      Q1 v st1 -> completes (k v) st1 Q) ->
  completes (bind m k) st Q.
Proof.
  intros (v & st1 & E & Hf & Hr & Ht & H1) Hk.
  destruct (Hk v st1 Hf Hr Ht H1) as (w & st2 & E2 & H2).
  exists w, st2. unfold bind. now rewrite E.
Qed.

Lemma completes_assoc {A B C} (m : M A) (k : A -> M B) (k' : B -> M C)
    (st : St) (Q : C -> St -> Prop) :
  completes (bind m (fun x => bind (k x) k')) st Q ->
  completes (bind (bind m k) k') st Q.
Proof.
  intros (v & st' & E & H). exists v, st'. split; [| exact H].
  rewrite <- E. unfold bind. destruct (m st) as [a s | x s]; [| reflexivity].
  destruct (k a s); reflexivity.
Qed.

(** The last statements of a script: [conn.close()] and what it returns. *)
Lemma completes_close {A} (v : A) (st : St) (Q : A -> St -> Prop) :
  Q v {| disk := disk st; work := empty_db; foreign_keys := false;
         rand := rand st; pos := pos st; out := out st |} ->
  completes (close ;; ret v) st Q.
Proof. intros H. eexists. eexists. split; [reflexivity | exact H]. Qed.

Lemma bind_print {A} (o : Out) (k : unit -> M A) (st : St) :
  bind (print o) k st
  = k tt {| disk := disk st; work := work st; foreign_keys := foreign_keys st;
            rand := rand st; pos := pos st; out := (out st ++ [o])%list |}.
Proof. reflexivity. Qed.

Lemma bind_ok {A B} (m : M A) (k : A -> M B) (st st' : St) (v : A) :
  m st = Ok v st' -> bind m k st = k v st'.
Proof. intros E. unfold bind. now rewrite E. Qed.

Lemma bind_raise {A B} (m : M A) (k : A -> M B) (st st' : St) (e : Exn) :
  m st = Raise e st' -> bind m k st = Raise e st'.
Proof. intros E. unfold bind. now rewrite E. Qed.

Lemma raises_bind {A B} (m : M A) (k : A -> M B) (st : St) (e : Exn)
    (Q1 : A -> St -> Prop) :
  runs m st Q1 ->
  (forall v st1,
      foreign_keys st1 = foreign_keys st ->
      rand st1 = rand st ->
      tables (work st1) = tables (work st) ->
      Q1 v st1 -> raises (k v) st1 e) ->
  raises (bind m k) st e.
Proof.
  intros (v & st1 & E & Hf & Hr & Ht & H1) Hk.
  destruct (Hk v st1 Hf Hr Ht H1) as (st2 & E2).
  exists st2. unfold bind. now rewrite E.
Qed.

Lemma raises_first {A B} (m : M A) (k : A -> M B) (st : St) (e : Exn) :
  raises m st e -> raises (bind m k) st e.
Proof. intros (st' & E). exists st'. now apply bind_raise. Qed.

Lemma raises_assoc {A B C} (m : M A) (k : A -> M B) (k' : B -> M C) (st : St)
    (e : Exn) :
  raises (bind m (fun x => bind (k x) k')) st e ->
  raises (bind (bind m k) k') st e.
Proof.
  intros (st' & E). exists st'.
  rewrite <- E. unfold bind. destruct (m st) as [a s | x s]; [| reflexivity].
  destruct (k a s); reflexivity.
Qed.

Lemma runs_assoc {A B C} (m : M A) (k : A -> M B) (k' : B -> M C) (st : St)
    (Q : C -> St -> Prop) :
  runs (bind m (fun x => bind (k x) k')) st Q -> runs (bind (bind m k) k') st Q.
Proof.
  intros (v & st' & E & H). exists v, st'. split; [| exact H].
  rewrite <- E. unfold bind. destruct (m st) as [a s | x s]; [| reflexivity].
  destruct (k a s); reflexivity.
Qed.

Lemma runs_if {A} (b : bool) (m1 m2 : M A) (st : St) (Q : A -> St -> Prop) :
  runs m1 st Q -> runs m2 st Q -> runs (if b then m1 else m2) st Q.
Proof. now destruct b. Qed.

(** ** Statements that do not commit *)

Lemma keeps_disk_ret {A} (v : A) : keeps_disk (ret v).
Proof. intros st. reflexivity. Qed.

Lemma keeps_disk_raise {A} (e : Exn) : keeps_disk (@raise A e).
Proof. intros st. reflexivity. Qed.

Lemma keeps_disk_print (o : Out) : keeps_disk (print o).
Proof. intros st. reflexivity. Qed.

Lemma keeps_disk_query {A} (q : Db -> A) : keeps_disk (query q).
Proof. intros st. reflexivity. Qed.

Lemma keeps_disk_execute (stmt : bool -> Db -> SqlResult) :
  keeps_disk (execute stmt).
Proof.
  intros st. unfold execute.
  destruct (stmt (foreign_keys st) (work st)); reflexivity.
Qed.

Lemma keeps_disk_bind {A B} (m : M A) (k : A -> M B) :
  keeps_disk m -> (forall v, keeps_disk (k v)) -> keeps_disk (bind m k).
Proof.
  intros Hm Hk st. unfold bind. specialize (Hm st).
  destruct (m st) as [v s | e s]; simpl in Hm.
  - rewrite (Hk v s). exact Hm.
  - exact Hm.
Qed.

Lemma keeps_disk_randint (a b : Z) : keeps_disk (randint a b).
Proof. intros st. unfold randint. destruct (b <? a); reflexivity. Qed.

Lemma keeps_disk_uniform_round2 (a b : Dec) : keeps_disk (uniform_round2 a b).
Proof.
  unfold uniform_round2. destruct (b <? a); apply keeps_disk_randint.
Qed.

Lemma keeps_disk_choice {A} (l : list A) : keeps_disk (choice l).
Proof.
  destruct l as [| x l]; [apply keeps_disk_raise |].
  unfold choice. apply keeps_disk_bind; [apply keeps_disk_randint |].
  intros i. apply keeps_disk_ret.
Qed.

Lemma keeps_disk_random_date (s e : Z) : keeps_disk (random_date s e).
Proof.
  unfold random_date. apply keeps_disk_bind; [apply keeps_disk_randint |].
  intros d. apply keeps_disk_ret.
Qed.

Lemma keeps_disk_for_each {A} (l : list A) (body : A -> M unit) :
  (forall x, keeps_disk (body x)) -> keeps_disk (for_each l body).
Proof.
  intros H. induction l as [| x l IH]; cbn [for_each];
    [apply keeps_disk_ret |].
  apply keeps_disk_bind; [apply H | intros _; exact IH].
Qed.

Lemma keeps_disk_for_fold {A S} (l : list A) (body : A -> S -> M S) :
  (forall x s, keeps_disk (body x s)) ->
  forall s, keeps_disk (for_fold l body s).
Proof.
  intros H. induction l as [| x l IH]; intros s; cbn [for_fold];
    [apply keeps_disk_ret |].
  apply keeps_disk_bind; [apply H | intros s'; apply IH].
Qed.

(** The structure of a statement decides. *)
Ltac keeps_disk_step :=
  match goal with
  | |- keeps_disk (bind _ _) => apply keeps_disk_bind; [| intros ?]
  | |- keeps_disk (ret _) => apply keeps_disk_ret
  | |- keeps_disk (raise _) => apply keeps_disk_raise
  | |- keeps_disk (print _) => apply keeps_disk_print
  | |- keeps_disk (query _) => apply keeps_disk_query
  | |- keeps_disk (execute _) => apply keeps_disk_execute
  | |- keeps_disk (randint _ _) => apply keeps_disk_randint
  | |- keeps_disk (uniform_round2 _ _) => apply keeps_disk_uniform_round2
  | |- keeps_disk (choice _) => apply keeps_disk_choice
  | |- keeps_disk (random_date _ _) => apply keeps_disk_random_date
  | |- keeps_disk (for_each _ _) => apply keeps_disk_for_each; intros ?
  | |- keeps_disk (for_fold _ _ _) => apply keeps_disk_for_fold; intros ? ?
  | |- keeps_disk (match ?x with _ => _ end) => destruct x
  end.

Lemma runs_keeps_disk {A} (m : M A) (st : St) (Q : A -> St -> Prop) :
  runs m st Q -> keeps_disk m ->
  runs m st (fun v st' => Q v st' /\ disk st' = disk st).
Proof.
  intros (v & st' & E & Hf & Hr & Ht & H) K.
  exists v, st'. repeat split; auto.
  specialize (K st). now rewrite E in K.
Qed.

Lemma raises_keeps_disk {A} (m : M A) (st : St) (e : Exn) :
  raises m st e -> keeps_disk m ->
  fails m st e (fun st' => disk st' = disk st).
Proof.
  intros (st' & E) K. exists st'. split; [exact E |].
  specialize (K st). now rewrite E in K.
Qed.

Lemma fails_bind {A B} (m : M A) (k : A -> M B) (st : St) (e : Exn)
    (Q1 : A -> St -> Prop) (Q : St -> Prop) :
  runs m st Q1 ->
  (forall v st1,
      foreign_keys st1 = foreign_keys st ->
      rand st1 = rand st ->
      tables (work st1) = tables (work st) ->
      Q1 v st1 -> fails (k v) st1 e Q) ->
  fails (bind m k) st e Q.
Proof.
  intros (v & st1 & E & Hf & Hr & Ht & H1) Hk.
  destruct (Hk v st1 Hf Hr Ht H1) as (st' & E' & H).
  exists st'. split; [| exact H]. unfold bind. now rewrite E.
Qed.

Lemma fails_first {A B} (m : M A) (k : A -> M B) (st : St) (e : Exn)
    (Q : St -> Prop) :
  fails m st e Q -> fails (bind m k) st e Q.
Proof.
  intros (st' & E & H). exists st'. split; [now apply bind_raise | exact H].
Qed.
(** ** [generate_id] gives different ids to different numbers *)

Lemma to_uint_not_nil (n : nat) : Nat.to_uint n <> Nil.
Proof.
  intros H. pose proof (Unsigned.of_to n) as E. rewrite H in E.
  pose proof (Unsigned.to_of Nil) as E'. simpl in E, E'.
  subst n. discriminate H.
Qed.

Lemma parse_str_nat (n : nat) : parse_nat (str_nat n) = Some n.
Proof.
  unfold parse_nat, str_nat, NilZero.string_of_uint.
  pose proof (to_uint_not_nil n) as Hn.
  destruct (Nat.to_uint n) eqn:E; try congruence;
    rewrite <- E, NilEmpty.usu; simpl; now rewrite Unsigned.of_to.
Qed.

Lemma parse_leading_zero (s : string) :
  parse_nat (String "0" s) = parse_nat s.
Proof.
  unfold parse_nat. simpl.
  destruct (NilEmpty.uint_of_string s) as [d |]; simpl; [| reflexivity].
  reflexivity.
Qed.

Lemma parse_zfill (w : nat) (n : nat) : parse_nat (zfill w (str_nat n)) = Some n.
Proof.
  unfold zfill. induction (w - String.length (str_nat n))%nat as [| k IH]; simpl.
  - apply parse_str_nat.
  - rewrite parse_leading_zero. exact IH.
Qed.

(** A text that begins with the sign is not a sequence of digits. *)
Lemma parse_sign (s : string) : parse_nat (String "-" s) = None.
Proof.
  unfold parse_nat. simpl.
  destruct (NilEmpty.uint_of_string s); reflexivity.
Qed.

Lemma string_app_inv_head (p a b : string) : p ++ a = p ++ b -> a = b.
Proof.
  induction p as [| c p IH]; simpl; intros H; [exact H |].
  injection H as H. auto.
Qed.

Lemma format_04d_inj (a b : Z) : format_04d a = format_04d b -> a = b.
Proof.
  unfold format_04d.
  destruct (a <? 0) eqn:Ea, (b <? 0) eqn:Eb; intros H;
    try apply Z.ltb_lt in Ea; try apply Z.ltb_ge in Ea;
    try apply Z.ltb_lt in Eb; try apply Z.ltb_ge in Eb.
  - simpl in H. injection H as H.
    pose proof (parse_zfill 3 (Z.to_nat (- a))) as Ha.
    rewrite H, parse_zfill in Ha. injection Ha as Ha. lia.
  - exfalso. pose proof (parse_zfill 4 (Z.to_nat b)) as Hb.
    rewrite <- H in Hb. simpl in Hb. rewrite parse_sign in Hb. discriminate Hb.
  - exfalso. pose proof (parse_zfill 4 (Z.to_nat a)) as Ha.
    rewrite H in Ha. simpl in Ha. rewrite parse_sign in Ha. discriminate Ha.
  - pose proof (parse_zfill 4 (Z.to_nat a)) as Ha.
    rewrite H, parse_zfill in Ha. injection Ha as Ha. lia.
Qed.

Lemma generate_id_inj (prefix : string) (a b : Z) :
  generate_id prefix a = generate_id prefix b -> a = b.
Proof.
  unfold generate_id. intros H.
  apply string_app_inv_head in H. apply string_app_inv_head in H.
  exact (format_04d_inj a b H).
Qed.

Lemma txn_id_inj (a b : nat) : txn_id a = txn_id b -> a = b.
Proof.
  unfold txn_id. intros H. apply generate_id_inj in H. lia.
Qed.

Lemma txn_id_fresh (c : nat) (l : list nat) :
  ~ In c l ->
  existsb (fun k => String.eqb k (txn_id c)) (map txn_id l) = false.
Proof.
  intros H. apply not_true_is_false. intros E.
  apply existsb_exists in E. destruct E as (k & Hin & Hk).
  apply in_map_iff in Hin. destruct Hin as (x & <- & Hx).
  apply String.eqb_eq, txn_id_inj in Hk. subst x. contradiction.
Qed.

Lemma txn_id_NoDup (l : list nat) : NoDup l -> NoDup (map txn_id l).
Proof.
  induction 1 as [| x l Hx Hl IH]; simpl; constructor; auto.
  intros Hin. apply in_map_iff in Hin. destruct Hin as (y & E & Hy).
  apply txn_id_inj in E. subst y. contradiction.
Qed.

Lemma transaction_exists_map (db : Db) (k : string) :
  transaction_exists db k
  = existsb (fun x => String.eqb x k)
            (map Transactions.transaction_id (transactions db)).
Proof.
  unfold transaction_exists. induction (transactions db); simpl; congruence.
Qed.

(** Under the bookkeeping invariant the id of the counter is not in use. *)
Lemma tx_ids_below_fresh (db : Db) (c : nat) :
  tx_ids_below db c ->
  transaction_exists db (txn_id c) = false.
Proof.
  unfold tx_ids_below. intros H.
  rewrite transaction_exists_map, H. apply txn_id_fresh.
  rewrite in_seq. lia.
Qed.

Lemma tx_ids_below_insert (db : Db) (c : nat) (r : Transactions.row) :
  (1 <= c)%nat ->
  tx_ids_below db c ->
  Transactions.transaction_id r = txn_id c ->
  tx_ids_below (set_transactions db (transactions db ++ [r])) (S c).
Proof.
  unfold tx_ids_below. simpl. intros Hc H E.
  rewrite map_app, H. simpl. rewrite E.
  replace (c - 0)%nat with (S (c - 1)) by lia.
  rewrite seq_S, map_app. cbn [map].
  replace (1 + (c - 1))%nat with c by lia. reflexivity.
Qed.

(** ** The statements of the generator, on a connection without foreign keys *)

Lemma has_table_same (db db' : Db) (t : string) :
  tables db' = tables db -> has_table db' t = has_table db t.
Proof. unfold has_table. now intros ->. Qed.

Lemma initialized_same (db db' : Db) :
  tables db' = tables db -> initialized db' = initialized db.
Proof.
  intros H. unfold initialized, has_table. now rewrite H.
Qed.

Ltac table_ok :=
  match goal with
  | H : initialized ?db = true |- has_table ?db _ = true =>
      apply (initialized_has_table db _ H); simpl; tauto
  end.

Lemma runs_insert_merchant (st : St) (r : Merchants.row) :
  initialized (work st) = true ->
  merchant_exists (work st) (Merchants.merchant_id r) = false ->
  runs (execute (insert_merchant r)) st
    (fun _ st' => work st' = set_merchants (work st) (merchants (work st) ++ [r])
                  /\ disk st' = disk st).
Proof.
  intros Hi Hx. apply runs_execute; [| reflexivity].
  unfold insert_merchant. rewrite Hx.
  replace (has_table (work st) "merchants") with true by (symmetry; table_ok).
  reflexivity.
Qed.

Lemma runs_insert_customer (st : St) (r : Customers.row) :
  initialized (work st) = true ->
  customer_exists (work st) (Customers.customer_id r) = false ->
  runs (execute (insert_customer r)) st
    (fun _ st' => work st' = set_customers (work st) (customers (work st) ++ [r])
                  /\ disk st' = disk st).
Proof.
  intros Hi Hx. apply runs_execute; [| reflexivity].
  unfold insert_customer. rewrite Hx.
  replace (has_table (work st) "customers") with true by (symmetry; table_ok).
  reflexivity.
Qed.

Lemma runs_insert_transaction (st : St) (r : Transactions.row) :
  initialized (work st) = true ->
  foreign_keys st = false ->
  transaction_exists (work st) (Transactions.transaction_id r) = false ->
  runs (execute (insert_transaction r)) st
    (fun _ st' => work st' = set_transactions (work st)
                               (transactions (work st) ++ [r])
                  /\ disk st' = disk st).
Proof.
  intros Hi Hf Hx. apply runs_execute; [| reflexivity].
  unfold insert_transaction. rewrite Hx, Hf.
  replace (has_table (work st) "transactions") with true by (symmetry; table_ok).
  reflexivity.
Qed.

Lemma runs_insert_chargeback (st : St) (r : Chargebacks.row) :
  initialized (work st) = true ->
  foreign_keys st = false ->
  chargeback_exists (work st) (Chargebacks.chargeback_id r) = false ->
  runs (execute (insert_chargeback r)) st
    (fun _ st' => work st' = set_chargebacks (work st)
                               (chargebacks (work st) ++ [r])
                  /\ disk st' = disk st).
Proof.
  intros Hi Hf Hx. apply runs_execute; [| reflexivity].
  unfold insert_chargeback. rewrite Hx, Hf.
  replace (has_table (work st) "chargebacks") with true by (symmetry; table_ok).
  reflexivity.
Qed.

Lemma runs_insert_case_event (st : St) (cb_id ty : string)
    (d : option Timestamp) (j : option Json) (ds : option string) :
  initialized (work st) = true ->
  foreign_keys st = false ->
  last_rowid (work st) < max_rowid ->
  runs (execute (insert_case_event cb_id ty d j ds)) st
    (fun _ st' =>
       exists e, work st' = set_case_events (work st)
                              (case_events (work st) ++ [e])
                              (CaseEvents.event_id e)
                 /\ CaseEvents.event_id e = 1 + last_rowid (work st)
                 /\ CaseEvents.chargeback_id e = cb_id
                 /\ CaseEvents.event_type e = ty).
Proof.
  intros Hi Hf Hroom.
  eapply runs_weaken.
  - eapply runs_execute.
    + unfold insert_case_event. rewrite Hf.
      replace (has_table (work st) "case_events") with true by (symmetry; table_ok).
      replace (max_rowid <=? last_rowid (work st)) with false
        by (symmetry; apply Z.leb_gt; exact Hroom).
      reflexivity.
    + reflexivity.
  - intros _ st' [Hw _]. eexists. split; [exact Hw |].
    split; [| split]; reflexivity.
Qed.

(** After an insert the largest id in use is the one just given. *)
Lemma fold_max_snoc (x : Z) (l : list Z) (y : Z) :
  fold_right Z.max x (l ++ [y]) = Z.max (fold_right Z.max x l) y.
Proof.
  induction l as [| a l IH]; simpl; [lia |]. rewrite IH. lia.
Qed.

Lemma largest_event_id_snoc (db : Db) (e : CaseEvents.row) (seq : Z) :
  largest_event_id db <= CaseEvents.event_id e ->
  largest_event_id (set_case_events db (case_events db ++ [e]) seq)
  = CaseEvents.event_id e.
Proof.
  unfold largest_event_id. simpl. rewrite map_app. simpl.
  destruct (map CaseEvents.event_id (case_events db)) as [| x l]; simpl.
  - reflexivity.
  - intros H. destruct l as [| a l]; simpl in *; [lia |].
    change (Z.max a (fold_right Z.max x (l ++ [CaseEvents.event_id e])))
      with (fold_right Z.max x ((a :: l) ++ [CaseEvents.event_id e])).
    rewrite fold_max_snoc. simpl. lia.
Qed.

Lemma last_rowid_insert (db : Db) (e : CaseEvents.row) :
  CaseEvents.event_id e = 1 + last_rowid db ->
  last_rowid (set_case_events db (case_events db ++ [e]) (CaseEvents.event_id e))
  = 1 + last_rowid db.
Proof.
  intros He. unfold last_rowid at 1.
  rewrite largest_event_id_snoc.
  - cbn [set_case_events case_events_seq]. lia.
  - unfold last_rowid in He. lia.
Qed.

(** *** Ordinary transactions *)

Lemma runs_normal_transaction (st : St) (cid : string) (c : nat) :
  initialized (work st) = true ->
  foreign_keys st = false ->
  (1 <= c)%nat ->
  tx_ids_below (work st) c ->
  runs (normal_transaction cid c) st
    (fun c' st' =>
       c' = S c
       /\ exists r, work st' = set_transactions (work st)
                                 (transactions (work st) ++ [r])
                    /\ Transactions.transaction_id r = txn_id c).
Proof.
  intros Hi Hf Hc Hids. unfold normal_transaction.
  eapply runs_bind; [apply runs_choice |]. intros v1 s1 F1 R1 T1 [W1 _].
  eapply runs_bind; [apply runs_uniform_round2 |]. intros v2 s2 F2 R2 T2 [W2 _].
  eapply runs_bind; [apply runs_random_date; lia |]. intros v3 s3 F3 R3 T3 [W3 _].
  eapply runs_bind; [apply runs_uniform_round2 |]. intros v4 s4 F4 R4 T4 [W4 _].
  eapply runs_bind; [apply runs_randint; lia |]. intros v5 s5 F5 R5 T5 [_ [W5 _]].
  eapply runs_bind; [apply runs_choice |]. intros v6 s6 F6 R6 T6 [W6 _].
  eapply runs_bind; [apply runs_randint; lia |]. intros v7 s7 F7 R7 T7 [_ [W7 _]].
  eapply runs_bind; [apply runs_choice |]. intros v8 s8 F8 R8 T8 [W8 _].
  eapply runs_bind; [apply runs_choice |]. intros v9 s9 F9 R9 T9 [W9 _].
  eapply runs_bind; [apply runs_choice |]. intros v10 s10 F10 R10 T10 [W10 _].
  eapply runs_bind; [apply runs_randint; lia |]. intros v11 s11 F11 R11 T11 [_ [W11 _]].
  eapply runs_bind; [apply runs_randint; lia |]. intros v12 s12 F12 R12 T12 [_ [W12 _]].
  eapply runs_bind; [apply runs_randint; lia |]. intros v13 s13 F13 R13 T13 [_ [W13 _]].
  eapply runs_bind; [apply runs_randint; lia |]. intros v14 s14 F14 R14 T14 [_ [W14 _]].
  assert (W : work s14 = work st) by congruence.
  eapply runs_bind.
  - apply runs_insert_transaction.
    + rewrite W. exact Hi.
    + congruence.
    + rewrite W. simpl. apply tx_ids_below_fresh. exact Hids.
  - intros [] s15 F15 R15 T15 [W15 _]. apply runs_ret.
    split; [reflexivity |]. eexists. split.
    + rewrite W15, W. reflexivity.
    + reflexivity.
Qed.

Lemma added_transactions_refl (st : St) (c : nat) :
  (1 <= c)%nat -> tx_ids_below (work st) c -> added_transactions st c st.
Proof.
  intros Hc H. repeat split; auto. exists []. rewrite app_nil_r.
  now destruct (work st).
Qed.

Lemma added_transactions_trans (st st1 st2 : St) (c1 c2 : nat) :
  added_transactions st c1 st1 -> added_transactions st1 c2 st2 ->
  added_transactions st c2 st2.
Proof.
  intros (_ & _ & rows1 & W1) (Hc & Hids & rows2 & W2).
  repeat split; auto. exists (rows1 ++ rows2)%list.
  rewrite W2, W1. simpl. now rewrite app_assoc.
Qed.

Lemma runs_normal_transactions_of (cid : string) (l : list Z) (st : St) (c : nat) :
  initialized (work st) = true ->
  foreign_keys st = false ->
  (1 <= c)%nat ->
  tx_ids_below (work st) c ->
  runs (for_fold l (fun _ counter => normal_transaction cid counter) c) st
       (fun c' st' => added_transactions st c' st').
Proof.
  intros Hi Hf Hc Hids.
  eapply runs_weaken.
  - apply (runs_for_fold (fun _ counter => normal_transaction cid counter)
             (fun _ c1 st1 => added_transactions st c1 st1) l []).
    + now apply added_transactions_refl.
    + intros x pre c1 st1 _ F1 R1 T1 H1.
      assert (Hi1 : initialized (work st1) = true)
        by (rewrite (initialized_same _ _ T1); exact Hi).
      destruct H1 as (Hc1 & Hids1 & rows & W1).
      eapply runs_weaken.
      * apply runs_normal_transaction; auto. congruence.
      * intros c2 st2 (-> & r & W2 & Hr).
        apply added_transactions_trans with (st1 := st1) (c1 := c1).
        -- repeat split; eauto.
        -- repeat split; [lia | | exists [r]; exact W2].
           rewrite W2. apply tx_ids_below_insert; auto.
  - intros c' st' H. exact H.
Qed.

Lemma runs_create_normal_transactions (st : St) (c : nat) :
  initialized (work st) = true ->
  foreign_keys st = false ->
  (1 <= c)%nat ->
  tx_ids_below (work st) c ->
  runs (create_normal_transactions c) st
       (fun c' st' => added_transactions st c' st').
Proof.
  intros Hi Hf Hc Hids. unfold create_normal_transactions.
  eapply runs_weaken.
  - apply (runs_for_fold _ (fun _ c1 st1 => added_transactions st c1 st1)
             customers_data []).
    + now apply added_transactions_refl.
    + intros [[[cid ?] ?] ?] pre c1 st1 _ F1 R1 T1 H1.
      assert (Hi1 : initialized (work st1) = true)
        by (rewrite (initialized_same _ _ T1); exact Hi).
      eapply runs_bind; [apply runs_randint; lia |].
      intros n st2 F2 R2 T2 [_ [W2 _]].
      eapply runs_weaken.
      * apply runs_normal_transactions_of.
        -- rewrite W2. exact Hi1.
        -- congruence.
        -- destruct H1 as (Hc1 & _). exact Hc1.
        -- rewrite W2. destruct H1 as (_ & Hids1 & _). exact Hids1.
      * intros c3 st3 H3.
        apply added_transactions_trans with (st1 := st1) (c1 := c1); auto.
        destruct H3 as (Hc3 & Hids3 & rows & W3).
        repeat split; auto. exists rows. rewrite W3, W2. reflexivity.
  - intros c' st' H. exact H.
Qed.

(** *** Clearing: children first, so that the deletes pass on a connection
    that enforces foreign keys as well as on one that does not. *)

Lemma runs_clear_existing_data (st : St) :
  initialized (work st) = true ->
  runs clear_existing_data st
       (fun _ st' => work st' = cleared (work st)
                     /\ disk st' = Some (work st')).
Proof.
  intros Hi.
  assert (H1 : has_table (work st) "case_events" = true) by table_ok.
  assert (H2 : has_table (work st) "chargebacks" = true) by table_ok.
  assert (H3 : has_table (work st) "transactions" = true) by table_ok.
  assert (H4 : has_table (work st) "customers" = true) by table_ok.
  assert (H5 : has_table (work st) "merchants" = true) by table_ok.
  destruct st as [d w f r p o]. unfold has_table in *. simpl in *.
  unfold clear_existing_data, runs, bind, execute, commit.
  unfold delete_case_events, has_table. simpl. rewrite H1. simpl.
  unfold delete_chargebacks, has_table. simpl. rewrite H2. simpl.
  rewrite andb_false_r.
  unfold delete_transactions, has_table. simpl. rewrite H3. simpl.
  rewrite andb_false_r.
  unfold delete_customers, has_table. simpl. rewrite H4. simpl.
  rewrite andb_false_r.
  unfold delete_merchants, has_table. simpl. rewrite H5. simpl.
  rewrite andb_false_r.
  eexists. eexists. split; [reflexivity |]. simpl.
  repeat split.
Qed.

Lemma emptied_cleared (db : Db) : emptied (cleared db).
Proof. repeat split. Qed.

Lemma last_rowid_cleared (db : Db) :
  last_rowid (cleared db) = Z.max 0 (case_events_seq db).
Proof. reflexivity. Qed.

(** *** Merchants and customers *)

Lemma existsb_fresh_key {A} (key : A -> string) (l : list A) (k : string) :
  ~ In k (map key l) ->
  existsb (fun r => String.eqb (key r) k) l = false.
Proof.
  intros H. apply not_true_is_false. intros E.
  apply existsb_exists in E. destruct E as (r & Hr & Hk).
  apply String.eqb_eq in Hk. apply H. rewrite <- Hk. now apply in_map.
Qed.

Lemma NoDup_split_fresh {A} (x : A) (pre post : list A) :
  NoDup (pre ++ x :: post) -> ~ In x pre.
Proof.
  intros H Hin. apply NoDup_remove_2 in H. apply H.
  apply in_or_app. now left.
Qed.

Lemma runs_create_merchants (st : St) :
  initialized (work st) = true ->
  merchants (work st) = [] ->
  runs create_merchants st
    (fun _ st' =>
       exists rows, work st' = set_merchants (work st) rows
         /\ map Merchants.merchant_id rows
            = map (fun m => fst (fst (fst m))) merchants_data).
Proof.
  intros Hi He. unfold create_merchants.
  eapply runs_weaken.
  - apply (runs_for_each _
       (fun done st1 =>
          exists rows, work st1 = set_merchants (work st) rows
            /\ map Merchants.merchant_id rows
               = map (fun m => fst (fst (fst m))) done)
       merchants_data []).
    + exists []. split; [| reflexivity]. rewrite <- He. now destruct (work st).
    + intros [[[mid nm] bank] rate] pre st1 [post Hsplit] F1 R1 T1 (rows & W1 & Hids).
      assert (Hi1 : initialized (work st1) = true)
        by (rewrite (initialized_same _ _ T1); exact Hi).
      eapply runs_bind; [apply runs_random_date; lia |].
      intros t st2 F2 R2 T2 [W2 _].
      eapply runs_weaken.
      * apply runs_insert_merchant.
        -- rewrite W2. exact Hi1.
        -- rewrite W2, W1. unfold merchant_exists. simpl.
           apply existsb_fresh_key. rewrite Hids.
           assert (N : NoDup (map (fun m : string * string * string * Dec =>
                                     fst (fst (fst m))) ([] ++ merchants_data)))
             by (repeat constructor; simpl; intuition discriminate).
           rewrite Hsplit, map_app in N. simpl in N.
           apply NoDup_split_fresh in N. exact N.
      * intros _ st3 [W3 _]. eexists. split.
        -- rewrite W3, W2, W1. reflexivity.
        -- simpl. rewrite !map_app, Hids. reflexivity.
  - intros ? st' H. exact H.
Qed.

Lemma runs_create_customers (st : St) :
  initialized (work st) = true ->
  customers (work st) = [] ->
  runs create_customers st
    (fun _ st' =>
       exists rows, work st' = set_customers (work st) rows
         /\ map Customers.customer_id rows
            = map (fun m => fst (fst (fst m))) customers_data).
Proof.
  intros Hi He. unfold create_customers.
  eapply runs_weaken.
  - apply (runs_for_each _
       (fun done st1 =>
          exists rows, work st1 = set_customers (work st) rows
            /\ map Customers.customer_id rows
               = map (fun m => fst (fst (fst m))) done)
       customers_data []).
    + exists []. split; [| reflexivity]. rewrite <- He. now destruct (work st).
    + intros [[[cid nm] email] region] pre st1 [post Hsplit] F1 R1 T1 (rows & W1 & Hids).
      assert (Hi1 : initialized (work st1) = true)
        by (rewrite (initialized_same _ _ T1); exact Hi).
      eapply runs_bind; [apply runs_random_date; lia |].
      intros t st2 F2 R2 T2 [W2 _].
      eapply runs_weaken.
      * apply runs_insert_customer.
        -- rewrite W2. exact Hi1.
        -- rewrite W2, W1. unfold customer_exists. simpl.
           apply existsb_fresh_key. rewrite Hids.
           assert (N : NoDup (map (fun m : string * string * string * string =>
                                     fst (fst (fst m))) ([] ++ customers_data)))
             by (repeat constructor; simpl; intuition discriminate).
           rewrite Hsplit, map_app in N. simpl in N.
           apply NoDup_split_fresh in N. exact N.
      * intros _ st3 [W3 _]. eexists. split.
        -- rewrite W3, W2, W1. reflexivity.
        -- simpl. rewrite !map_app, Hids. reflexivity.
  - intros ? st' H. exact H.
Qed.

(** *** The case blocks *)

Lemma case_blocks_dates_ok : forallb block_dates_ok case_blocks = true.
Proof. vm_compute. reflexivity. Qed.

Lemma runs_case_block (b : CaseBlock) (st : St) (c : nat) (cases : list Case.dict) :
  initialized (work st) = true ->
  foreign_keys st = false ->
  tx_ids_below (work st) c ->
  block_dates_ok b = true ->
  runs (case_block b (c, cases)) st
    (fun locals st' =>
       fst locals = S c
       /\ exists r cs,
            work st' = set_transactions (work st) (transactions (work st) ++ [r])
            /\ Transactions.transaction_id r = txn_id c
            /\ block_transaction b r
            /\ snd locals = (cases ++ [cs])%list
            /\ block_case b cs
            /\ Case.transaction_id cs = txn_id c).
Proof.
  intros Hi Hf Hids Hd. unfold block_dates_ok in Hd.
  repeat (apply andb_prop in Hd; destruct Hd as [Hd ?]).
  repeat match goal with H : (_ <=? _) = true |- _ => apply Z.leb_le in H end.
  unfold case_block.
  eapply runs_bind; [apply runs_random_date; assumption |].
  intros t1 s1 F1 R1 T1 [W1 _].
  eapply runs_bind; [apply runs_random_date; assumption |].
  intros t2 s2 F2 R2 T2 [W2 _].
  assert (W : work s2 = work st) by congruence.
  eapply runs_bind.
  { apply runs_insert_transaction.
    - rewrite W. exact Hi.
    - congruence.
    - rewrite W. simpl. apply tx_ids_below_fresh. exact Hids. }
  intros [] s3 F3 R3 T3 [W3 _].
  eapply runs_bind; [apply runs_random_date; assumption |].
  intros t4 s4 F4 R4 T4 [W4 _].
  eapply runs_bind; [apply runs_random_date; assumption |].
  intros t5 s5 F5 R5 T5 [W5 _].
  eapply runs_bind with
    (Q1 := fun (v : option Timestamp) s => (v = None <-> cb_closed_at b = None)
                                           /\ same_data s5 s).
  { destruct (cb_closed_at b) as [[s e] |].
    - eapply runs_bind; [apply runs_random_date; apply Z.leb_le; assumption |].
      intros t6 s6 F6 R6 T6 H6. apply runs_ret. split; [| exact H6].
      split; discriminate.
    - apply runs_ret. repeat split. }
  intros closed s6 F6 R6 T6 [Hcl [W6 _]].
  apply runs_ret. split; [reflexivity |].
  eexists. eexists. split.
  { rewrite W6, W5, W4, W3, W. reflexivity. }
  split; [reflexivity |].
  split; [repeat split |].
  split; [reflexivity |].
  split; [| reflexivity].
  repeat split; simpl; tauto.
Qed.

Lemma Forall2_snoc {A B} (R : A -> B -> Prop) (l : list A) (l' : list B) x y :
  Forall2 R l l' -> R x y -> Forall2 R (l ++ [x]) (l' ++ [y]).
Proof. intros H Hxy. apply Forall2_app; auto. Qed.

Lemma runs_create_chargeback_cases (st : St) (c0 : nat) :
  initialized (work st) = true ->
  foreign_keys st = false ->
  (1 <= c0)%nat ->
  tx_ids_below (work st) c0 ->
  runs (create_chargeback_cases c0) st
       (fun locals st' => cases_built st c0 case_blocks locals st').
Proof.
  intros Hi Hf Hc Hids. unfold create_chargeback_cases.
  eapply runs_weaken.
  - apply (runs_for_fold case_block
             (fun done locals st1 => cases_built st c0 done locals st1)
             case_blocks []).
    + unfold cases_built. simpl. rewrite Nat.add_0_r.
      split; [reflexivity |]. split; [exact Hids |].
      exists []. rewrite app_nil_r. repeat split; try constructor.
      now destruct (work st).
    + intros b pre [c1 cases1] st1 [post Hsplit] F1 R1 T1 H1.
      assert (Hi1 : initialized (work st1) = true)
        by (rewrite (initialized_same _ _ T1); exact Hi).
      destruct H1 as (Hc1 & Hids1 & rows & W1 & Hrows & Hrid & Hcases & Hcid).
      simpl in Hc1, Hids1, Hcases, Hcid.
      eapply runs_weaken.
      * apply runs_case_block; auto; [congruence |].
        pose proof case_blocks_dates_ok as Hd.
        rewrite forallb_forall in Hd. apply Hd.
        change case_blocks with ([] ++ case_blocks)%list.
        rewrite Hsplit. apply in_or_app. right. now left.
      * intros [c2 cases2] st2 (Hc2 & r & cs & W2 & Hr & Hbr & Hcs & Hbc & Hcsid).
        simpl in Hc2, Hcs. subst c2 cases2.
        unfold cases_built. simpl. rewrite length_app. simpl.
        split; [lia |].
        split.
        { rewrite W2. apply tx_ids_below_insert; auto. lia. }
        exists (rows ++ [r])%list.
        split; [rewrite W2, W1; simpl; now rewrite app_assoc |].
        split; [now apply Forall2_snoc |].
        rewrite !map_app, Hrid, Hcid. simpl. rewrite Hr, Hcsid.
        replace (List.length pre + 1)%nat with (S (List.length pre)) by lia.
        rewrite seq_S, map_app. simpl. rewrite <- Hc1.
        split; [reflexivity |]. split; [now apply Forall2_snoc | reflexivity].
  - intros locals st' H. exact H.
Qed.

(** *** Chargebacks *)

Lemma chargeback_rows_ids (cases : list Case.dict) (rows : list Chargebacks.row) :
  Forall2 (fun c r => exists d, r = chargeback_row c d) cases rows ->
  map Chargebacks.chargeback_id rows = map Case.chargeback_id cases
  /\ map Chargebacks.transaction_id rows = map Case.transaction_id cases.
Proof.
  induction 1 as [| c r cs rs [d ->] _ [IH1 IH2]]; simpl; [auto |].
  now rewrite IH1, IH2.
Qed.

Lemma runs_insert_all_chargebacks (cases : list Case.dict) (st : St) :
  initialized (work st) = true ->
  foreign_keys st = false ->
  chargebacks (work st) = [] ->
  NoDup (map Case.chargeback_id cases) ->
  runs (insert_all_chargebacks cases) st
    (fun _ st' =>
       exists rows, work st' = set_chargebacks (work st) rows
         /\ Forall2 (fun c r => exists d, r = chargeback_row c d) cases rows).
Proof.
  intros Hi Hf He N. unfold insert_all_chargebacks.
  eapply runs_weaken.
  - apply (runs_for_each _
       (fun done st1 =>
          exists rows, work st1 = set_chargebacks (work st) rows
            /\ Forall2 (fun c r => exists d, r = chargeback_row c d) done rows)
       cases []).
    + exists []. split; [| constructor]. rewrite <- He. now destruct (work st).
    + intros cb pre st1 [post Hsplit] F1 R1 T1 (rows & W1 & Hrows).
      assert (Hi1 : initialized (work st1) = true)
        by (rewrite (initialized_same _ _ T1); exact Hi).
      eapply runs_bind; [apply runs_random_date; lia |].
      intros t st2 F2 R2 T2 [W2 _].
      eapply runs_weaken.
      * apply runs_insert_chargeback.
        -- rewrite W2. exact Hi1.
        -- congruence.
        -- rewrite W2, W1. unfold chargeback_exists. simpl.
           apply existsb_fresh_key.
           rewrite (proj1 (chargeback_rows_ids _ _ Hrows)).
           simpl in Hsplit. rewrite Hsplit, map_app in N. simpl in N.
           apply NoDup_split_fresh in N. exact N.
      * intros ? st3 [W3 _]. eexists. split.
        -- rewrite W3, W2, W1. reflexivity.
        -- simpl. apply Forall2_snoc; [exact Hrows | now exists t].
  - intros ? st' H. exact H.
Qed.

(** *** Evaluation of the evidence *)

Lemma same_data_trans (a b c : St) :
  same_data a b -> same_data b c -> same_data a c.
Proof. unfold same_data. intros [? ?] [? ?]. split; congruence. Qed.

Lemma same_data_refl (a : St) : same_data a a.
Proof. split; reflexivity. Qed.

Lemma runs_eval_json (j : Json) :
  dates_ok j = true ->
  forall st, runs (eval_json j) st (fun _ st' => same_data st st').
Proof.
  induction j as [| | | | | | s e | l IH | kv IH] using Json_induction;
    intros Hd st;
    try (apply runs_ret; apply same_data_refl).
  - simpl in Hd. apply Z.leb_le in Hd. simpl.
    eapply runs_bind; [apply runs_random_date; exact Hd |].
    intros t st1 _ _ _ H. apply runs_ret. exact H.
  - simpl in Hd. simpl.
    eapply runs_bind with (Q1 := fun _ st' => same_data st st').
    + clear -IH Hd. revert st. induction l as [| x r IHr]; intros st.
      * apply runs_ret. apply same_data_refl.
      * simpl in Hd. apply andb_prop in Hd. destruct Hd as [Hx Hr].
        inversion IH as [| ? ? Px Pr]; subst.
        eapply runs_bind; [apply Px; exact Hx |].
        intros x' st1 _ _ _ H1.
        eapply runs_bind; [apply IHr; [exact Pr | exact Hr] |].
        intros r' st2 _ _ _ H2. apply runs_ret.
        cbv beta in H1, H2. eapply same_data_trans; eassumption.
    + intros l' st1 _ _ _ H. apply runs_ret. exact H.
  - simpl in Hd. simpl.
    eapply runs_bind with (Q1 := fun _ st' => same_data st st').
    + clear -IH Hd. revert st. induction kv as [| [k x] r IHr]; intros st.
      * apply runs_ret. apply same_data_refl.
      * simpl in Hd. apply andb_prop in Hd. destruct Hd as [Hx Hr].
        inversion IH as [| ? ? Px Pr]; subst. simpl in Px.
        eapply runs_bind; [apply Px; exact Hx |].
        intros x' st1 _ _ _ H1.
        eapply runs_bind; [apply IHr; [exact Pr | exact Hr] |].
        intros r' st2 _ _ _ H2. apply runs_ret.
        cbv beta in H1, H2. eapply same_data_trans; eassumption.
    + intros l' st1 _ _ _ H. apply runs_ret. exact H.
Qed.

Lemma runs_eval_events (l : list Event) :
  events_dates_ok l = true ->
  forall st,
    runs (eval_events l) st
      (fun l' st' => same_data st st'
                     /\ map (fun ev : Event => fst (fst ev)) l'
                        = map (fun ev : Event => fst (fst ev)) l).
Proof.
  induction l as [| [[ty j] ds] r IH]; intros Hd st; simpl.
  - apply runs_ret. split; [apply same_data_refl | reflexivity].
  - simpl in Hd. apply andb_prop in Hd. destruct Hd as [Hj Hr].
    eapply runs_bind; [apply runs_eval_json; exact Hj |].
    intros j' st1 _ _ _ H1.
    eapply runs_bind; [apply IH; exact Hr |].
    intros r' st2 _ _ _ [H2 E]. apply runs_ret. split.
    + cbv beta in H1. eapply same_data_trans; eassumption.
    + simpl. now rewrite E.
Qed.

Lemma runs_eval_evidence (d : list (string * list Event)) :
  evidence_dates_ok d = true ->
  forall st,
    runs (eval_evidence d) st
      (fun d' st' => same_data st st' /\ skeleton d' = skeleton d).
Proof.
  induction d as [| [k evs] r IH]; intros Hd st; simpl.
  - apply runs_ret. split; [apply same_data_refl | reflexivity].
  - simpl in Hd. apply andb_prop in Hd. destruct Hd as [He Hr].
    eapply runs_bind; [apply runs_eval_events; exact He |].
    intros evs' st1 _ _ _ [H1 E1].
    eapply runs_bind; [apply IH; exact Hr |].
    intros r' st2 _ _ _ [H2 E2]. apply runs_ret. split.
    + eapply same_data_trans; eassumption.
    + unfold skeleton in *. simpl. now rewrite E1, E2.
Qed.

Lemma event_types_skeleton (d : list (string * list Event)) (k : string) :
  event_types d k = dict_get (skeleton d) k.
Proof.
  unfold event_types. induction d as [| [k' v] r IH]; simpl; [reflexivity |].
  destruct (String.eqb k' k); [reflexivity | exact IH].
Qed.

Lemma case_evidence_dates_ok (a b : string) :
  evidence_dates_ok (case_evidence_display a b) = true.
Proof. vm_compute. reflexivity. Qed.

(** *** Case events *)

Lemma runs_generic_events (cb : Case.dict) (st : St) :
  runs (generic_events cb) st
    (fun g st' => same_data st st'
                  /\ forall ft, event_types g ft = generic_event_types ft).
Proof.
  unfold generic_events.
  eapply runs_bind; [apply runs_randint; lia |]. intros t1 s1 _ _ _ [_ H1].
  eapply runs_bind; [apply runs_randint; lia |]. intros t2 s2 _ _ _ [_ H2].
  eapply runs_bind; [apply runs_randint; lia |]. intros t3 s3 _ _ _ [_ H3].
  eapply runs_bind; [apply runs_randint; lia |]. intros t4 s4 _ _ _ [_ H4].
  apply runs_ret. split.
  - eapply same_data_trans; [| exact H4].
    eapply same_data_trans; [| exact H3].
    eapply same_data_trans; [exact H1 | exact H2].
  - intros ft. unfold event_types, generic_event_types. cbn [dict_get].
    repeat match goal with
           | |- context [String.eqb ?a ft] => destruct (String.eqb a ft)
           end; reflexivity.
Qed.

Lemma runs_events_of_case (d : list (string * list Event)) (cb : Case.dict)
    (st : St) :
  runs (events_of_case d cb) st
    (fun evs st' => same_data st st'
                    /\ map (fun ev : Event => fst (fst ev)) evs
                       = written_event_types d cb).
Proof.
  unfold events_of_case, written_event_types, written_types_of, event_types.
  destruct (dict_get d (Case.chargeback_id cb)) as [| ev evs] eqn:E.
  - eapply runs_bind; [apply runs_generic_events |].
    intros g st1 _ _ _ [H1 Hg]. apply runs_ret. split; [exact H1 |].
    apply Hg.
  - apply runs_ret. split; [apply same_data_refl | reflexivity].
Qed.

Lemma set_case_events_same (db : Db) :
  db = set_case_events db (case_events db ++ []) (case_events_seq db).
Proof. rewrite app_nil_r. now destruct db. Qed.

Lemma written_event_tags_app (d : list (string * list Event))
    (l l' : list Case.dict) :
  written_event_tags d (l ++ l')
  = (written_event_tags d l ++ written_event_tags d l')%list.
Proof. unfold written_event_tags. apply flat_map_app. Qed.

Lemma written_event_tags_one (d : list (string * list Event)) (c : Case.dict) :
  written_event_tags d [c]
  = map (pair (Case.chargeback_id c)) (written_event_types d c).
Proof. unfold written_event_tags. simpl. apply app_nil_r. Qed.

(** Each insert takes the id that follows the last one; the loop needs as
    many free ids as it has events. *)
Lemma runs_insert_events (cb_id : string) (evs : list Event) (st : St) :
  initialized (work st) = true ->
  foreign_keys st = false ->
  last_rowid (work st) + Z.of_nat (List.length evs) <= max_rowid ->
  runs (insert_events cb_id evs) st
    (fun _ st' =>
       exists rows seq,
         work st' = set_case_events (work st) (case_events (work st) ++ rows) seq
         /\ event_tags rows = map (pair cb_id) (map (fun ev : Event => fst (fst ev)) evs)
         /\ last_rowid (work st')
            = last_rowid (work st) + Z.of_nat (List.length evs)).
Proof.
  intros Hi Hf Hroom. unfold insert_events.
  eapply runs_weaken.
  - apply (runs_for_each _
       (fun done st1 =>
          exists rows seq,
            work st1 = set_case_events (work st) (case_events (work st) ++ rows) seq
            /\ event_tags rows
               = map (pair cb_id) (map (fun ev : Event => fst (fst ev)) done)
            /\ last_rowid (work st1)
               = last_rowid (work st) + Z.of_nat (List.length done))
       evs []).
    + exists [], (case_events_seq (work st)). split; [| split].
      * apply set_case_events_same.
      * reflexivity.
      * simpl. lia.
    + intros [[ty j] ds] pre st1 [post Hsplit] F1 R1 T1 (rows & sq & W1 & Htags & Hlast).
      assert (Hi1 : initialized (work st1) = true)
        by (rewrite (initialized_same _ _ T1); exact Hi).
      assert (Hlen : List.length evs = (List.length pre + S (List.length post))%nat).
      { simpl in Hsplit. rewrite Hsplit, length_app. reflexivity. }
      eapply runs_bind; [apply runs_random_date; lia |].
      intros t st2 F2 R2 T2 [W2 _].
      eapply runs_weaken.
      * apply runs_insert_case_event;
          [rewrite W2; exact Hi1 | congruence | rewrite W2, Hlast; lia].
      * intros ? st3 (e & W3 & He & Hcb & Hty).
        exists (rows ++ [e])%list, (CaseEvents.event_id e). split; [| split].
        -- rewrite W3, W2, W1. simpl. now rewrite app_assoc.
        -- unfold event_tags in *. rewrite !map_app, Htags. simpl.
           now rewrite Hcb, Hty.
        -- rewrite W3. rewrite last_rowid_insert; [| exact He].
           rewrite W2, Hlast, length_app. cbn [List.length]. lia.
  - intros ? st' H. exact H.
Qed.

Lemma runs_create_case_events (d : list (string * list Event))
    (cases : list Case.dict) (st : St) :
  initialized (work st) = true ->
  foreign_keys st = false ->
  last_rowid (work st) + Z.of_nat (List.length (written_event_tags d cases))
  <= max_rowid ->
  runs (create_case_events d cases) st
    (fun _ st' =>
       exists rows seq,
         work st' = set_case_events (work st) (case_events (work st) ++ rows) seq
         /\ event_tags rows = written_event_tags d cases
         /\ last_rowid (work st')
            = last_rowid (work st)
              + Z.of_nat (List.length (written_event_tags d cases))).
Proof.
  intros Hi Hf Hroom. unfold create_case_events.
  eapply runs_weaken.
  - apply (runs_for_each _
       (fun done st1 =>
          exists rows seq,
            work st1 = set_case_events (work st) (case_events (work st) ++ rows) seq
            /\ event_tags rows = written_event_tags d done
            /\ last_rowid (work st1)
               = last_rowid (work st)
                 + Z.of_nat (List.length (written_event_tags d done)))
       cases []).
    + exists [], (case_events_seq (work st)). split; [| split].
      * apply set_case_events_same.
      * reflexivity.
      * simpl. lia.
    + intros cb pre st1 [post Hsplit] F1 R1 T1 (rows & sq & W1 & Htags & Hlast).
      assert (Hi1 : initialized (work st1) = true)
        by (rewrite (initialized_same _ _ T1); exact Hi).
      assert (Hlen : List.length (written_event_tags d cases)
                     = (List.length (written_event_tags d pre)
                        + (List.length (written_event_types d cb)
                           + List.length (written_event_tags d post)))%nat).
      { simpl in Hsplit. rewrite Hsplit.
        change (cb :: post) with ([cb] ++ post)%list.
        rewrite !written_event_tags_app, !length_app, written_event_tags_one.
        now rewrite length_map. }
      eapply runs_bind; [apply runs_events_of_case |].
      intros evs st2 F2 R2 T2 [[W2 _] Hevs].
      assert (Hn : List.length evs = List.length (written_event_types d cb)).
      { rewrite <- Hevs. now rewrite length_map. }
      eapply runs_weaken.
      * apply runs_insert_events;
          [rewrite W2; exact Hi1 | congruence | rewrite W2, Hlast, Hn; lia].
      * intros ? st3 (rows' & sq' & W3 & Htags' & Hlast').
        exists (rows ++ rows')%list, sq'. split; [| split].
        -- rewrite W3, W2, W1. simpl. now rewrite app_assoc.
        -- unfold event_tags in *.
           rewrite map_app, Htags, Htags', Hevs.
           rewrite written_event_tags_app, written_event_tags_one. reflexivity.
        -- rewrite Hlast', W2, Hlast, Hn.
           rewrite written_event_tags_app, written_event_tags_one.
           rewrite length_app, length_map. lia.
  - intros ? st' H. exact H.
Qed.

(** *** Customer statistics *)

Lemma runs_update_total_chargebacks (count : Z) (cid : string) (st : St) :
  initialized (work st) = true ->
  runs (execute (update_total_chargebacks count cid)) st
    (fun _ st' =>
       work st' = set_customers (work st)
         (map (fun r =>
                 if String.eqb (Customers.customer_id r) cid
                 then {| Customers.customer_id := Customers.customer_id r;
                         Customers.name := Customers.name r;
                         Customers.email := Customers.email r;
                         Customers.region := Customers.region r;
                         Customers.created_at := Customers.created_at r;
                         Customers.total_chargebacks := Some count;
                         Customers.total_refunds := Customers.total_refunds r |}
                 else r)
              (customers (work st)))).
Proof.
  intros Hi. eapply runs_weaken.
  - eapply runs_execute.
    + unfold update_total_chargebacks.
      replace (has_table (work st) "customers") with true by (symmetry; table_ok).
      reflexivity.
    + reflexivity.
  - intros ? st' [W _]. exact W.
Qed.

Lemma runs_update_customer_statistics (st : St) :
  initialized (work st) = true ->
  runs update_customer_statistics st
    (fun _ st' =>
       exists rows,
         work st' = set_customers (work st) rows
         /\ map Customers.customer_id rows
            = map Customers.customer_id (customers (work st))
         /\ forall r, In r rows ->
              In (Customers.customer_id r)
                 (map (fun c => fst (fst (fst c))) customers_data) ->
              Customers.total_chargebacks r
              = Some (count_chargebacks_of_customer (Customers.customer_id r)
                        (work st))).
Proof.
  intros Hi. unfold update_customer_statistics.
  eapply runs_weaken.
  - apply (runs_for_each _
       (fun done st1 =>
          exists rows,
            work st1 = set_customers (work st) rows
            /\ map Customers.customer_id rows
               = map Customers.customer_id (customers (work st))
            /\ forall r, In r rows ->
                 In (Customers.customer_id r)
                    (map (fun c : string * string * string * string =>
                            fst (fst (fst c))) done) ->
                 Customers.total_chargebacks r
                 = Some (count_chargebacks_of_customer (Customers.customer_id r)
                           (work st)))
       customers_data []).
    + exists (customers (work st)). split; [now destruct (work st) |].
      split; [reflexivity |]. intros r _ [].
    + intros [[[cid nm] em] rg] pre st1 _ F1 R1 T1 (rows & W1 & Hids & Htot).
      assert (Hi1 : initialized (work st1) = true)
        by (rewrite (initialized_same _ _ T1); exact Hi).
      eapply runs_bind; [apply runs_query |].
      intros count st2 F2 R2 T2 [Hcount [W2 _]].
      eapply runs_weaken.
      * apply runs_update_total_chargebacks. rewrite W2. exact Hi1.
      * intros ? st3 W3. eexists. split; [rewrite W3, W2, W1; reflexivity |].
        simpl. split.
        -- rewrite map_map, <- Hids. apply map_ext. intros r.
           now destruct (String.eqb (Customers.customer_id r) cid).
        -- intros r' Hin Hdone. apply in_map_iff in Hin.
           destruct Hin as (r & Hr & Hin).
           destruct (String.eqb (Customers.customer_id r) cid) eqn:E.
           ++ subst r'. simpl. apply String.eqb_eq in E. rewrite E.
              rewrite Hcount, W1. reflexivity.
           ++ subst r'. apply Htot; [exact Hin |].
              rewrite map_app in Hdone. apply in_app_or in Hdone.
              destruct Hdone as [Hd | [Hd | []]]; [exact Hd |].
              simpl in Hd. apply String.eqb_neq in E. congruence.
  - intros ? st' H. exact H.
Qed.

(** *** When the ids run out *)

Lemma raises_insert_case_event (st : St) (cb_id ty : string)
    (d : option Timestamp) (j : option Json) (ds : option string) :
  initialized (work st) = true ->
  max_rowid <= last_rowid (work st) ->
  raises (execute (insert_case_event cb_id ty d j ds)) st database_full.
Proof.
  intros Hi Hfull. exists st. unfold execute, insert_case_event.
  replace (has_table (work st) "case_events") with true by (symmetry; table_ok).
  replace (max_rowid <=? last_rowid (work st)) with true
    by (symmetry; apply Z.leb_le; exact Hfull).
  reflexivity.
Qed.

(** The loop over the events of a case stops at the first insert for which
    no id is left. *)
Lemma raises_insert_events (cb_id : string) (evs : list Event) :
  forall st,
    initialized (work st) = true ->
    foreign_keys st = false ->
    evs <> [] ->
    max_rowid < last_rowid (work st) + Z.of_nat (List.length evs) ->
    raises (insert_events cb_id evs) st database_full.
Proof.
  induction evs as [| [[ty j] ds] evs IH]; intros st Hi Hf Hne Hfull;
    [contradiction |].
  unfold insert_events. cbn [for_each].
  change (for_each evs _) with (insert_events cb_id evs).
  destruct (Z.ltb_spec (last_rowid (work st)) max_rowid) as [Hlt | Hge].
  - eapply raises_bind.
    + eapply runs_bind; [apply runs_random_date; lia |].
      intros t st2 F2 R2 T2 [W2 _].
      eapply runs_weaken.
      * apply runs_insert_case_event;
          [rewrite W2; exact Hi | congruence | rewrite W2; exact Hlt].
      * intros ? st3 (e & W3 & He & _ & _).
        instantiate (1 := fun _ st3 =>
                             last_rowid (work st3) = 1 + last_rowid (work st)).
        cbv beta. rewrite W3. rewrite last_rowid_insert; [| exact He].
        now rewrite W2.
    + intros [] st1 F1 R1 T1 Hlast. cbv beta in Hlast.
      cbn [List.length] in Hfull.
      apply IH.
      * rewrite (initialized_same _ _ T1). exact Hi.
      * congruence.
      * intros ->. simpl in Hfull. lia.
      * lia.
  - apply raises_first. eapply raises_bind.
    + apply runs_random_date. lia.
    + intros t st2 F2 R2 T2 [W2 _].
      apply raises_insert_case_event; rewrite W2; [exact Hi | lia].
Qed.

(** The loop over the cases stops in the first case whose events do not all
    get an id. *)
Lemma raises_create_case_events (d : list (string * list Event))
    (cases : list Case.dict) :
  forall st,
    initialized (work st) = true ->
    foreign_keys st = false ->
    written_event_tags d cases <> [] ->
    max_rowid
    < last_rowid (work st) + Z.of_nat (List.length (written_event_tags d cases)) ->
    raises (create_case_events d cases) st database_full.
Proof.
  induction cases as [| c cases IH]; intros st Hi Hf Hne Hfull;
    [contradiction |].
  unfold create_case_events. cbn [for_each].
  change (for_each cases _) with (create_case_events d cases).
  change (c :: cases) with ([c] ++ cases)%list in Hfull, Hne.
  rewrite written_event_tags_app, written_event_tags_one in Hne.
  rewrite written_event_tags_app, length_app, written_event_tags_one,
    length_map in Hfull.
  destruct (written_event_types d c) as [| ty tys] eqn:Ety.
  - (* a case without events *)
    eapply raises_bind.
    + eapply runs_bind; [apply runs_events_of_case |].
      intros evs st2 F2 R2 T2 [[W2 _] Hevs]. rewrite Ety in Hevs.
      apply map_eq_nil in Hevs. subst evs.
      apply runs_ret.
      instantiate (1 := fun _ st3 => work st3 = work st). exact W2.
    + intros [] st1 F1 R1 T1 W1. cbv beta in W1.
      apply IH.
      * rewrite W1. exact Hi.
      * congruence.
      * exact Hne.
      * rewrite W1. simpl in Hfull. exact Hfull.
  - rewrite <- Ety in Hfull.
    destruct (Z.leb_spec
                (last_rowid (work st)
                 + Z.of_nat (List.length (written_event_types d c)))
                max_rowid) as [Hroom | Hnone].
    + eapply raises_bind.
      * eapply runs_bind; [apply runs_events_of_case |].
        intros evs st2 F2 R2 T2 [[W2 _] Hevs].
        assert (Hn : List.length evs = List.length (written_event_types d c))
          by (rewrite <- Hevs; now rewrite length_map).
        eapply runs_weaken.
        -- apply runs_insert_events;
             [rewrite W2; exact Hi | congruence | rewrite W2, Hn; exact Hroom].
        -- intros ? st3 (rows & sq & _ & _ & Hlast).
           instantiate (1 := fun _ st3 =>
                                last_rowid (work st3)
                                = last_rowid (work st)
                                  + Z.of_nat (List.length (written_event_types d c))).
           cbv beta. now rewrite Hlast, W2, Hn.
      * intros [] st1 F1 R1 T1 Hlast. cbv beta in Hlast.
        apply IH.
        -- rewrite (initialized_same _ _ T1). exact Hi.
        -- congruence.
        -- intros E. rewrite E in Hfull. simpl in Hfull. lia.
        -- lia.
    + apply raises_first. eapply raises_bind.
      * apply runs_events_of_case.
      * intros evs st2 F2 R2 T2 [[W2 _] Hevs].
        assert (Hn : List.length evs = List.length (written_event_types d c))
          by (rewrite <- Hevs; now rewrite length_map).
        apply raises_insert_events;
          [ rewrite W2; exact Hi | congruence
          | intros ->; rewrite Ety in Hevs; discriminate Hevs
          | rewrite W2, Hn; exact Hnone ].
Qed.

Lemma keeps_disk_generic_events (cb : Case.dict) : keeps_disk (generic_events cb).
Proof. unfold generic_events. repeat keeps_disk_step. Qed.

Lemma keeps_disk_create_case_events (d : list (string * list Event))
    (cases : list Case.dict) :
  keeps_disk (create_case_events d cases).
Proof.
  unfold create_case_events. apply keeps_disk_for_each. intros c.
  apply keeps_disk_bind.
  - unfold events_of_case. cbv zeta.
    destruct (dict_get d (Case.chargeback_id c));
      [| apply keeps_disk_ret].
    apply keeps_disk_bind; [apply keeps_disk_generic_events |].
    intros g. apply keeps_disk_ret.
  - intros evs. unfold insert_events. apply keeps_disk_for_each.
    intros [[ty j] ds]. repeat keeps_disk_step.
Qed.

(** ** Rules for [ensures] *)

Lemma ensures_ret {A} (v : A) (st : St) (Q : A -> St -> Prop) :
  Q v st -> ensures (ret v) st Q.
Proof. intros H w st' E. injection E as <- <-. exact H. Qed.

Lemma ensures_bind {A B} (m : M A) (k : A -> M B) (st : St)
    (Q1 : A -> St -> Prop) (Q : B -> St -> Prop) :
  ensures m st Q1 ->
  (forall v st1, Q1 v st1 -> ensures (k v) st1 Q) ->
  ensures (bind m k) st Q.
Proof.
  intros H1 Hk w st' E. unfold bind in E.
  destruct (m st) as [v st1 | e st1] eqn:Em; [| discriminate E].
  exact (Hk v st1 (H1 v st1 Em) w st' E).
Qed.

Lemma ensures_weaken {A} (m : M A) (st : St) (Q Q' : A -> St -> Prop) :
  ensures m st Q -> (forall v st', Q v st' -> Q' v st') -> ensures m st Q'.
Proof. intros H HQ v st' E. apply HQ, H, E. Qed.

Lemma runs_ensures {A} (m : M A) (st : St) (Q Q' : A -> St -> Prop) :
  runs m st Q -> ensures m st Q' -> runs m st (fun v s => Q v s /\ Q' v s).
Proof.
  intros (v & st' & E & Hf & Hr & Ht & H) H'.
  exists v, st'. repeat split; auto.
Qed.

Lemma ensures_randint (a b : Z) (st : St) :
  ensures (randint a b) st (fun v st' => a <= v <= b /\ work st' = work st).
Proof.
  intros v st' E. unfold randint in E.
  destruct (b <? a) eqn:Hab; [discriminate E |].
  apply Z.ltb_ge in Hab. injection E as <- <-.
  pose proof (Z.mod_pos_bound (rand st (pos st)) (b - a + 1)).
  split; [lia | reflexivity].
Qed.

Lemma ensures_uniform_round2 (a b : Dec) (st : St) :
  a <= b ->
  ensures (uniform_round2 a b) st (fun v st' => a <= v <= b /\ work st' = work st).
Proof.
  intros Hab. unfold uniform_round2.
  destruct (b <? a) eqn:E; [apply Z.ltb_lt in E; lia |].
  apply ensures_randint.
Qed.

Lemma ensures_choice {A} (l : list A) (st : St) :
  ensures (choice l) st (fun v st' => In v l /\ work st' = work st).
Proof.
  destruct l as [| x l]; [intros v st' E; discriminate E |].
  unfold choice. eapply ensures_bind; [apply ensures_randint |].
  intros i st1 [Hi W]. apply ensures_ret. split; [| exact W].
  apply nth_In. simpl List.length in *. lia.
Qed.

Lemma ensures_random_date (s e : Z) (st : St) :
  ensures (random_date s e) st
    (fun t st' => e <= days_ago t <= s /\ work st' = work st).
Proof.
  unfold random_date. eapply ensures_bind; [apply ensures_randint |].
  intros d st1 [Hd W]. apply ensures_ret. split; [exact Hd | exact W].
Qed.

Lemma ensures_insert_transaction (r : Transactions.row) (st : St) :
  ensures (execute (insert_transaction r)) st
    (fun _ st' => transactions (work st') = (transactions (work st) ++ [r])%list).
Proof.
  intros [] st' E. unfold execute in E.
  destruct (insert_transaction r (foreign_keys st) (work st)) as [e | db'] eqn:Ei;
    [discriminate E |].
  injection E as <-. unfold insert_transaction in Ei.
  repeat match type of Ei with
         | (if ?c then _ else _) = _ => destruct c; [discriminate Ei |]
         end.
  injection Ei as <-. reflexivity.
Qed.

Lemma ensures_for_fold {A S} (body : A -> S -> M S)
    (I : list A -> S -> St -> Prop) :
  forall (l done : list A) (s : S) (st : St),
    I done s st ->
    (forall x pre s1 st1,
        (exists post, done ++ l = pre ++ x :: post)%list ->
        I pre s1 st1 ->
        ensures (body x s1) st1 (fun s2 st2 => I (pre ++ [x])%list s2 st2)) ->
    ensures (for_fold l body s) st (fun s' st' => I (done ++ l)%list s' st').
Proof.
  induction l as [| x l IH]; intros done s st HI Hbody.
  - simpl. apply ensures_ret. rewrite app_nil_r. exact HI.
  - simpl. eapply ensures_bind.
    + apply (Hbody x done s st); [| exact HI]. now exists l.
    + intros s2 st2 H2.
      replace (done ++ x :: l)%list with ((done ++ [x]) ++ l)%list
        by (rewrite <- app_assoc; reflexivity).
      apply IH; [exact H2 |].
      intros y pre s1 st1 [post Hy]. apply Hbody.
      exists post. rewrite <- Hy, <- app_assoc. reflexivity.
Qed.

(** *** The transactions of one customer *)

Lemma transactions_of_customer_app (cid : string) (a b : list Transactions.row) :
  transactions_of_customer cid (a ++ b)
  = (transactions_of_customer cid a ++ transactions_of_customer cid b)%list.
Proof. apply filter_app. Qed.

Lemma transactions_of_customer_same (cid : string) (l : list Transactions.row) :
  Forall (fun r => Transactions.customer_id r = cid) l ->
  transactions_of_customer cid l = l.
Proof.
  induction 1 as [| r l Hr _ IH]; simpl; [reflexivity |].
  rewrite Hr, String.eqb_refl. now f_equal.
Qed.

Lemma transactions_of_customer_other (cid x : string) (l : list Transactions.row) :
  x <> cid ->
  Forall (fun r => Transactions.customer_id r = x) l ->
  transactions_of_customer cid l = [].
Proof.
  intros Hx. induction 1 as [| r l Hr _ IH]; simpl; [reflexivity |].
  rewrite Hr. apply String.eqb_neq in Hx. now rewrite Hx.
Qed.

Lemma customer_ids_NoDup : NoDup customer_ids.
Proof. vm_compute. repeat constructor; simpl; intuition discriminate. Qed.

(** *** The ordinary transactions *)

Lemma ensures_normal_transaction (cid : string) (c : nat) (st : St) :
  In cid customer_ids ->
  ensures (normal_transaction cid c) st
    (fun c' st' =>
       c' = S c
       /\ exists r, transactions (work st') = (transactions (work st) ++ [r])%list
                    /\ ordinary_transaction r
                    /\ Transactions.customer_id r = cid).
Proof.
  intros Hcid. unfold normal_transaction.
  eapply ensures_bind; [apply ensures_choice |]. intros m s1 [Hm W1].
  eapply ensures_bind; [apply ensures_uniform_round2; unfold dec; lia |].
  intros amount s2 [Ha W2].
  eapply ensures_bind; [apply ensures_random_date |]. intros d s3 [_ W3].
  eapply ensures_bind; [apply ensures_uniform_round2; unfold dec; lia |].
  intros score s4 [Hs W4].
  eapply ensures_bind; [apply ensures_randint |]. intros v5 s5 [_ W5].
  eapply ensures_bind; [apply ensures_choice |]. intros v6 s6 [_ W6].
  eapply ensures_bind; [apply ensures_randint |]. intros v7 s7 [_ W7].
  eapply ensures_bind; [apply ensures_choice |]. intros v8 s8 [_ W8].
  eapply ensures_bind; [apply ensures_choice |]. intros v9 s9 [_ W9].
  eapply ensures_bind; [apply ensures_choice |]. intros v10 s10 [_ W10].
  eapply ensures_bind; [apply ensures_randint |]. intros v11 s11 [_ W11].
  eapply ensures_bind; [apply ensures_randint |]. intros v12 s12 [_ W12].
  eapply ensures_bind; [apply ensures_randint |]. intros v13 s13 [_ W13].
  eapply ensures_bind; [apply ensures_randint |]. intros v14 s14 [_ W14].
  assert (W : work s14 = work st) by congruence.
  eapply ensures_bind; [apply ensures_insert_transaction |].
  intros [] s15 W15. apply ensures_ret. split; [reflexivity |].
  eexists. split; [rewrite W15, W; reflexivity |].
  split; [| reflexivity].
  unfold ordinary_transaction. cbn [Transactions.customer_id
    Transactions.merchant_id Transactions.amount Transactions.status
    Transactions.risk_level Transactions.velocity_flag Transactions.fraud_score].
  repeat split; auto; try apply Ha.
  exists score. split; [reflexivity | exact Hs].
Qed.

Lemma ensures_normal_transactions_of (cid : string) (l : list Z) (st : St) (c : nat) :
  In cid customer_ids ->
  ensures (for_fold l (fun _ counter => normal_transaction cid counter) c) st
    (fun _ st' =>
       exists rows,
         transactions (work st') = (transactions (work st) ++ rows)%list
         /\ Forall ordinary_transaction rows
         /\ Forall (fun r => Transactions.customer_id r = cid) rows
         /\ List.length rows = List.length l).
Proof.
  intros Hcid.
  eapply ensures_weaken.
  - apply (ensures_for_fold (fun _ counter => normal_transaction cid counter)
             (fun done _ st1 =>
                exists rows,
                  transactions (work st1) = (transactions (work st) ++ rows)%list
                  /\ Forall ordinary_transaction rows
                  /\ Forall (fun r => Transactions.customer_id r = cid) rows
                  /\ List.length rows = List.length done) l []).
    + exists []. rewrite app_nil_r. repeat split; constructor.
    + intros x pre c1 st1 _ (rows & W1 & Hrows & Hcids & Hlen).
      eapply ensures_weaken; [apply ensures_normal_transaction; exact Hcid |].
      intros c2 st2 (_ & r & W2 & Hr & Hrc). exists (rows ++ [r])%list.
      split; [rewrite W2, W1; now rewrite app_assoc |].
      split; [apply Forall_app; split; [exact Hrows | now constructor] |].
      split; [apply Forall_app; split; [exact Hcids | now constructor] |].
      rewrite !length_app, Hlen. reflexivity.
  - intros c' st' H. exact H.
Qed.

Lemma length_range (n : Z) : List.length (range n) = Z.to_nat n.
Proof. unfold range. now rewrite length_map, length_seq. Qed.

Lemma ensures_create_normal_transactions (st : St) (c : nat) :
  ensures (create_normal_transactions c) st
    (fun _ st' =>
       exists rows,
         transactions (work st') = (transactions (work st) ++ rows)%list
         /\ Forall ordinary_transaction rows
         /\ (5 * List.length customers_data <= List.length rows
             <= 10 * List.length customers_data)%nat
         /\ forall cid, In cid customer_ids ->
              (5 <= List.length (transactions_of_customer cid rows) <= 10)%nat).
Proof.
  unfold create_normal_transactions.
  eapply ensures_weaken.
  - apply (ensures_for_fold _
           (fun done _ st1 =>
              exists rows,
                transactions (work st1) = (transactions (work st) ++ rows)%list
                /\ Forall ordinary_transaction rows
                /\ (5 * List.length done <= List.length rows
                    <= 10 * List.length done)%nat
                /\ (forall cid,
                      In cid (map (fun c : string * string * string * string =>
                                     fst (fst (fst c))) done) ->
                      (5 <= List.length (transactions_of_customer cid rows)
                       <= 10)%nat)
                /\ (forall cid,
                      ~ In cid (map (fun c : string * string * string * string =>
                                       fst (fst (fst c))) done) ->
                      transactions_of_customer cid rows = []))
           customers_data []).
    + exists []. rewrite app_nil_r.
      repeat split; simpl; try constructor; try lia; contradiction.
    + intros [[[cidx nm] em] rg] pre c1 st1 [post Hsplit]
             (rows & W1 & Hrows & Hlen & Hin5 & Hout).
      simpl in Hsplit.
      assert (Hcid : In cidx customer_ids).
      { unfold customer_ids. rewrite Hsplit, map_app. apply in_or_app.
        right. now left. }
      assert (Hfresh : ~ In cidx (map (fun c : string * string * string * string =>
                                         fst (fst (fst c))) pre)).
      { pose proof customer_ids_NoDup as N. unfold customer_ids in N.
        rewrite Hsplit, map_app in N. simpl in N.
        exact (NoDup_split_fresh _ _ _ N). }
      eapply ensures_bind; [apply ensures_randint |].
      intros n st2 [Hn W2].
      eapply ensures_weaken; [apply ensures_normal_transactions_of; exact Hcid |].
      intros c3 st3 (rows' & W3 & Hrows' & Hcids' & Hlen').
      rewrite length_range in Hlen'.
      exists (rows ++ rows')%list.
      split; [rewrite W3, W2, W1; now rewrite app_assoc |].
      split; [apply Forall_app; split; assumption |].
      split; [rewrite !length_app, Hlen'; simpl List.length; lia |].
      split.
      * intros cid Hc. rewrite transactions_of_customer_app, length_app.
        rewrite map_app in Hc. apply in_app_or in Hc.
        destruct Hc as [Hc | [<- | []]].
        -- rewrite (transactions_of_customer_other cid cidx rows');
             [| intros ->; contradiction | exact Hcids'].
           simpl. rewrite Nat.add_0_r. exact (Hin5 cid Hc).
        -- cbn [fst]. rewrite (Hout cidx Hfresh).
           rewrite (transactions_of_customer_same cidx rows' Hcids').
           simpl. lia.
      * intros cid Hc. rewrite transactions_of_customer_app.
        rewrite map_app in Hc.
        rewrite (Hout cid) by (intros H; apply Hc, in_or_app; now left).
        apply (transactions_of_customer_other cid cidx); [| exact Hcids'].
        intros ->. apply Hc, in_or_app. right. now left.
  - intros c' st' (rows & W & Hrows & Hlen & Hin5 & _).
    exists rows. split; [exact W |]. split; [exact Hrows |].
    split; [exact Hlen |]. intros cid Hc. apply Hin5. exact Hc.
Qed.

(** ** A run of the generator on an initialized store *)

Lemma bind_connect {A} (k : unit -> M A) (st : St) :
  bind connect k st = k tt (connected st).
Proof. reflexivity. Qed.

Lemma written_event_tags_skeleton (d d' : list (string * list Event))
    (cases : list Case.dict) :
  skeleton d' = skeleton d ->
  written_event_tags d' cases = written_event_tags d cases.
Proof.
  intros H. unfold written_event_tags, written_event_types, written_types_of.
  apply flat_map_ext. intros c.
  now rewrite !event_types_skeleton, H.
Qed.

Lemma block_case_ids (bs : list CaseBlock) (cases : list Case.dict) :
  Forall2 block_case bs cases ->
  map Case.chargeback_id cases = map cb_chargeback_id bs.
Proof.
  induction 1 as [| b c bs cs (H & _) _ IH]; simpl; [reflexivity |].
  now rewrite H, IH.
Qed.

Lemma case_blocks_ids_NoDup : NoDup (map cb_chargeback_id case_blocks).
Proof.
  apply (NoDup_map_inv (fun s => s)). rewrite map_id.
  vm_compute. repeat constructor; simpl; intuition discriminate.
Qed.

Ltac next_state Hi T Hi' :=
  assert (Hi' := Hi); rewrite <- (initialized_same _ _ T) in Hi'.

Ltac skip_print s W :=
  match goal with
  | |- fails _ _ _ _ => eapply fails_bind
  | |- completes _ _ _ => eapply completes_bind
  | |- runs _ _ _ => eapply runs_bind
  end; [apply runs_print |];
  let F := fresh "F" in let R := fresh "R" in
  let T := fresh "T" in let D := fresh "D" in
  intros [] s F R T [W D].

(** The tags of the events written depend on the cases through their ids
    and categories only, which are those of the case blocks. *)
Definition block_event_tags (d : list (string * list Event)) (bs : list CaseBlock)
  : list (string * string) :=
  flat_map (fun b => map (pair (cb_chargeback_id b))
                         (written_types_of d (cb_chargeback_id b)
                                           (cb_fraud_type b)))
           bs.

Lemma written_event_tags_blocks (d : list (string * list Event))
    (bs : list CaseBlock) (cases : list Case.dict) :
  Forall2 block_case bs cases ->
  written_event_tags d cases = block_event_tags d bs.
Proof.
  unfold written_event_tags, block_event_tags, written_event_types.
  induction 1 as [| b c bs cs (Hid & _ & _ & _ & _ & Hft) _ IH]; simpl;
    [reflexivity |].
  now rewrite Hid, Hft, IH.
Qed.

Lemma case_blocks_event_count (a b : string) :
  Z.of_nat (List.length (block_event_tags (case_evidence_display a b) case_blocks))
  = events_per_run.
Proof. vm_compute. reflexivity. Qed.

Lemma runs_connect_again (st : St) :
  runs connect (connected st) (fun _ st' => st' = connected st).
Proof. exists tt, (connected st). repeat split. Qed.

Lemma seed_database_cases_connected (st : St) :
  seed_database_cases st = seed_database_cases (connected st).
Proof. unfold seed_database_cases. now rewrite !bind_connect. Qed.

(** The run: on an initialized store whose sequence has room for the
    events, every statement of the generator succeeds; the connection is
    closed at the end and the file holds the data set [seeded]. *)
Lemma seed_database_cases_runs (st : St) (db : Db) :
  disk st = Some db ->
  initialized db = true ->
  sequence_has_room db ->
  completes seed_database_cases (connected st)
       (fun cases st' =>
          exists db',
            disk st' = Some db' /\ tables db' = tables db
            /\ last_rowid db' = Z.max 0 (case_events_seq db) + events_per_run
            /\ seeded cases db').
Proof.
  intros Hdisk Hinit Hroom.
  assert (W00 : work (connected st) = db)
    by (unfold connected; simpl; now rewrite Hdisk).
  assert (H0 : initialized (work (connected st)) = true)
    by (unfold connected; simpl; rewrite Hdisk; exact Hinit).
  assert (F0 : foreign_keys (connected st) = false) by reflexivity.
  unfold seed_database_cases.
  eapply completes_bind; [apply runs_connect_again |]. intros [] s0 _ _ _ ->.
  skip_print p1 V1. skip_print p2 V2.
  assert (Hi1 : initialized (work p2) = true) by congruence.
  (* clearing *)
  eapply completes_bind; [apply runs_clear_existing_data; exact Hi1 |].
  intros [] sc Fc Rc Tc [Wc _].
  next_state Hi1 Tc Hic.
  assert (Wc' : work sc = cleared db) by congruence.
  destruct (emptied_cleared db) as (Ecu & Eme & Etx & Ecb & Eev).
  rewrite <- Wc' in Ecu, Eme, Etx, Ecb, Eev.
  skip_print p3 V3.
  (* merchants *)
  eapply completes_bind; [apply runs_create_merchants; congruence |].
  intros [] sm Fm Rm Tm (mrows & Wm & Hm).
  rewrite V3 in Wm.
  assert (Him : initialized (work sm) = true)
    by (rewrite Wm; simpl; exact Hic).
  skip_print p4 V4.
  (* customers *)
  eapply completes_bind.
  { apply runs_create_customers; [congruence |]. rewrite V4, Wm. exact Ecu. }
  intros [] scu Fcu Rcu Tcu (crows & Wcu & Hcu).
  rewrite V4, Wm in Wcu. simpl in Wcu.
  assert (Hicu : initialized (work scu) = true)
    by (rewrite Wcu; simpl; exact Hic).
  (* ordinary transactions *)
  eapply completes_bind.
  { apply runs_ensures; [| apply ensures_create_normal_transactions].
    apply runs_create_normal_transactions; [exact Hicu | congruence | lia |].
    unfold tx_ids_below. rewrite Wcu. simpl. rewrite Etx. reflexivity. }
  intros c0 sn Fn Rn Tn
         [(Hc0 & Hidsn & nrows & Wn) (orows & Wo & Hord & Hlen & Hper)].
  rewrite Wcu in Wn. simpl in Wn. rewrite Etx in Wn. simpl in Wn.
  rewrite Wn, Wcu in Wo. simpl in Wo. rewrite Etx in Wo. simpl in Wo.
  subst orows.
  assert (Hin : initialized (work sn) = true)
    by (rewrite Wn; simpl; exact Hic).
  skip_print p5 V5.
  (* case blocks *)
  eapply completes_bind.
  { apply runs_create_chargeback_cases; [congruence | congruence | exact Hc0 |].
    rewrite V5. exact Hidsn. }
  intros [c1 cases] sb Fb Rb Tb (Hc1 & Hidsb & rows & Wb & Hrows & Hrid & Hcases & Hcid).
  simpl in Hc1, Hidsb, Hcases, Hcid. cbv zeta. simpl snd.
  rewrite V5, Wn in Wb. simpl in Wb.
  assert (Hib : initialized (work sb) = true)
    by (rewrite Wb; simpl; exact Hic).
  (* chargebacks *)
  eapply completes_bind.
  { apply runs_insert_all_chargebacks; [exact Hib | congruence | |].
    - rewrite Wb. simpl. exact Ecb.
    - rewrite (block_case_ids _ _ Hcases). apply case_blocks_ids_NoDup. }
  intros [] sch Fch Rch Tch (cbrows & Wch & Hcb).
  rewrite Wb in Wch. simpl in Wch.
  assert (Hich : initialized (work sch) = true)
    by (rewrite Wch; simpl; exact Hic).
  skip_print p6 V6.
  (* evidence *)
  eapply completes_bind; [apply runs_eval_evidence; apply case_evidence_dates_ok |].
  intros ev sev Fev Rev Tev [[Wev _] Hsk].
  (* events *)
  assert (Hlast : last_rowid (work sev) = Z.max 0 (case_events_seq db)).
  { rewrite Wev, V6, Wch. unfold last_rowid, largest_event_id. simpl.
    rewrite Wc'. reflexivity. }
  assert (Hcount : Z.of_nat (List.length (written_event_tags ev cases))
                   = events_per_run).
  { rewrite (written_event_tags_skeleton _ _ _ Hsk).
    rewrite (written_event_tags_blocks _ _ _ Hcases).
    apply case_blocks_event_count. }
  eapply completes_bind.
  { apply runs_create_case_events; [| congruence |].
    - rewrite Wev, V6. exact Hich.
    - rewrite Hlast, Hcount. unfold sequence_has_room in Hroom.
      unfold events_per_run, max_rowid in *. lia. }
  intros [] se Fe Re Te (erows & sq & We & Htags & Hlast').
  rewrite Hlast, Hcount in Hlast'.
  rewrite Wev, V6, Wch in We. simpl in We. rewrite Eev in We. simpl in We.
  assert (Hie : initialized (work se) = true)
    by (rewrite We; simpl; exact Hic).
  skip_print p7 V7.
  (* statistics *)
  eapply completes_bind; [apply runs_update_customer_statistics; congruence |].
  intros [] su Fu Ru Tu (urows & Wu & Huid & Htot).
  rewrite V7, We in Wu, Huid, Htot. simpl in Wu, Huid.
  (* commit and summary *)
  eapply completes_bind; [apply runs_commit |]. intros [] sf Ff Rf Tf [Wf Df].
  eapply completes_bind; [apply runs_query |]. intros n1 q1 _ _ _ [_ [Wq1 Dq1]].
  eapply completes_bind; [apply runs_query |]. intros n2 q2 _ _ _ [_ [Wq2 Dq2]].
  skip_print e1 X1. skip_print e2 X2. skip_print e3 X3. skip_print e4 X4.
  skip_print e5 X5. skip_print e6 X6. skip_print e7 X7. skip_print e8 X8.
  skip_print e9 X9. skip_print e10 X10. skip_print e11 X11. skip_print e12 X12.
  apply completes_close. cbn [disk].
  assert (Dend : disk e12 = Some (work su)) by congruence.
  exists (work su). split; [exact Dend |].
  split; [rewrite Wu; simpl; rewrite Wc'; reflexivity |].
  split; [rewrite Wu, <- Hlast', We; reflexivity |].
  rewrite Wu.
  constructor; simpl.
  - exact Hm.
  - rewrite Huid. exact Hcu.
  - intros r Hr. rewrite (Htot r Hr).
    + reflexivity.
    + rewrite <- Hcu, <- Huid. now apply in_map.
  - exists c0, nrows, rows. repeat split; auto.
    + unfold tx_ids_below in *. simpl. rewrite Wb in Hidsb. simpl in Hidsb.
      rewrite Hc1 in Hidsb. exact Hidsb.
  - exact Hcases.
  - exact Hcb.
  - rewrite Htags. apply written_event_tags_skeleton. exact Hsk.
  - exists nrows, rows. split; [reflexivity |].
    split; [symmetry; exact (Forall2_length Hrows) |].
    split; [exact Hord | split; [exact Hlen | exact Hper]].
Qed.

(** ** A run on a store whose sequence of event ids is used up *)

Lemma keeps_disk_create_merchants : keeps_disk create_merchants.
Proof.
  unfold create_merchants. apply keeps_disk_for_each.
  intros [[[id name] bank] rate]. repeat keeps_disk_step.
Qed.

Lemma keeps_disk_create_customers : keeps_disk create_customers.
Proof.
  unfold create_customers. apply keeps_disk_for_each.
  intros [[[id name] email] region]. repeat keeps_disk_step.
Qed.

Lemma keeps_disk_create_normal_transactions (c : nat) :
  keeps_disk (create_normal_transactions c).
Proof.
  unfold create_normal_transactions. apply keeps_disk_for_fold.
  intros [[[id name] email] region] counter.
  apply keeps_disk_bind; [apply keeps_disk_randint |]. intros n.
  apply keeps_disk_for_fold. intros _ k.
  unfold normal_transaction. cbv zeta. repeat keeps_disk_step.
Qed.

Lemma keeps_disk_create_chargeback_cases (c : nat) :
  keeps_disk (create_chargeback_cases c).
Proof.
  unfold create_chargeback_cases. apply keeps_disk_for_fold.
  intros b [k cases]. unfold case_block. cbv zeta.
  repeat keeps_disk_step.
Qed.

Lemma keeps_disk_insert_all_chargebacks (cases : list Case.dict) :
  keeps_disk (insert_all_chargebacks cases).
Proof.
  unfold insert_all_chargebacks. apply keeps_disk_for_each.
  intros c. repeat keeps_disk_step.
Qed.

(** On an initialized store whose sequence has no room for the events of a
    run, the generator clears the tables, commits, writes merchants,
    customers, transactions and chargebacks, and stops at the INSERT into
    [case_events] for which no id is left: the file holds the cleared
    store. *)
Lemma seed_database_cases_full (st : St) (db : Db) :
  disk st = Some db ->
  initialized db = true ->
  ~ sequence_has_room db ->
  fails seed_database_cases (connected st) database_full
        (fun st' => disk st' = Some (cleared db)).
Proof.
  intros Hdisk Hinit Hfull.
  assert (W00 : work (connected st) = db)
    by (unfold connected; simpl; now rewrite Hdisk).
  assert (H0 : initialized (work (connected st)) = true)
    by (unfold connected; simpl; rewrite Hdisk; exact Hinit).
  assert (F0 : foreign_keys (connected st) = false) by reflexivity.
  unfold seed_database_cases.
  eapply fails_bind; [apply runs_connect_again |]. intros [] s0 _ _ _ ->.
  skip_print p1 V1. skip_print p2 V2.
  assert (Hi1 : initialized (work p2) = true) by congruence.
  (* clearing *)
  eapply fails_bind; [apply runs_clear_existing_data; exact Hi1 |].
  intros [] sc Fc Rc Tc [Wc Dc].
  next_state Hi1 Tc Hic.
  assert (Wc' : work sc = cleared db) by congruence.
  rewrite Wc' in Dc.
  destruct (emptied_cleared db) as (Ecu & Eme & Etx & Ecb & Eev).
  rewrite <- Wc' in Ecu, Eme, Etx, Ecb, Eev.
  skip_print p3 V3.
  (* merchants *)
  eapply fails_bind.
  { apply runs_keeps_disk;
      [apply runs_create_merchants; congruence | apply keeps_disk_create_merchants]. }
  intros [] sm Fm Rm Tm [(mrows & Wm & Hm) Dm].
  rewrite V3 in Wm.
  assert (Him : initialized (work sm) = true)
    by (rewrite Wm; simpl; exact Hic).
  skip_print p4 V4.
  (* customers *)
  eapply fails_bind.
  { apply runs_keeps_disk; [| apply keeps_disk_create_customers].
    apply runs_create_customers; [congruence |]. rewrite V4, Wm. exact Ecu. }
  intros [] scu Fcu Rcu Tcu [(crows & Wcu & Hcu) Dcu].
  rewrite V4, Wm in Wcu. simpl in Wcu.
  assert (Hicu : initialized (work scu) = true)
    by (rewrite Wcu; simpl; exact Hic).
  (* ordinary transactions *)
  eapply fails_bind.
  { apply runs_keeps_disk; [| apply keeps_disk_create_normal_transactions].
    apply runs_create_normal_transactions; [exact Hicu | congruence | lia |].
    unfold tx_ids_below. rewrite Wcu. simpl. rewrite Etx. reflexivity. }
  intros c0 sn Fn Rn Tn [(Hc0 & Hidsn & nrows & Wn) Dn].
  rewrite Wcu in Wn. simpl in Wn. rewrite Etx in Wn. simpl in Wn.
  assert (Hin : initialized (work sn) = true)
    by (rewrite Wn; simpl; exact Hic).
  skip_print p5 V5.
  (* case blocks *)
  eapply fails_bind.
  { apply runs_keeps_disk; [| apply keeps_disk_create_chargeback_cases].
    apply runs_create_chargeback_cases; [congruence | congruence | exact Hc0 |].
    rewrite V5. exact Hidsn. }
  intros [c1 cases] sb Fb Rb Tb
         [(Hc1 & Hidsb & rows & Wb & Hrows & Hrid & Hcases & Hcid) Db].
  simpl in Hc1, Hidsb, Hcases, Hcid. cbv zeta. simpl snd.
  rewrite V5, Wn in Wb. simpl in Wb.
  assert (Hib : initialized (work sb) = true)
    by (rewrite Wb; simpl; exact Hic).
  (* chargebacks *)
  eapply fails_bind.
  { apply runs_keeps_disk; [| apply keeps_disk_insert_all_chargebacks].
    apply runs_insert_all_chargebacks; [exact Hib | congruence | |].
    - rewrite Wb. simpl. exact Ecb.
    - rewrite (block_case_ids _ _ Hcases). apply case_blocks_ids_NoDup. }
  intros [] sch Fch Rch Tch [(cbrows & Wch & Hcb) Dch].
  rewrite Wb in Wch. simpl in Wch.
  assert (Hich : initialized (work sch) = true)
    by (rewrite Wch; simpl; exact Hic).
  skip_print p6 V6.
  (* evidence *)
  eapply fails_bind; [apply runs_eval_evidence; apply case_evidence_dates_ok |].
  intros ev sev Fev Rev Tev [[Wev Dev] Hsk].
  (* events *)
  assert (Hlast : last_rowid (work sev) = Z.max 0 (case_events_seq db)).
  { rewrite Wev, V6, Wch. unfold last_rowid, largest_event_id. simpl.
    rewrite Wc'. reflexivity. }
  assert (Hcount : Z.of_nat (List.length (written_event_tags ev cases))
                   = events_per_run).
  { rewrite (written_event_tags_skeleton _ _ _ Hsk).
    rewrite (written_event_tags_blocks _ _ _ Hcases).
    apply case_blocks_event_count. }
  apply fails_first.
  destruct (raises_keeps_disk (create_case_events ev cases) sev database_full)
    as (stf & Ef & Df).
  - apply raises_create_case_events.
    + rewrite Wev, V6. exact Hich.
    + congruence.
    + intros E. rewrite E in Hcount. discriminate Hcount.
    + rewrite Hlast, Hcount. unfold sequence_has_room in Hfull. lia.
  - apply keeps_disk_create_case_events.
  - exists stf. split; [exact Ef |]. congruence.
Qed.
(** ** The run of [seed_database] *)

Lemma seed_database_run (st : St) (db : Db) :
  disk st = Some db ->
  initialized db = true ->
  sequence_has_room db ->
  exists cases st' db',
    seed_database_cases st = Ok cases st'
    /\ seed_database st = Ok tt st'
    /\ disk st' = Some db'
    /\ initialized db' = true
    /\ last_rowid db' = Z.max 0 (case_events_seq db) + events_per_run
    /\ seeded cases db'.
Proof.
  intros Hdisk Hinit Hroom.
  destruct (seed_database_cases_runs st db Hdisk Hinit Hroom)
    as (cases & st' & E & db' & Hd & Ht & Hl & Hs).
  rewrite <- seed_database_cases_connected in E.
  exists cases, st', db'. split; [exact E |].
  split; [| split; [exact Hd | split; [| split; [exact Hl | exact Hs]]]].
  - unfold seed_database, bind, db_path_exists. rewrite Hdisk, E. reflexivity.
  - rewrite (initialized_same _ _ Ht). exact Hinit.
Qed.

(** The run of [seed_database] when the sequence of event ids has no room. *)
Lemma seed_database_full (st : St) (db : Db) :
  disk st = Some db ->
  initialized db = true ->
  ~ sequence_has_room db ->
  exists st',
    seed_database st = Raise database_full st'
    /\ disk st' = Some (cleared db).
Proof.
  intros Hdisk Hinit Hfull.
  destruct (seed_database_cases_full st db Hdisk Hinit Hfull)
    as (st' & E & D).
  rewrite <- seed_database_cases_connected in E.
  exists st'. split; [| exact D].
  unfold seed_database, bind, db_path_exists. rewrite Hdisk, E. reflexivity.
Qed.

Lemma fresh_db_has_room : sequence_has_room fresh_db.
Proof. unfold sequence_has_room. vm_compute. discriminate. Qed.

(** The five deletions and the commit, on a connection that does not enforce
    the foreign keys. *)
Lemma clear_existing_data_ok (st : St) :
  initialized (work st) = true ->
  foreign_keys st = false ->
  clear_existing_data st
  = Ok tt {| disk := Some (cleared (work st)); work := cleared (work st);
             foreign_keys := false; rand := rand st; pos := pos st;
             out := out st |}.
Proof.
  intros Hi Hf.
  assert (H1 : has_table (work st) "case_events" = true) by table_ok.
  assert (H2 : has_table (work st) "chargebacks" = true) by table_ok.
  assert (H3 : has_table (work st) "transactions" = true) by table_ok.
  assert (H4 : has_table (work st) "customers" = true) by table_ok.
  assert (H5 : has_table (work st) "merchants" = true) by table_ok.
  destruct st as [d w f r p o]. unfold has_table in *. simpl in *. subst f.
  unfold clear_existing_data, bind, execute, commit.
  unfold delete_case_events, has_table. simpl. rewrite H1. simpl.
  unfold delete_chargebacks, has_table. simpl. rewrite H2. simpl.
  unfold delete_transactions, has_table. simpl. rewrite H3. simpl.
  unfold delete_customers, has_table. simpl. rewrite H4. simpl.
  unfold delete_merchants, has_table. simpl. rewrite H5. simpl.
  reflexivity.
Qed.

Lemma bind_clear_existing_data {A} (k : unit -> M A) (st : St) :
  initialized (work st) = true ->
  foreign_keys st = false ->
  bind clear_existing_data k st
  = k tt {| disk := Some (cleared (work st)); work := cleared (work st);
            foreign_keys := false; rand := rand st; pos := pos st;
            out := out st |}.
Proof.
  intros Hi Hf. apply bind_ok. now apply clear_existing_data_ok.
Qed.

Lemma cleared_idempotent (db : Db) : cleared (cleared db) = cleared db.
Proof. reflexivity. Qed.

Lemma initialized_cleared (db : Db) : initialized (cleared db) = initialized db.
Proof. reflexivity. Qed.

Lemma seed_database_on_file (st : St) (db : Db) :
  disk st = Some db ->
  seed_database st = (seed_database_cases ;; ret tt) st.
Proof.
  intros Hdisk. unfold seed_database. unfold bind at 1. unfold db_path_exists.
  now rewrite Hdisk.
Qed.

(** What a run does depends on the file through its tables, its indexes and
    its [sqlite_sequence] entry only: the rows that the file held have no
    effect. *)
Lemma seed_database_cases_forgets_rows (st : St) (db : Db) :
  disk st = Some db ->
  initialized db = true ->
  seed_database_cases st
  = seed_database_cases (set_disk st (Some (cleared db))).
Proof.
  intros Hdisk Hinit.
  unfold seed_database_cases. rewrite !bind_connect, !bind_print.
  rewrite bind_clear_existing_data;
    [| unfold connected; cbn [work disk]; rewrite Hdisk; exact Hinit
     | reflexivity ].
  symmetry.
  rewrite bind_clear_existing_data;
    [| unfold connected; cbn [work disk set_disk]; exact Hinit
     | reflexivity ].
  unfold connected. cbn [work disk foreign_keys rand pos out set_disk].
  rewrite Hdisk. reflexivity.
Qed.

Lemma seed_database_forgets_rows (st : St) (db : Db) :
  disk st = Some db ->
  initialized db = true ->
  seed_database st = seed_database (set_disk st (Some (cleared db))).
Proof.
  intros Hdisk Hinit.
  rewrite (seed_database_on_file st db Hdisk).
  rewrite (seed_database_on_file (set_disk st (Some (cleared db))) (cleared db)
             eq_refl).
  unfold bind.
  now rewrite (seed_database_cases_forgets_rows st db Hdisk Hinit).
Qed.

(** On a file that lacks a table, the clearing raises at the first DELETE
    that names a missing table, before anything is committed. *)
Lemma clear_existing_data_missing (st : St) (t : string) :
  foreign_keys st = false ->
  first_missing (work st) delete_order = Some t ->
  exists st',
    clear_existing_data st = Raise (no_such_table t) st'
    /\ disk st' = disk st /\ out st' = out st.
Proof.
  intros Hf Hm. destruct st as [d w f r p o]. simpl in Hf, Hm. subst f.
  unfold first_missing, delete_order in Hm. cbn [find] in Hm.
  unfold clear_existing_data, bind, execute, commit. cbn [work foreign_keys].
  unfold delete_case_events.
  destruct (has_table w "case_events") eqn:H1; cbn [negb] in *;
    [| injection Hm as <-; eexists; repeat split ].
  unfold set_work. cbn [work foreign_keys disk rand pos out].
  unfold delete_chargebacks. cbn [andb].
  change (has_table (set_case_events w [] (case_events_seq w)) "chargebacks")
    with (has_table w "chargebacks").
  destruct (has_table w "chargebacks") eqn:H2; cbn [negb] in *;
    [| injection Hm as <-; eexists; repeat split ].
  unfold delete_transactions. cbn [andb work foreign_keys].
  change (has_table (set_chargebacks (set_case_events w [] (case_events_seq w)) [])
            "transactions")
    with (has_table w "transactions").
  destruct (has_table w "transactions") eqn:H3; cbn [negb] in *;
    [| injection Hm as <-; eexists; repeat split ].
  unfold delete_customers. cbn [andb work foreign_keys].
  change (has_table
            (set_transactions
               (set_chargebacks (set_case_events w [] (case_events_seq w)) []) [])
            "customers")
    with (has_table w "customers").
  destruct (has_table w "customers") eqn:H4; cbn [negb] in *;
    [| injection Hm as <-; eexists; repeat split ].
  unfold delete_merchants. cbn [andb work foreign_keys].
  change (has_table
            (set_customers
               (set_transactions
                  (set_chargebacks (set_case_events w [] (case_events_seq w)) [])
                  []) [])
            "merchants")
    with (has_table w "merchants").
  destruct (has_table w "merchants") eqn:H5; cbn [negb] in *;
    [discriminate Hm | injection Hm as <-; eexists; repeat split ].
Qed.

(** The generator on such a file: the two announcements, then the error of
    the first DELETE whose table is missing; the file is as it was. *)
Lemma seed_database_missing_table (st : St) (db : Db) (t : string) :
  disk st = Some db ->
  first_missing db delete_order = Some t ->
  exists st',
    seed_database st = Raise (no_such_table t) st'
    /\ disk st' = Some db
    /\ out st' = (out st ++ [Line "Seeding database with synthetic data...";
                             Line "Clearing existing data..."])%list.
Proof.
  intros Hdisk Hm.
  destruct (clear_existing_data_missing
              {| disk := disk st; work := db; foreign_keys := false;
                 rand := rand st; pos := pos st;
                 out := ((out st ++ [Line "Seeding database with synthetic data..."])
                         ++ [Line "Clearing existing data..."])%list |}
              t eq_refl Hm) as (st' & E & Hd & Ho).
  exists st'. split; [| split].
  - rewrite (seed_database_on_file st db Hdisk).
    apply bind_raise. unfold seed_database_cases.
    rewrite bind_connect, !bind_print. apply bind_raise.
    unfold connected. cbn [disk work foreign_keys rand pos out].
    rewrite Hdisk in E |- *. exact E.
  - simpl in Hd. congruence.
  - rewrite Ho. simpl. now rewrite <- app_assoc.
Qed.

(** A file that is not initialized lacks a table of the list. *)
Lemma first_missing_exists (db : Db) :
  initialized db = false ->
  exists t, first_missing db delete_order = Some t /\ In t schema_tables.
Proof.
  unfold initialized, first_missing, delete_order, schema_tables.
  cbn [forallb find].
  destruct (has_table db "case_events"); cbn [negb];
    [| intros _; eexists; split; [reflexivity | simpl; tauto] ].
  destruct (has_table db "chargebacks"); cbn [negb];
    [| intros _; eexists; split; [reflexivity | simpl; tauto] ].
  destruct (has_table db "transactions"); cbn [negb];
    [| intros _; eexists; split; [reflexivity | simpl; tauto] ].
  destruct (has_table db "customers"); cbn [negb];
    [| intros _; eexists; split; [reflexivity | simpl; tauto] ].
  destruct (has_table db "merchants"); cbn [negb];
    [| intros _; eexists; split; [reflexivity | simpl; tauto] ].
  simpl. discriminate.
Qed.

(** ** Consequences of [seeded] *)

Lemma Forall2_In_l {A B} (R : A -> B -> Prop) (l : list A) (l' : list B) (a : A) :
  Forall2 R l l' -> In a l -> exists b, In b l' /\ R a b.
Proof.
  induction 1 as [| x y l l' Hxy _ IH]; simpl; [contradiction |].
  intros [-> | Ha].
  - exists y. auto.
  - destruct (IH Ha) as (b & ? & ?). exists b. auto.
Qed.


Lemma seeded_tx_ids_NoDup (cases : list Case.dict) (db : Db) :
  seeded cases db -> NoDup (map Transactions.transaction_id (transactions db)).
Proof.
  intros [_ _ _ (c0 & normal & rows & _ & _ & Hids & _) _ _ _ _].
  rewrite Hids. apply txn_id_NoDup, seq_NoDup.
Qed.

Lemma NoDup_map_eq {A B} (f : A -> B) (l : list A) (x y : A) :
  NoDup (map f l) -> In x l -> In y l -> f x = f y -> x = y.
Proof.
  induction l as [| a l IH]; simpl; intros N Hx Hy E; [contradiction |].
  inversion N as [| ? ? Ha Nl]; subst.
  destruct Hx as [-> | Hx], Hy as [-> | Hy]; auto.
  - exfalso. apply Ha. rewrite E. now apply in_map.
  - exfalso. apply Ha. rewrite <- E. now apply in_map.
Qed.

(** A case, the block that built it and the transaction row of that block. *)
Lemma zip_blocks {B R C K} (P : B -> R -> Prop) (Q : B -> C -> Prop)
    (f : R -> K) (g : C -> K) (bs : list B) (rows : list R) (cases : list C) :
  Forall2 P bs rows -> Forall2 Q bs cases -> map f rows = map g cases ->
  forall c, In c cases ->
    exists b r, In b bs /\ In r rows /\ P b r /\ Q b c /\ f r = g c.
Proof.
  intros HP. revert cases.
  induction HP as [| b r bs rows Hbr _ IH]; intros cases HQ E c Hc;
    inversion HQ as [| ? c' ? cs Hbc HQ']; subst; simpl in *; [contradiction |].
  injection E as E1 E2. destruct Hc as [-> | Hc].
  - exists b, r. auto.
  - destruct (IH cs HQ' E2 c Hc) as (b' & r' & ? & ? & ? & ? & ?).
    exists b', r'. auto.
Qed.

Lemma seeded_case_block (cases : list Case.dict) (db : Db) (c : Case.dict) :
  seeded cases db -> In c cases ->
  exists b, In b case_blocks /\ block_case b c.
Proof.
  intros Hs Hc. destruct Hs as [_ _ _ _ Hcases _ _ _].
  clear -Hcases Hc. induction Hcases as [| b c' bs cs H _ IH];
    simpl in *; [contradiction |].
  destruct Hc as [-> | Hc].
  - exists b. auto.
  - destruct (IH Hc) as (b' & ? & ?). exists b'. auto.
Qed.

Lemma seeded_case_transaction (cases : list Case.dict) (db : Db)
    (c : Case.dict) (t : Transactions.row) :
  seeded cases db -> In c cases -> In t (transactions db) ->
  Transactions.transaction_id t = Case.transaction_id c ->
  exists b, In b case_blocks /\ block_case b c /\ block_transaction b t.
Proof.
  intros Hs Hc Ht E.
  pose proof (seeded_tx_ids_NoDup _ _ Hs) as N.
  destruct Hs as [_ _ _ (c0 & normal & rows & _ & Htx & _ & Hrows & Hrid & Hcid)
                    Hcases _ _ _].
  destruct (zip_blocks block_transaction block_case
              Transactions.transaction_id Case.transaction_id
              case_blocks rows cases Hrows Hcases
              (eq_trans Hrid (eq_sym Hcid)) c Hc)
    as (b & r & Hb & Hr & Hbr & Hbc & Hid).
  assert (Htr : t = r).
  { apply (NoDup_map_eq Transactions.transaction_id (transactions db)); auto.
    - rewrite Htx. apply in_or_app. now right.
    - congruence. }
  subst t. exists b. auto.
Qed.

Lemma seeded_chargeback_case (cases : list Case.dict) (db : Db)
    (r : Chargebacks.row) :
  seeded cases db -> In r (chargebacks db) ->
  exists c d, In c cases /\ r = chargeback_row c d.
Proof.
  intros [_ _ _ _ _ Hcb _ _] Hr.
  induction Hcb as [| c r' cs rs [d ->] _ IH]; simpl in *; [contradiction |].
  destruct Hr as [<- | Hr].
  - exists c, d. auto.
  - destruct (IH Hr) as (c' & d' & ? & ?). exists c', d'. auto.
Qed.

(** With transaction ids that are keys, the join of the generator's query
    has one row for each chargeback whose transaction is stored. *)
Lemma filter_none {A} (f : A -> bool) (l : list A) :
  (forall x, In x l -> f x = false) -> filter f l = [].
Proof.
  induction l as [| a l IH]; simpl; intros H; [reflexivity |].
  rewrite (H a) by now left. apply IH. intros x Hx. apply H. now right.
Qed.

Lemma filter_key_length {A} (key : A -> string) (p : A -> bool) (k : string)
    (l : list A) :
  NoDup (map key l) ->
  List.length (filter (fun t => String.eqb k (key t) && p t) l)
  = if existsb (fun t => String.eqb (key t) k && p t) l then 1%nat else 0%nat.
Proof.
  induction l as [| a l IH]; simpl; intros N; [reflexivity |].
  inversion N as [| ? ? Ha Nl]; subst.
  rewrite (String.eqb_sym k (key a)).
  destruct (String.eqb (key a) k) eqn:E; simpl.
  - apply String.eqb_eq in E. subst k.
    assert (Hnone : forall q : A -> bool,
               filter (fun t => String.eqb (key a) (key t) && q t) l = []).
    { intros q. apply filter_none. intros t Ht.
      destruct (String.eqb (key a) (key t)) eqn:E'; [| reflexivity].
      apply String.eqb_eq in E'. exfalso. apply Ha. rewrite E'.
      now apply in_map. }
    assert (Hex : forall q : A -> bool,
               existsb (fun t => String.eqb (key t) (key a) && q t) l = false).
    { intros q. apply not_true_is_false. intros Hq.
      apply existsb_exists in Hq. destruct Hq as (t & Ht & Hq).
      apply andb_prop in Hq. destruct Hq as [Hq _].
      apply String.eqb_eq in Hq. apply Ha. rewrite <- Hq. now apply in_map. }
    destruct (p a); simpl.
    + now rewrite Hnone.
    + now rewrite Hnone, Hex.
  - apply IH, Nl.
Qed.

Lemma filter_filter_map_length {A B} (f g : B -> bool) (h : A -> B) (l : list A) :
  List.length (filter g (filter f (map h l)))
  = List.length (filter (fun x => f (h x) && g (h x)) l).
Proof.
  induction l as [| a l IH]; simpl; [reflexivity |].
  destruct (f (h a)); simpl; [| exact IH].
  destruct (g (h a)); simpl; now rewrite IH.
Qed.

Lemma count_chargebacks_of_customer_spec (db : Db) (cid : string) :
  NoDup (map Transactions.transaction_id (transactions db)) ->
  count_chargebacks_of_customer cid db
  = Z.of_nat (List.length (chargebacks_of_customer db cid)).
Proof.
  intros N. unfold count_chargebacks_of_customer, chargebacks_join_transactions,
    chargebacks_of_customer.
  f_equal. induction (chargebacks db) as [| c cs IH]; [reflexivity |].
  cbn [list_prod]. rewrite !filter_app, length_app, IH.
  rewrite filter_filter_map_length. cbn [fst snd filter].
  rewrite (filter_key_length Transactions.transaction_id
             (fun t => String.eqb (Transactions.customer_id t) cid)
             (Chargebacks.transaction_id c) (transactions db) N).
  destruct (existsb _ (transactions db)); reflexivity.
Qed.

(* ================================================================= *)
(** * The claims *)

(** ** Schema definition *)

(** A connection opened as [seed_database] opens its own, with
    [sqlite3.connect] and no pragma, accepts a transaction whose customer or
    merchant is missing; a connection opened as [init_database] opens its
    own, with the pragma, refuses it and leaves the table as it is. *)
Lemma connection_without_pragma_accepts (st : St) (db : Db)
    (r : Transactions.row) :
  disk st = Some db ->
  has_table db "transactions" = true ->
  transaction_exists db (Transactions.transaction_id r) = false ->
  (connect ;; execute (insert_transaction r)) st
  = Ok tt (set_work (connected st)
             (set_transactions db (transactions db ++ [r]))).
Proof.
  intros Hdisk Ht Hx. rewrite bind_connect.
  rewrite insert_transaction_fk_off;
    unfold connected; cbn [work disk foreign_keys]; rewrite ?Hdisk; auto.
Qed.

Lemma connection_with_pragma_refuses (st : St) (db : Db)
    (r : Transactions.row) :
  disk st = Some db ->
  has_table db "transactions" = true ->
  transaction_exists db (Transactions.transaction_id r) = false ->
  customer_exists db (Transactions.customer_id r)
    && merchant_exists db (Transactions.merchant_id r) = false ->
  exists st',
    (connect ;; pragma_foreign_keys_on ;; execute (insert_transaction r)) st
    = Raise fk_failed st'
    /\ work st' = db /\ disk st' = Some db.
Proof.
  intros Hdisk Ht Hx Hp. rewrite bind_connect. unfold bind at 1.
  unfold pragma_foreign_keys_on, connected. cbn [work disk foreign_keys].
  rewrite Hdisk. eexists. split.
  - apply insert_transaction_fk_enforced; cbn [work foreign_keys]; auto.
  - split; reflexivity.
Qed.

(** C1 (violated by the code): referential integrity is not enforced on the
    connections that the generator opens.  On the store that [init_database]
    has created and [seed_database] has filled, a new connection opened as
    [seed_database] opens its own ([sqlite3.connect], no pragma) accepts a
    transaction whose customer [cust_999] does not exist: the table gains a
    row.  A connection opened as [init_database] opens its own, with the
    pragma, refuses the same insert and the table is unchanged. *)
Theorem C1_generator_connection_accepts_orphan :
  exists st1 db1,
    seed_database fresh_store = Ok tt st1
    /\ disk st1 = Some db1
    /\ customer_exists db1 "cust_999" = false
    /\ (exists st2,
          (connect ;; execute (insert_transaction orphan_transaction)) st1
          = Ok tt st2
          /\ count_rows "transactions" (work st2)
             = count_rows "transactions" db1 + 1)
    /\ (exists st2,
          (connect ;; pragma_foreign_keys_on ;;
           execute (insert_transaction orphan_transaction)) st1
          = Raise fk_failed st2
          /\ work st2 = db1).
Proof.
  destruct (seed_database_run fresh_store fresh_db eq_refl eq_refl
              fresh_db_has_room)
    as (cases & st1 & db1 & _ & E & Hd & Hi & _ & Hs).
  assert (Ht : has_table db1 "transactions" = true)
    by (apply initialized_has_table; [exact Hi | simpl; tauto]).
  assert (Hx : transaction_exists db1
                 (Transactions.transaction_id orphan_transaction) = false).
  { destruct Hs as [_ _ _ (c0 & normal & rows & _ & _ & Hids & _) _ _ _ _].
    rewrite transaction_exists_map, Hids.
    change (Transactions.transaction_id orphan_transaction) with (txn_id 0).
    apply txn_id_fresh. rewrite in_seq. lia. }
  assert (Hc : customer_exists db1 "cust_999" = false).
  { unfold customer_exists. apply existsb_fresh_key.
    rewrite (seeded_customers _ _ Hs). simpl. intuition discriminate. }
  exists st1, db1. split; [exact E |]. split; [exact Hd |].
  split; [exact Hc |]. split.
  - eexists. split.
    + apply (connection_without_pragma_accepts st1 db1); assumption.
    + unfold count_rows. simpl. rewrite length_app. simpl. lia.
  - destruct (connection_with_pragma_refuses st1 db1 orphan_transaction
                Hd Ht Hx) as (st2 & E2 & W2 & _).
    + change (Transactions.customer_id orphan_transaction) with "cust_999".
      now rewrite Hc.
    + exists st2. split; [exact E2 | exact W2].
Qed.

(** The claim C2 fails where a store with data exists: [init_database]
    returns normally and the data are gone. *)
Lemma C2_counterexample : ~ refuses_to_overwrite small_store.
Proof. intros [H _]. vm_compute in H. discriminate H. Qed.

(** C2 (as amended): when the store exists, [init_database] announces its
    removal, removes it without asking for any confirmation and creates a
    new, empty one; it does not fail, and what the store held is lost. *)
Theorem C2_init_database_replaces_store (st : St) (db : Db) :
  disk st = Some db ->
  exists st',
    init_database st = Ok tt st'
    /\ disk st' = Some fresh_db
    /\ In (Line "Removing existing database") (out st').
Proof.
  intros Hdisk. destruct st as [d w f r p o]. simpl in Hdisk. subst d.
  exists (state_of (init_database
            {| disk := Some db; work := w; foreign_keys := f;
               rand := r; pos := p; out := o |})).
  split; [cbv; reflexivity |].
  split; [cbv; reflexivity |].
  cbv -[In].
  repeat match goal with
         | |- In ?x (?f o ?m) => apply (in_or_app o m x); right; left; reflexivity
         | |- In ?x (?f ?l ?m) => apply (in_or_app l m x); left
         end.
Qed.

Lemma C2_witness :
  disk small_store = Some small_db
  /\ exists st',
       init_database small_store = Ok tt st'
       /\ disk st' = Some fresh_db
       /\ In (Line "Removing existing database") (out st').
Proof.
  split; [reflexivity |].
  apply (C2_init_database_replaces_store small_store small_db). reflexivity.
Defined.

(** The claim C3 fails: with foreign keys enforced, a second chargeback on
    transaction [txn_0001] is accepted. *)
Lemma C3_counterexample :
  ~ one_chargeback_per_transaction true small_db
      (plain_chargeback "cb_002" "txn_0001" (dec 100 0)).
Proof.
  intros H. destruct H as [msg Hmsg]; [reflexivity |].
  vm_compute in Hmsg. discriminate Hmsg.
Qed.

(** C3 (as amended): the storage boundary enforces the primary key of
    [chargebacks], not one chargeback per transaction. A chargeback whose
    [chargeback_id] is in use is rejected with a constraint violation and the
    state is as before; a chargeback with a new id whose transaction exists
    is accepted, whether or not that transaction already has a chargeback. *)
Theorem C3_chargeback_primary_key_only (st : St) (r : Chargebacks.row) :
  has_table (work st) "chargebacks" = true ->
  (chargeback_exists (work st) (Chargebacks.chargeback_id r) = true ->
   execute (insert_chargeback r) st
   = Raise (unique_failed "chargebacks.chargeback_id") st)
  /\ (chargeback_exists (work st) (Chargebacks.chargeback_id r) = false ->
      transaction_exists (work st) (Chargebacks.transaction_id r) = true ->
      execute (insert_chargeback r) st
      = Ok tt (set_work st (set_chargebacks (work st)
                              (chargebacks (work st) ++ [r])))).
Proof.
  intros Ht. unfold execute, insert_chargeback. rewrite Ht. simpl. split.
  - intros Hx. rewrite Hx. reflexivity.
  - intros Hx Htx. rewrite Hx, Htx, andb_false_r. reflexivity.
Qed.

Lemma C3_witness :
  let st := connected small_store in
  has_table (work st) "chargebacks" = true
  /\ execute (insert_chargeback (plain_chargeback "cb_001" "txn_0001" (dec 100 0))) st
     = Raise (unique_failed "chargebacks.chargeback_id") st
  /\ execute (insert_chargeback (plain_chargeback "cb_002" "txn_0001" (dec 100 0))) st
     = Ok tt (set_work st
                (set_chargebacks (work st)
                   (chargebacks (work st)
                    ++ [plain_chargeback "cb_002" "txn_0001" (dec 100 0)]))).
Proof.
  intros st. split; [reflexivity |]. split.
  - apply (C3_chargeback_primary_key_only st
             (plain_chargeback "cb_001" "txn_0001" (dec 100 0))); reflexivity.
  - apply (C3_chargeback_primary_key_only st
             (plain_chargeback "cb_002" "txn_0001" (dec 100 0))); reflexivity.
Defined.

(** ** Reporting layer *)

(** C4 (violated by the code): on the initialized, empty store the report
    prints the five row counts, the two empty listings and the three counts
    of the transaction summary, then fails on the total amount: [SUM] of no
    row is NULL, and [None] has no format [,.2f]. The chargeback summary, the
    event-type frequencies and the risk statistics are never reached. *)
Theorem C4_view_database_fails_on_empty_store :
  exists st',
    view_database fresh_store
    = Raise (TypeError "unsupported format string passed to NoneType.__format__") st'
    /\ skipn (List.length (out fresh_store)) (out st')
       = [ Line "CHARGEBACK SYSTEM DATABASE OVERVIEW";
           Line "Database Summary:"; Line "Location: chargeback_system.db";
           Line "Size: (bytes of the file)"; Line "Table Counts:";
           LineCount "customers" 0; LineCount "merchants" 0;
           LineCount "transactions" 0; LineCount "chargebacks" 0;
           LineCount "case_events" 0;
           Line "CUSTOMERS"; Line "No customers found.";
           Line "MERCHANTS"; Line "No merchants found.";
           Line "TRANSACTIONS SUMMARY";
           LineInt "Total Transactions" 0; LineInt "Unique Customers" 0;
           LineInt "Unique Merchants" 0 ].
Proof.
  exists (state_of (view_database fresh_store)).
  split; vm_compute; reflexivity.
Qed.

(** ** Case record generator *)

Lemma case_blocks_score_margin : score_margin_ok case_blocks = true.
Proof. vm_compute. reflexivity. Qed.

Lemma case_blocks_outcome_pairing : forallb outcome_pairing_ok case_blocks = true.
Proof. vm_compute. reflexivity. Qed.

Lemma case_blocks_merchant_error : forallb merchant_error_ok case_blocks = true.
Proof. vm_compute. reflexivity. Qed.

Lemma case_blocks_known_category : forallb known_category case_blocks = true.
Proof. vm_compute. reflexivity. Qed.

Lemma case_blocks_have_events (a b : string) :
  forallb (has_events (case_evidence_display a b)) case_blocks = true.
Proof. vm_compute. reflexivity. Qed.

(** The transaction of every case is stored. *)
Lemma seeded_transaction_of (cases : list Case.dict) (db : Db) (c : Case.dict) :
  seeded cases db -> In c cases ->
  exists t, transaction_of db (Case.transaction_id c) = Some t.
Proof.
  intros Hs Hc. unfold transaction_of.
  destruct (find _ (transactions db)) as [t |] eqn:E; [now exists t |].
  exfalso.
  destruct Hs as [_ _ _ (c0 & normal & rows & _ & Htx & _ & _ & Hrid & Hcid) _ _ _ _].
  assert (Hin : In (Case.transaction_id c) (map Transactions.transaction_id rows)).
  { rewrite Hrid, <- Hcid. now apply in_map. }
  apply in_map_iff in Hin. destruct Hin as (r & Hr & Hin).
  pose proof (find_none _ _ E r) as Hn. simpl in Hn.
  rewrite Hr, String.eqb_refl in Hn.
  discriminate Hn. rewrite Htx. apply in_or_app. now right.
Qed.

(** The run has cases of both categories. *)
Lemma category_block (ft : string) :
  existsb (fun b => String.eqb (cb_fraud_type b) ft) case_blocks = true ->
  forall cases, Forall2 block_case case_blocks cases ->
    exists c, In c cases /\ Case.fraud_type c = ft.
Proof.
  intros H cases Hc. apply existsb_exists in H. destruct H as (b & Hb & Hf).
  apply String.eqb_eq in Hf.
  destruct (Forall2_In_l _ _ _ b Hc Hb) as (c & Hin & Hbc).
  exists c. split; [exact Hin |].
  destruct Hbc as (_ & _ & _ & _ & _ & G). congruence.
Qed.

(** C5: in every run of the generator on an initialized store whose
    sequence of event ids has room for the run, the file holds afterwards
    the transaction of each case; there are true-fraud and not-guilty cases,
    and the fraud score stored for the transaction of a true-fraud case
    exceeds, by at least 50 points, the fraud score stored for the
    transaction of each not-guilty case. *)
Theorem C5_true_fraud_score_margin (st : St) (db : Db) :
  disk st = Some db ->
  initialized db = true ->
  sequence_has_room db ->
  exists cases st' db',
    seed_database_cases st = Ok cases st'
    /\ seed_database st = Ok tt st'
    /\ disk st' = Some db'
    /\ (exists c1, In c1 cases /\ Case.fraud_type c1 = "true_fraud")
    /\ (exists c2, In c2 cases /\ Case.fraud_type c2 = "not_guilty")
    /\ forall c1 c2,
         In c1 cases -> In c2 cases ->
         Case.fraud_type c1 = "true_fraud" ->
         Case.fraud_type c2 = "not_guilty" ->
         exists t1 t2 s1 s2,
           transaction_of db' (Case.transaction_id c1) = Some t1
           /\ transaction_of db' (Case.transaction_id c2) = Some t2
           /\ Transactions.fraud_score t1 = Some s1
           /\ Transactions.fraud_score t2 = Some s2
           /\ s2 + fifty_points <= s1.
Proof.
  intros Hdisk Hinit Hroom.
  destruct (seed_database_run st db Hdisk Hinit Hroom)
    as (cases & st' & db' & E & E' & Hd & _ & _ & Hs).
  exists cases, st', db'. split; [exact E |]. split; [exact E' |].
  split; [exact Hd |].
  split; [apply category_block; [reflexivity | exact (seeded_cases _ _ Hs)] |].
  split; [apply category_block; [reflexivity | exact (seeded_cases _ _ Hs)] |].
  intros c1 c2 H1 H2 F1 F2.
  destruct (seeded_transaction_of _ _ c1 Hs H1) as (t1 & Ht1).
  destruct (seeded_transaction_of _ _ c2 Hs H2) as (t2 & Ht2).
  pose proof (find_some _ _ Ht1) as [I1 K1].
  pose proof (find_some _ _ Ht2) as [I2 K2].
  apply String.eqb_eq in K1, K2.
  destruct (seeded_case_transaction _ _ c1 t1 Hs H1 I1 K1)
    as (b1 & Hb1 & Hc1 & Hx1).
  destruct (seeded_case_transaction _ _ c2 t2 Hs H2 I2 K2)
    as (b2 & Hb2 & Hc2 & Hx2).
  exists t1, t2, (tx_fraud_score b1), (tx_fraud_score b2).
  repeat split; auto; try apply Hx1; try apply Hx2.
  pose proof case_blocks_score_margin as M. unfold score_margin_ok in M.
  rewrite forallb_forall in M. specialize (M b1 Hb1).
  rewrite forallb_forall in M. specialize (M b2 Hb2).
  destruct Hc1 as (_ & _ & _ & _ & _ & G1).
  destruct Hc2 as (_ & _ & _ & _ & _ & G2).
  rewrite <- G1, <- G2, F1, F2 in M. simpl in M.
  apply Z.leb_le in M. exact M.
Qed.

Lemma C5_witness :
  disk small_store = Some small_db
  /\ initialized small_db = true
  /\ sequence_has_room small_db
  /\ exists cases st' db',
       seed_database_cases small_store = Ok cases st'
       /\ seed_database small_store = Ok tt st'
       /\ disk st' = Some db'
       /\ (exists c1, In c1 cases /\ Case.fraud_type c1 = "true_fraud")
       /\ (exists c2, In c2 cases /\ Case.fraud_type c2 = "not_guilty")
       /\ forall c1 c2,
            In c1 cases -> In c2 cases ->
            Case.fraud_type c1 = "true_fraud" ->
            Case.fraud_type c2 = "not_guilty" ->
            exists t1 t2 s1 s2,
              transaction_of db' (Case.transaction_id c1) = Some t1
              /\ transaction_of db' (Case.transaction_id c2) = Some t2
              /\ Transactions.fraud_score t1 = Some s1
              /\ Transactions.fraud_score t2 = Some s2
              /\ s2 + fifty_points <= s1.
Proof.
  split; [reflexivity |]. split; [reflexivity |].
  split; [vm_compute; discriminate |].
  apply (C5_true_fraud_score_margin small_store small_db);
    [reflexivity | reflexivity | vm_compute; discriminate].
Defined.

(** C6: after every run of the generator on an initialized store whose
    sequence of event ids has room for the run, the file holds for each
    customer a [total_chargebacks] that is the number of chargebacks whose
    transaction belongs to that customer, counted from the tables. *)
Theorem C6_total_chargebacks_recomputed (st : St) (db : Db) :
  disk st = Some db ->
  initialized db = true ->
  sequence_has_room db ->
  exists st' db',
    seed_database st = Ok tt st'
    /\ disk st' = Some db'
    /\ forall r,
         In r (customers db') ->
         Customers.total_chargebacks r
         = Some (Z.of_nat (List.length
                   (chargebacks_of_customer db' (Customers.customer_id r)))).
Proof.
  intros Hdisk Hinit Hroom.
  destruct (seed_database_run st db Hdisk Hinit Hroom)
    as (cases & st' & db' & _ & E & Hd & _ & _ & Hs).
  exists st', db'. split; [exact E |]. split; [exact Hd |].
  intros r Hr. rewrite (seeded_totals _ _ Hs r Hr).
  f_equal. apply count_chargebacks_of_customer_spec.
  exact (seeded_tx_ids_NoDup _ _ Hs).
Qed.

Lemma C6_witness :
  disk small_store = Some small_db
  /\ initialized small_db = true
  /\ sequence_has_room small_db
  /\ exists st' db',
       seed_database small_store = Ok tt st'
       /\ disk st' = Some db'
       /\ forall r,
            In r (customers db') ->
            Customers.total_chargebacks r
            = Some (Z.of_nat (List.length
                      (chargebacks_of_customer db' (Customers.customer_id r)))).
Proof.
  split; [reflexivity |]. split; [reflexivity |].
  split; [vm_compute; discriminate |].
  apply (C6_total_chargebacks_recomputed small_store small_db);
    [reflexivity | reflexivity | vm_compute; discriminate].
Defined.

(** What a stored chargeback takes from the block of its case. *)
Lemma seeded_chargeback_block (cases : list Case.dict) (db : Db)
    (r : Chargebacks.row) :
  seeded cases db -> In r (chargebacks db) ->
  exists b c,
    In b case_blocks /\ In c cases /\ block_case b c
    /\ Chargebacks.chargeback_id r = Case.chargeback_id c
    /\ Chargebacks.status r = Some (cb_status b)
    /\ Chargebacks.outcome r = cb_outcome b
    /\ (Chargebacks.closed_at r = None <-> cb_closed_at b = None).
Proof.
  intros Hs Hr.
  destruct (seeded_chargeback_case _ _ r Hs Hr) as (c & d & Hc & ->).
  destruct (seeded_case_block _ _ c Hs Hc) as (b & Hb & Hbc).
  exists b, c. simpl.
  destruct Hbc as (H1 & H2 & H3 & H4 & H5 & H6).
  repeat split; auto; try congruence; apply H5.
Qed.

(** C7: every chargeback that a run of the generator leaves in the file (on
    an initialized store whose sequence of event ids has room for the run)
    has [closed_at] null exactly when [outcome] is null; both are set when
    its status is terminal ([won] or [lost]) and both are null otherwise. *)
Theorem C7_outcome_pairing (st : St) (db : Db) :
  disk st = Some db ->
  initialized db = true ->
  sequence_has_room db ->
  exists st' db',
    seed_database st = Ok tt st'
    /\ disk st' = Some db'
    /\ forall r,
         In r (chargebacks db') ->
         (Chargebacks.closed_at r = None <-> Chargebacks.outcome r = None)
         /\ (terminal (Chargebacks.status r) = true ->
             Chargebacks.closed_at r <> None /\ Chargebacks.outcome r <> None)
         /\ (terminal (Chargebacks.status r) = false ->
             Chargebacks.closed_at r = None /\ Chargebacks.outcome r = None).
Proof.
  intros Hdisk Hinit Hroom.
  destruct (seed_database_run st db Hdisk Hinit Hroom)
    as (cases & st' & db' & _ & E & Hd & _ & _ & Hs).
  exists st', db'. split; [exact E |]. split; [exact Hd |].
  intros r Hr.
  destruct (seeded_chargeback_block _ _ r Hs Hr)
    as (b & c & Hb & _ & _ & _ & Hst & Hout & Hcl).
  pose proof case_blocks_outcome_pairing as P.
  rewrite forallb_forall in P. specialize (P b Hb).
  unfold outcome_pairing_ok in P. apply andb_prop in P. destruct P as [P1 P2].
  apply Bool.eqb_prop in P1, P2.
  rewrite Hst, Hout.
  destruct (cb_outcome b) as [o |], (cb_closed_at b) as [cl |];
    simpl in P1; cbn [is_none negb] in P2; try discriminate P1;
    rewrite P2.
  - assert (Hne : Chargebacks.closed_at r <> None)
      by (intros H; apply Hcl in H; discriminate H).
    repeat split; intros; try discriminate; try contradiction; auto.
  - assert (He : Chargebacks.closed_at r = None) by (apply Hcl; reflexivity).
    repeat split; intros; try discriminate; auto.
Qed.

Lemma C7_witness :
  disk small_store = Some small_db
  /\ initialized small_db = true
  /\ sequence_has_room small_db
  /\ exists st' db',
       seed_database small_store = Ok tt st'
       /\ disk st' = Some db'
       /\ forall r,
            In r (chargebacks db') ->
            (Chargebacks.closed_at r = None <-> Chargebacks.outcome r = None)
            /\ (terminal (Chargebacks.status r) = true ->
                Chargebacks.closed_at r <> None /\ Chargebacks.outcome r <> None)
            /\ (terminal (Chargebacks.status r) = false ->
                Chargebacks.closed_at r = None /\ Chargebacks.outcome r = None).
Proof.
  split; [reflexivity |]. split; [reflexivity |].
  split; [vm_compute; discriminate |].
  apply (C7_outcome_pairing small_store small_db);
    [reflexivity | reflexivity | vm_compute; discriminate].
Defined.

Lemma event_tag_counted (db : Db) (cb_id ty : string) :
  In (cb_id, ty) (event_tags (case_events db)) ->
  (1 <= List.length (events_of_chargeback db cb_id))%nat.
Proof.
  unfold event_tags, events_of_chargeback. intros H.
  apply in_map_iff in H. destruct H as (e & He & Hin).
  injection He as He _.
  assert (Hf : In e (filter (fun e => String.eqb (CaseEvents.chargeback_id e) cb_id)
                            (case_events db))).
  { apply filter_In. split; [exact Hin |]. rewrite He. apply String.eqb_refl. }
  destruct (filter _ (case_events db)); [contradiction | simpl; lia].
Qed.

Lemma generic_event_types_two (b : CaseBlock) :
  known_category b = true ->
  List.length (generic_event_types (cb_fraud_type b)) = 2%nat.
Proof.
  unfold known_category, generic_event_types. cbn [existsb].
  rewrite !(String.eqb_sym (cb_fraud_type b)).
  repeat match goal with
         | |- context [String.eqb ?a (cb_fraud_type b)] =>
             destruct (String.eqb a (cb_fraud_type b))
         end; simpl; intros H; try reflexivity; discriminate H.
Qed.

(** The rows that the loop of the case events writes for one case without
    authored events: the two generic events of its category. *)
Lemma generic_events_written (d : list (string * list Event)) (c : Case.dict)
    (s : St) :
  dict_get d (Case.chargeback_id c) = [] ->
  List.length (generic_event_types (Case.fraud_type c)) = 2%nat ->
  initialized (work s) = true ->
  foreign_keys s = false ->
  last_rowid (work s) + 2 <= max_rowid ->
  exists s' e1 e2,
    create_case_events d [c] s = Ok tt s'
    /\ case_events (work s') = (case_events (work s) ++ [e1; e2])%list
    /\ CaseEvents.chargeback_id e1 = Case.chargeback_id c
    /\ CaseEvents.chargeback_id e2 = Case.chargeback_id c
    /\ [CaseEvents.event_type e1; CaseEvents.event_type e2]
       = generic_event_types (Case.fraud_type c).
Proof.
  intros Hd Hlen Hi Hf Hroom.
  assert (Hw : written_event_types d c = generic_event_types (Case.fraud_type c)).
  { unfold written_event_types, written_types_of, event_types.
    now rewrite Hd. }
  destruct (runs_create_case_events d [c] s Hi Hf)
    as ([] & s' & E & _ & _ & _ & rows & sq & W & Htags & _).
  { rewrite written_event_tags_one, length_map, Hw, Hlen. exact Hroom. }
  rewrite written_event_tags_one, Hw in Htags.
  destruct (generic_event_types (Case.fraud_type c)) as [| t1 [| t2 [| t3 l]]];
    try discriminate Hlen.
  destruct rows as [| e1 [| e2 [| e3 rows]]]; try discriminate Htags.
  injection Htags as H1 H1' H2 H2'.
  exists s', e1, e2. split; [exact E |].
  split; [rewrite W; reflexivity |].
  split; [exact H1 |]. split; [exact H2 |]. now rewrite H1', H2'.
Qed.

(** C8: after every run of the generator on an initialized store whose
    sequence of event ids has room for the run, each chargeback in the file
    has at least one case event in the file; and for each case of the run,
    the loop of the case events, given an evidence dict that has no events
    for it, writes two rows to [case_events]: the generic events of the
    category of the case. *)
Theorem C8_every_case_has_events (st : St) (db : Db) :
  disk st = Some db ->
  initialized db = true ->
  sequence_has_room db ->
  exists cases st' db',
    seed_database_cases st = Ok cases st'
    /\ seed_database st = Ok tt st'
    /\ disk st' = Some db'
    /\ (forall r,
          In r (chargebacks db') ->
          (1 <= List.length (events_of_chargeback db'
                               (Chargebacks.chargeback_id r)))%nat)
    /\ (forall c d s,
          In c cases ->
          dict_get d (Case.chargeback_id c) = [] ->
          initialized (work s) = true ->
          foreign_keys s = false ->
          last_rowid (work s) + 2 <= max_rowid ->
          exists s' e1 e2,
            create_case_events d [c] s = Ok tt s'
            /\ case_events (work s') = (case_events (work s) ++ [e1; e2])%list
            /\ CaseEvents.chargeback_id e1 = Case.chargeback_id c
            /\ CaseEvents.chargeback_id e2 = Case.chargeback_id c
            /\ [CaseEvents.event_type e1; CaseEvents.event_type e2]
               = generic_event_types (Case.fraud_type c)).
Proof.
  intros Hdisk Hinit Hroom.
  destruct (seed_database_run st db Hdisk Hinit Hroom)
    as (cases & st' & db' & E & E' & Hd & _ & _ & Hs).
  exists cases, st', db'. split; [exact E |]. split; [exact E' |].
  split; [exact Hd |]. split.
  - intros r Hr.
    destruct (seeded_chargeback_block _ _ r Hs Hr)
      as (b & c & Hb & Hc & Hbc & Hid & _).
    pose proof (case_blocks_have_events
                  (tx_id_of "cb7_tx_id" case_blocks cases)
                  (tx_id_of "cb21_tx_id" case_blocks cases)) as He.
    rewrite forallb_forall in He. specialize (He b Hb).
    unfold has_events in He.
    destruct Hbc as (Hcid & _ & _ & _ & _ & Hft).
    rewrite <- Hcid, <- Hft in He.
    fold (written_event_types
            (case_evidence_display (tx_id_of "cb7_tx_id" case_blocks cases)
                                   (tx_id_of "cb21_tx_id" case_blocks cases)) c)
      in He.
    destruct (written_event_types _ c) as [| ty tys] eqn:Ew;
      [discriminate He |].
    apply (event_tag_counted _ _ ty).
    rewrite (seeded_events _ _ Hs), Hid. unfold written_event_tags.
    apply in_flat_map. exists c. split; [exact Hc |].
    rewrite Ew. simpl. now left.
  - intros c d s Hc Hdict Hi Hf Hr.
    destruct (seeded_case_block _ _ c Hs Hc) as (b & Hb & Hbc).
    apply generic_events_written; auto.
    destruct Hbc as (_ & _ & _ & _ & _ & Hft). rewrite Hft.
    apply generic_event_types_two.
    pose proof case_blocks_known_category as K.
    rewrite forallb_forall in K. exact (K b Hb).
Qed.

Lemma C8_witness :
  disk small_store = Some small_db
  /\ initialized small_db = true
  /\ sequence_has_room small_db
  /\ exists cases st' db',
       seed_database_cases small_store = Ok cases st'
       /\ seed_database small_store = Ok tt st'
       /\ disk st' = Some db'
       /\ (forall r,
             In r (chargebacks db') ->
             (1 <= List.length (events_of_chargeback db'
                                  (Chargebacks.chargeback_id r)))%nat)
       /\ (forall c d s,
             In c cases ->
             dict_get d (Case.chargeback_id c) = [] ->
             initialized (work s) = true ->
             foreign_keys s = false ->
             last_rowid (work s) + 2 <= max_rowid ->
             exists s' e1 e2,
               create_case_events d [c] s = Ok tt s'
               /\ case_events (work s') = (case_events (work s) ++ [e1; e2])%list
               /\ CaseEvents.chargeback_id e1 = Case.chargeback_id c
               /\ CaseEvents.chargeback_id e2 = Case.chargeback_id c
               /\ [CaseEvents.event_type e1; CaseEvents.event_type e2]
                  = generic_event_types (Case.fraud_type c)).
Proof.
  split; [reflexivity |]. split; [reflexivity |].
  split; [vm_compute; discriminate |].
  apply (C8_every_case_has_events small_store small_db);
    [reflexivity | reflexivity | vm_compute; discriminate].
Defined.

(** The block of case 7 ("Duplicate Charge"): a merchant error left open. *)
Lemma duplicate_charge_block :
  exists b, In b case_blocks
            /\ cb_fraud_type b = "merchant_error"
            /\ cb_status b = "open".
Proof.
  destruct (find (fun b => String.eqb (cb_chargeback_id b) "cb_007") case_blocks)
    as [b |] eqn:E; [| vm_compute in E; discriminate E].
  exists b. split; [exact (proj1 (find_some _ _ E)) |].
  vm_compute in E. injection E as <-. split; reflexivity.
Qed.

Lemma seeded_open_merchant_error (cases : list Case.dict) (db : Db) :
  seeded cases db -> ~ merchant_errors_lost cases db.
Proof.
  intros Hs H.
  destruct duplicate_charge_block as (b & Hb & Hft & Hst).
  destruct (Forall2_In_l _ _ _ b (seeded_cases _ _ Hs) Hb) as (c & Hc & Hbc).
  destruct (Forall2_In_l _ _ _ c (seeded_chargebacks _ _ Hs) Hc)
    as (r & Hr & d & ->).
  destruct Hbc as (_ & _ & Hcst & _ & _ & Hcft).
  destruct (H c (chargeback_row c d) Hc) as [Hlost _]; auto; [congruence |].
  simpl in Hlost. rewrite Hcst, Hst in Hlost. discriminate Hlost.
Qed.

(** The claim C9 fails on the freshly initialized store: the run leaves in
    the file a merchant-error case whose chargeback is not [lost]. *)
Lemma C9_counterexample :
  exists cases st' db',
    seed_database_cases fresh_store = Ok cases st'
    /\ disk st' = Some db'
    /\ ~ merchant_errors_lost cases db'.
Proof.
  destruct (seed_database_run fresh_store fresh_db eq_refl eq_refl
              fresh_db_has_room)
    as (cases & st' & db' & E & _ & Hd & _ & _ & Hs).
  exists cases, st', db'. split; [exact E |]. split; [exact Hd |].
  exact (seeded_open_merchant_error _ _ Hs).
Qed.

(** C9 (as amended): after a run on an initialized store whose sequence of
    event ids has room for the run, the chargeback of a merchant-error case
    is either resolved [lost] (status and outcome [lost]: cb_021, cb_022,
    cb_023) or still [open] with no outcome and no closing date (cb_007,
    cb_008). *)
Theorem C9_merchant_error_lost_or_open (st : St) (db : Db) :
  disk st = Some db ->
  initialized db = true ->
  sequence_has_room db ->
  exists cases st' db',
    seed_database_cases st = Ok cases st'
    /\ seed_database st = Ok tt st'
    /\ disk st' = Some db'
    /\ forall c r,
         In c cases -> Case.fraud_type c = "merchant_error" ->
         In r (chargebacks db') ->
         Chargebacks.chargeback_id r = Case.chargeback_id c ->
         (In (Case.chargeback_id c) ["cb_021"; "cb_022"; "cb_023"]
          /\ Chargebacks.status r = Some "lost"
          /\ Chargebacks.outcome r = Some "lost")
         \/ (In (Case.chargeback_id c) ["cb_007"; "cb_008"]
             /\ Chargebacks.status r = Some "open"
             /\ Chargebacks.outcome r = None
             /\ Chargebacks.closed_at r = None).
Proof.
  intros Hdisk Hinit Hroom.
  destruct (seed_database_run st db Hdisk Hinit Hroom)
    as (cases & st' & db' & E & E' & Hd & _ & _ & Hs).
  exists cases, st', db'. split; [exact E |]. split; [exact E' |].
  split; [exact Hd |].
  intros c r Hc Hft Hr Hid.
  destruct (seeded_chargeback_block _ _ r Hs Hr)
    as (b' & c' & Hb' & Hc' & Hbc' & Hid' & Hst & Hout & Hcl).
  destruct (seeded_case_block _ _ c Hs Hc) as (b & Hb & Hbc).
  assert (Hbb : b' = b).
  { apply (NoDup_map_eq cb_chargeback_id case_blocks);
      [apply case_blocks_ids_NoDup | exact Hb' | exact Hb |].
    destruct Hbc as (H1 & _), Hbc' as (H1' & _). congruence. }
  subst b'.
  pose proof case_blocks_merchant_error as M.
  rewrite forallb_forall in M. specialize (M b Hb).
  unfold merchant_error_ok in M.
  destruct Hbc as (Hcid & _ & _ & _ & _ & Hcft).
  rewrite <- Hcft, Hft in M. cbn [String.eqb implb] in M.
  change (String.eqb "merchant_error" "merchant_error") with true in M.
  cbn [implb] in M. rewrite Hst, Hout, Hcid.
  destruct (existsb (String.eqb (cb_chargeback_id b)) ["cb_021"; "cb_022"; "cb_023"])
    eqn:E1.
  - left. apply andb_prop in M. destruct M as [M1 M2].
    apply String.eqb_eq in M1.
    apply existsb_exists in E1. destruct E1 as (k & Hk & Ek).
    apply String.eqb_eq in Ek. subst k.
    split; [exact Hk |]. split; [now rewrite M1 |].
    destruct (cb_outcome b) as [o |]; [| discriminate M2].
    apply String.eqb_eq in M2. now subst o.
  - right.
    repeat (apply andb_prop in M; destruct M as [M ?]).
    apply existsb_exists in M. destruct M as (k & Hk & Ek).
    apply String.eqb_eq in Ek. subst k.
    match goal with H : String.eqb (cb_status b) _ = true |- _ =>
      apply String.eqb_eq in H; rewrite H end.
    split; [exact Hk |]. split; [reflexivity |].
    destruct (cb_outcome b); [discriminate |].
    split; [reflexivity |]. apply Hcl.
    destruct (cb_closed_at b); [discriminate | reflexivity].
Qed.

Lemma C9_witness :
  disk small_store = Some small_db
  /\ initialized small_db = true
  /\ sequence_has_room small_db
  /\ exists cases st' db',
       seed_database_cases small_store = Ok cases st'
       /\ seed_database small_store = Ok tt st'
       /\ disk st' = Some db'
       /\ forall c r,
            In c cases -> Case.fraud_type c = "merchant_error" ->
            In r (chargebacks db') ->
            Chargebacks.chargeback_id r = Case.chargeback_id c ->
            (In (Case.chargeback_id c) ["cb_021"; "cb_022"; "cb_023"]
             /\ Chargebacks.status r = Some "lost"
             /\ Chargebacks.outcome r = Some "lost")
            \/ (In (Case.chargeback_id c) ["cb_007"; "cb_008"]
                /\ Chargebacks.status r = Some "open"
                /\ Chargebacks.outcome r = None
                /\ Chargebacks.closed_at r = None).
Proof.
  split; [reflexivity |]. split; [reflexivity |].
  split; [vm_compute; discriminate |].
  apply (C9_merchant_error_lost_or_open small_store small_db);
    [reflexivity | reflexivity | vm_compute; discriminate].
Defined.

(** The sizes of the data set that a run leaves. *)
Lemma seeded_sizes (cases : list Case.dict) (db : Db) :
  seeded cases db ->
  List.length (merchants db) = 4%nat
  /\ List.length (customers db) = 7%nat
  /\ List.length (chargebacks db) = 23%nat
  /\ (58 <= List.length (transactions db) <= 93)%nat
  /\ List.length (case_events db) = 109%nat
  /\ map Transactions.transaction_id (transactions db)
     = map txn_id (seq 1 (List.length (transactions db))).
Proof.
  intros Hs.
  pose proof (chargeback_rows_ids _ _ (seeded_chargebacks _ _ Hs)) as [_ Htid].
  destruct (seeded_transactions _ _ Hs)
    as (c0 & normal & rows & Hc0 & Htx & Hids & Hrows & Hrid & Hcid).
  destruct (seeded_ordinary _ _ Hs) as (normal' & rows' & Htx' & Hl & _ & Hn & _).
  split; [| split; [| split; [| split; [| split]]]].
  - rewrite <- (length_map Merchants.merchant_id), (seeded_merchants _ _ Hs).
    reflexivity.
  - rewrite <- (length_map Customers.customer_id), (seeded_customers _ _ Hs).
    reflexivity.
  - rewrite <- (length_map Chargebacks.transaction_id), Htid, Hcid.
    rewrite length_map, length_seq. reflexivity.
  - rewrite Htx', length_app, Hl. simpl List.length in *. lia.
  - rewrite <- (length_map (fun e => (CaseEvents.chargeback_id e,
                                       CaseEvents.event_type e))).
    change (map _ (case_events db)) with (event_tags (case_events db)).
    rewrite (seeded_events _ _ Hs).
    rewrite (written_event_tags_blocks _ _ _ (seeded_cases _ _ Hs)).
    pose proof (case_blocks_event_count
                  (tx_id_of "cb7_tx_id" case_blocks cases)
                  (tx_id_of "cb21_tx_id" case_blocks cases)) as H.
    unfold events_per_run in H. lia.
  - unfold tx_ids_below in Hids.
    assert (Hlen : List.length (transactions db)
                   = (c0 + List.length case_blocks - 1)%nat).
    { rewrite <- (length_map Transactions.transaction_id), Hids.
      now rewrite length_map, length_seq. }
    rewrite Hlen. exact Hids.
Qed.

(** C10: on every initialized store whose sequence of event ids has room for
    the run, whatever its rows, the run completes and the file then holds
    exactly 4 merchants, 7 customers and 23 chargebacks, the chargebacks on
    23 different stored transactions, together with the 58 to 93
    transactions of the run, numbered from [txn_0001] on without a gap, and
    its 109 case events; the run is the same as on the store without its
    rows, so that no earlier row of any table has an effect or is kept.  The
    five deletions come first and children first: on a file that lacks tables
    the run stops, before any change, at the first missing table in the
    order case_events, chargebacks, transactions, customers, merchants. *)
Theorem C10_fixed_dataset (st : St) (db : Db) :
  disk st = Some db ->
  (initialized db = true ->
   sequence_has_room db ->
   (exists st' db',
      seed_database st = Ok tt st'
      /\ disk st' = Some db'
      /\ List.length (merchants db') = 4%nat
      /\ List.length (customers db') = 7%nat
      /\ List.length (chargebacks db') = 23%nat
      /\ NoDup (map Chargebacks.transaction_id (chargebacks db'))
      /\ (forall r, In r (chargebacks db') ->
            transaction_exists db' (Chargebacks.transaction_id r) = true)
      /\ (58 <= List.length (transactions db') <= 93)%nat
      /\ map Transactions.transaction_id (transactions db')
         = map txn_id (seq 1 (List.length (transactions db')))
      /\ List.length (case_events db') = 109%nat)
   /\ seed_database st = seed_database (set_disk st (Some (cleared db))))
  /\ (forall t,
        first_missing db delete_order = Some t ->
        exists st',
          seed_database st = Raise (no_such_table t) st'
          /\ disk st' = Some db).
Proof.
  intros Hdisk. split.
  - intros Hinit Hroom. split; [| exact (seed_database_forgets_rows st db Hdisk Hinit)].
    destruct (seed_database_run st db Hdisk Hinit Hroom)
      as (cases & st' & db' & _ & E & Hd & _ & _ & Hs).
    exists st', db'. split; [exact E |]. split; [exact Hd |].
    destruct (seeded_sizes _ _ Hs) as (S1 & S2 & S3 & S4 & S5 & S6).
    pose proof (chargeback_rows_ids _ _ (seeded_chargebacks _ _ Hs)) as [_ Htid].
    destruct (seeded_transactions _ _ Hs)
      as (c0 & normal & rows & Hc0 & Htx & Hids & Hrows & Hrid & Hcid).
    split; [exact S1 |]. split; [exact S2 |]. split; [exact S3 |].
    split; [rewrite Htid, Hcid; apply txn_id_NoDup, seq_NoDup |].
    split; [| split; [exact S4 | split; [exact S6 | exact S5]]].
    intros r Hr. rewrite transaction_exists_map.
    apply existsb_exists. exists (Chargebacks.transaction_id r).
    split; [| apply String.eqb_refl].
    rewrite Htx, map_app. apply in_or_app. right.
    rewrite Hrid, <- Hcid, <- Htid. now apply in_map.
  - intros t Hm.
    destruct (seed_database_missing_table st db t Hdisk Hm) as (st' & E & Hd & _).
    exists st'. split; [exact E | exact Hd].
Qed.

Lemma C10_witness :
  (disk small_store = Some small_db
   /\ initialized small_db = true
   /\ sequence_has_room small_db
   /\ (exists st' db',
         seed_database small_store = Ok tt st'
         /\ disk st' = Some db'
         /\ List.length (merchants db') = 4%nat
         /\ List.length (customers db') = 7%nat
         /\ List.length (chargebacks db') = 23%nat
         /\ NoDup (map Chargebacks.transaction_id (chargebacks db'))
         /\ (forall r, In r (chargebacks db') ->
               transaction_exists db' (Chargebacks.transaction_id r) = true)
         /\ (58 <= List.length (transactions db') <= 93)%nat
         /\ map Transactions.transaction_id (transactions db')
            = map txn_id (seq 1 (List.length (transactions db')))
         /\ List.length (case_events db') = 109%nat)
   /\ seed_database small_store
      = seed_database (set_disk small_store (Some (cleared small_db))))
  /\ (disk empty_file = Some empty_db
      /\ first_missing empty_db delete_order = Some "case_events"
      /\ exists st',
           seed_database empty_file = Raise (no_such_table "case_events") st'
           /\ disk st' = Some empty_db).
Proof.
  split.
  - split; [reflexivity |]. split; [reflexivity |].
    split; [vm_compute; discriminate |].
    apply (proj1 (C10_fixed_dataset small_store small_db eq_refl));
      [reflexivity | vm_compute; discriminate].
  - split; [reflexivity |]. split; [reflexivity |].
    apply (proj2 (C10_fixed_dataset empty_file empty_db eq_refl)).
    reflexivity.
Defined.

(* ================================================================= *)
(** * Further properties of the scripts *)

(** ** [generate_id] and [random_date] *)

Lemma four_digits_below_10000 :
  forallb (fun n => Nat.eqb (String.length (zfill 4 (str_nat n))) 4)
          (seq 0 (Z.to_nat 10000)) = true.
Proof. vm_compute. reflexivity. Qed.

Lemma three_digits_below_1000 :
  forallb (fun n => Nat.eqb (String.length (zfill 3 (str_nat n))) 3)
          (seq 0 (Z.to_nat 1000)) = true.
Proof. vm_compute. reflexivity. Qed.

(** X1: [generate_id] gives different ids to different numbers, for every
    prefix and every two integers: no bound on the numbers, negative ones
    included. *)
Theorem X1_generate_id_distinct (prefix : string) (a b : Z) :
  a <> b -> generate_id prefix a <> generate_id prefix b.
Proof.
  intros Hab E. apply Hab. exact (generate_id_inj prefix a b E).
Qed.

Lemma X1_witness :
  1 <> 2 /\ generate_id "txn" 1 <> generate_id "txn" 2.
Proof.
  split; [discriminate |].
  apply (X1_generate_id_distinct "txn" 1 2). discriminate.
Defined.

(** X2: the id is the prefix, an underscore and the number in the format
    [04d].  For [0 <= num < 10000] these are exactly four characters, the
    digits after zeros; for [-1000 < num < 0] again four, the sign first;
    [-1000] takes five ([-1000]).  No number is cut: the characters after the
    sign, if there is one, read back as the magnitude of the number. *)
Theorem X2_generate_id_width (prefix : string) (n : Z) :
  generate_id prefix n = prefix ++ "_" ++ format_04d n
  /\ (0 <= n < 10000 -> String.length (format_04d n) = 4%nat)
  /\ (-1000 < n < 0 ->
      String.length (format_04d n) = 4%nat
      /\ exists digits, format_04d n = String "-" digits)
  /\ format_04d (-1000) = "-1000"
  /\ (0 <= n -> parse_nat (format_04d n) = Some (Z.to_nat n))
  /\ (n < 0 -> exists digits, format_04d n = String "-" digits
                             /\ parse_nat digits = Some (Z.to_nat (- n))).
Proof.
  split; [reflexivity |]. unfold format_04d.
  split; [| split; [| split; [reflexivity | split]]].
  - intros Hn. destruct (n <? 0) eqn:E; [apply Z.ltb_lt in E; lia |].
    pose proof four_digits_below_10000 as H. rewrite forallb_forall in H.
    assert (Hin : In (Z.to_nat n) (seq 0 (Z.to_nat 10000))) by (apply in_seq; lia).
    now apply H, Nat.eqb_eq in Hin.
  - intros Hn. destruct (n <? 0) eqn:E; [| apply Z.ltb_ge in E; lia].
    pose proof three_digits_below_1000 as H. rewrite forallb_forall in H.
    assert (Hin : In (Z.to_nat (- n)) (seq 0 (Z.to_nat 1000))) by (apply in_seq; lia).
    apply H, Nat.eqb_eq in Hin. split.
    + simpl. now rewrite Hin.
    + eexists. reflexivity.
  - intros Hn. destruct (n <? 0) eqn:E; [apply Z.ltb_lt in E; lia |].
    apply parse_zfill.
  - intros Hn. destruct (n <? 0) eqn:E; [| apply Z.ltb_ge in E; lia].
    eexists. split; [reflexivity | apply parse_zfill].
Qed.

Lemma X2_witness :
  generate_id "txn" 7 = "txn_0007"
  /\ (0 <= 7 < 10000 /\ String.length (format_04d 7) = 4%nat)
  /\ (-1000 < -7 < 0
      /\ String.length (format_04d (-7)) = 4%nat
      /\ exists digits, format_04d (-7) = String "-" digits)
  /\ (0 <= 12345 /\ parse_nat (format_04d 12345) = Some (Z.to_nat 12345))
  /\ (-1000 < 0
      /\ exists digits, format_04d (-1000) = String "-" digits
                        /\ parse_nat digits = Some (Z.to_nat (- -1000))).
Proof.
  split; [exact (proj1 (X2_generate_id_width "txn" 7)) |].
  split; [split; [lia |];
          apply (proj1 (proj2 (X2_generate_id_width "txn" 7))); lia |].
  split; [split; [lia |];
          apply (proj1 (proj2 (proj2 (X2_generate_id_width "txn" (-7))))); lia |].
  split; [split; [lia |];
          apply (proj1 (proj2 (proj2 (proj2 (proj2
                   (X2_generate_id_width "txn" 12345)))))); lia |].
  split; [lia |].
  apply (proj2 (proj2 (proj2 (proj2 (proj2
           (X2_generate_id_width "txn" (-1000))))))); lia.
Defined.

(** X3: [random_date(start, end)] with [start < end] raises the [ValueError]
    of the empty range of [randint], with the message of [randrange(end,
    start + 1)], and changes nothing.  With [end <= start], and both day
    counts between 0 and 700000 (dates that exist whatever the day of the
    run), it consumes one random number and returns a date between [end] and
    [start] days ago. *)
Theorem X3_random_date_range (s e : Z) (st : St) :
  (0 <= e -> e <= s -> s <= 700000 ->
   exists d, random_date s e st = Ok (DaysAgo d) (set_pos st (S (pos st)))
             /\ e <= d <= s)
  /\ (s < e ->
      random_date s e st
      = Raise (ValueError ("empty range for randrange() (" ++ str e ++ ", "
                           ++ str (s + 1) ++ ", " ++ str (s + 1 - e) ++ ")"))
              st).
Proof.
  unfold random_date, randint, empty_range, bind, raise, draw, ret.
  split.
  - intros _ H _. destruct (s <? e) eqn:E; [apply Z.ltb_lt in E; lia |].
    eexists. split; [reflexivity |].
    pose proof (Z.mod_pos_bound (rand st (pos st)) (s - e + 1)). lia.
  - intros H. apply Z.ltb_lt in H. rewrite H. reflexivity.
Qed.

Lemma X3_witness :
  (0 <= 1 /\ 1 <= 730 /\ 730 <= 700000
   /\ exists d, random_date 730 1 no_file = Ok (DaysAgo d) (set_pos no_file 1)
                /\ 1 <= d <= 730)
  /\ (10 < 180
      /\ random_date 10 180 no_file
         = Raise (ValueError "empty range for randrange() (180, 11, -169)")
                 no_file).
Proof.
  split.
  - split; [lia |]. split; [lia |]. split; [lia |].
    apply (proj1 (X3_random_date_range 730 1 no_file)); lia.
  - split; [lia |].
    apply (proj2 (X3_random_date_range 10 180 no_file)). lia.
Defined.

(** ** [init_database] and the missing or uninitialized file *)

(** X4: [init_database] is idempotent. From any state, with or without a
    file, it succeeds and leaves on disk the same store: the five tables
    without rows and the twelve indexes, each on one of the tables; run
    again, it leaves that store once more. *)
Theorem X4_init_database_idempotent (st : St) :
  exists st1 st2,
    init_database st = Ok tt st1
    /\ init_database st1 = Ok tt st2
    /\ disk st1 = Some fresh_db
    /\ disk st2 = disk st1
    /\ initialized fresh_db = true
    /\ emptied fresh_db
    /\ List.length (indexes fresh_db) = 12%nat
    /\ forallb (fun i => has_table fresh_db (idx_table i)) (indexes fresh_db)
       = true.
Proof.
  destruct (init_database_run st) as (st1 & E1 & D1 & _).
  destruct (init_database_run st1) as (st2 & E2 & D2 & _).
  exists st1, st2.
  repeat split; auto; congruence.
Qed.

(** X5: when the database file does not exist, [seed_database] and
    [view_database] print two lines that send the user to
    [setup_database.py] and return normally: no file is created, no random
    number is drawn. *)
Theorem X5_missing_file (st : St) :
  disk st = None ->
  (exists st', seed_database st = Ok tt st'
               /\ disk st' = None /\ pos st' = pos st
               /\ out st' = (out st ++ [Line "Error: Database not found";
                                        Line "Please run setup_database.py first!"])%list)
  /\ (exists st', view_database st = Ok tt st'
                  /\ disk st' = None /\ pos st' = pos st
                  /\ out st' = (out st ++ [Line "Database not found";
                                           Line "Please run setup_database.py first!"])%list).
Proof.
  intros H. destruct st as [d w f r p o]. simpl in H. subst d.
  split; eexists; (split; [reflexivity |]); simpl;
    rewrite <- app_assoc; auto.
Qed.

Lemma X5_witness :
  disk no_file = None
  /\ (exists st', seed_database no_file = Ok tt st'
                  /\ disk st' = None /\ pos st' = pos no_file
                  /\ out st' = (out no_file
                                ++ [Line "Error: Database not found";
                                    Line "Please run setup_database.py first!"])%list)
  /\ (exists st', view_database no_file = Ok tt st'
                  /\ disk st' = None /\ pos st' = pos no_file
                  /\ out st' = (out no_file
                                ++ [Line "Database not found";
                                    Line "Please run setup_database.py first!"])%list).
Proof.
  split; [reflexivity |]. apply (X5_missing_file no_file). reflexivity.
Defined.

(** X6: on a file that lacks one of the five tables the generator fails with
    [OperationalError: no such table]; the table named is the first one that
    is missing in the order of the DELETE statements (case_events,
    chargebacks, transactions, customers, merchants).  The two lines of the
    start were printed, nothing was committed, the file is as it was.  Every
    file that is not initialized has such a first missing table. *)
Theorem X6_uninitialized_store (st : St) (db : Db) :
  disk st = Some db ->
  (forall t,
     first_missing db delete_order = Some t ->
     exists st',
       seed_database st = Raise (no_such_table t) st'
       /\ disk st' = Some db
       /\ out st' = (out st ++ [Line "Seeding database with synthetic data...";
                                Line "Clearing existing data..."])%list)
  /\ (initialized db = false ->
      exists t, first_missing db delete_order = Some t /\ In t schema_tables).
Proof.
  intros Hdisk. split.
  - intros t Hm. exact (seed_database_missing_table st db t Hdisk Hm).
  - exact (first_missing_exists db).
Qed.

Lemma X6_witness :
  disk partial_file = Some partial_db
  /\ first_missing partial_db delete_order = Some "chargebacks"
  /\ initialized partial_db = false
  /\ (exists st',
        seed_database partial_file = Raise (no_such_table "chargebacks") st'
        /\ disk st' = Some partial_db
        /\ out st' = (out partial_file
                      ++ [Line "Seeding database with synthetic data...";
                          Line "Clearing existing data..."])%list)
  /\ (exists t, first_missing partial_db delete_order = Some t
                /\ In t schema_tables).
Proof.
  split; [reflexivity |]. split; [reflexivity |]. split; [reflexivity |].
  split.
  - apply (proj1 (X6_uninitialized_store partial_file partial_db eq_refl)).
    reflexivity.
  - apply (proj2 (X6_uninitialized_store partial_file partial_db eq_refl)).
    reflexivity.
Defined.

(** ** The data that the generator leaves *)

Lemma case_blocks_refs_ok : forallb block_refs_ok case_blocks = true.
Proof. vm_compute. reflexivity. Qed.

Lemma case_blocks_disputed : forallb block_disputed case_blocks = true.
Proof. vm_compute. reflexivity. Qed.

Lemma case_blocks_amounts_agree : forallb block_amounts_agree case_blocks = true.
Proof. vm_compute. reflexivity. Qed.

Lemma app_same_length_tail {A} (a a' b b' : list A) :
  (a ++ b = a' ++ b')%list -> List.length b = List.length b' ->
  a = a' /\ b = b'.
Proof.
  revert a'. induction a as [| x a IH]; intros [| y a'] E L; simpl in E.
  - auto.
  - exfalso. rewrite E in L. simpl in L. rewrite length_app in L. lia.
  - exfalso. rewrite <- E in L. simpl in L. rewrite length_app in L. lia.
  - injection E as -> E. destruct (IH a' E L) as [-> ->]. auto.
Qed.

(** The two kinds of transactions of a seeded store. *)
Lemma seeded_split (cases : list Case.dict) (db : Db) :
  seeded cases db ->
  exists normal rows,
    transactions db = (normal ++ rows)%list
    /\ Forall ordinary_transaction normal
    /\ (35 <= List.length normal <= 70)%nat
    /\ Forall2 block_transaction case_blocks rows
    /\ map Transactions.transaction_id rows = map Case.transaction_id cases
    /\ (forall cid, In cid customer_ids ->
          (5 <= List.length (transactions_of_customer cid normal) <= 10)%nat).
Proof.
  intros Hs.
  destruct (seeded_transactions _ _ Hs)
    as (c0 & normal & rows & _ & Htx & _ & Hrows & Hrid & Hcid).
  destruct (seeded_ordinary _ _ Hs)
    as (normal' & rows' & Htx' & Hlen & Hord & Hn & Hper).
  destruct (app_same_length_tail normal normal' rows rows') as [-> ->].
  - congruence.
  - rewrite Hlen. symmetry. exact (Forall2_length Hrows).
  - exists normal', rows'. simpl List.length in Hn.
    split; [exact Htx' |]. split; [exact Hord |]. split; [lia |].
    split; [exact Hrows |]. split; [congruence | exact Hper].
Qed.

Lemma Forall2_In_r {A B} (R : A -> B -> Prop) (l : list A) (l' : list B) (b : B) :
  Forall2 R l l' -> In b l' -> exists a, In a l /\ R a b.
Proof.
  induction 1 as [| x y l l' Hxy _ IH]; simpl; [contradiction |].
  intros [-> | Hb].
  - exists x. auto.
  - destruct (IH Hb) as (a & ? & ?). exists a. auto.
Qed.

Lemma seeded_transaction_kind (cases : list Case.dict) (db : Db)
    (t : Transactions.row) :
  seeded cases db -> In t (transactions db) ->
  ordinary_transaction t
  \/ (exists b, In b case_blocks /\ block_transaction b t
                /\ In (Transactions.transaction_id t)
                      (map Chargebacks.transaction_id (chargebacks db))).
Proof.
  intros Hs Ht.
  destruct (seeded_split _ _ Hs)
    as (normal & rows & Htx & Hord & _ & Hrows & Hrid & _).
  rewrite Htx in Ht. apply in_app_or in Ht. destruct Ht as [Ht | Ht].
  - left. rewrite Forall_forall in Hord. auto.
  - right. destruct (Forall2_In_r _ _ _ t Hrows Ht) as (b & Hb & Hbt).
    exists b. split; [exact Hb |]. split; [exact Hbt |].
    rewrite (proj2 (chargeback_rows_ids _ _ (seeded_chargebacks _ _ Hs))), <- Hrid.
    now apply in_map.
Qed.

Lemma existsb_eqb_In (k : string) (l : list string) :
  existsb (String.eqb k) l = true <-> In k l.
Proof.
  rewrite existsb_exists. split.
  - intros (x & Hx & E). apply String.eqb_eq in E. now subst.
  - intros H. exists k. split; [exact H | apply String.eqb_refl].
Qed.

Lemma key_exists {A} (key : A -> string) (l : list A) (k : string) :
  In k (map key l) -> existsb (fun r => String.eqb (key r) k) l = true.
Proof.
  intros H. apply in_map_iff in H. destruct H as (r & <- & Hr).
  apply existsb_exists. exists r. split; [exact Hr | apply String.eqb_refl].
Qed.

(** X7: what a run leaves in the file satisfies every reference of the
    schema, although the run never switches the enforcement on: each
    transaction's customer and merchant are stored, each chargeback's
    transaction is stored, each case event's chargeback is stored.  For
    every initialized store whose sequence of event ids has room for the
    run. *)
Theorem X7_generated_references_resolve (st : St) (db : Db) :
  disk st = Some db ->
  initialized db = true ->
  sequence_has_room db ->
  exists st' db',
    seed_database st = Ok tt st'
    /\ disk st' = Some db'
    /\ (forall t, In t (transactions db') ->
          customer_exists db' (Transactions.customer_id t) = true
          /\ merchant_exists db' (Transactions.merchant_id t) = true)
    /\ (forall c, In c (chargebacks db') ->
          transaction_exists db' (Chargebacks.transaction_id c) = true)
    /\ (forall e, In e (case_events db') ->
          chargeback_exists db' (CaseEvents.chargeback_id e) = true).
Proof.
  intros Hdisk Hinit Hroom.
  destruct (seed_database_run st db Hdisk Hinit Hroom)
    as (cases & st' & db' & _ & E & Hd & _ & _ & Hs).
  exists st', db'. split; [exact E |]. split; [exact Hd |].
  pose proof (seeded_customers _ _ Hs) as Hcu.
  pose proof (seeded_merchants _ _ Hs) as Hme.
  fold customer_ids in Hcu. fold merchant_ids in Hme.
  split; [| split].
  - intros t Ht. unfold customer_exists, merchant_exists.
    destruct (seeded_transaction_kind _ _ t Hs Ht) as [Ho | (b & Hb & Hbt & _)].
    + destruct Ho as (Hc & Hm & _).
      split; apply key_exists; [rewrite Hcu | rewrite Hme]; assumption.
    + pose proof case_blocks_refs_ok as R. rewrite forallb_forall in R.
      specialize (R b Hb). unfold block_refs_ok in R.
      apply andb_prop in R. destruct R as [R1 R2].
      apply existsb_eqb_In in R1, R2.
      destruct Hbt as (Hc & Hm & _).
      split; apply key_exists; [rewrite Hcu, Hc | rewrite Hme, Hm]; assumption.
  - intros c Hc. unfold transaction_exists. apply key_exists.
    destruct (seeded_split _ _ Hs) as (normal & rows & Htx & _ & _ & _ & Hrid & _).
    rewrite Htx, map_app. apply in_or_app. right.
    rewrite Hrid, <- (proj2 (chargeback_rows_ids _ _ (seeded_chargebacks _ _ Hs))).
    now apply in_map.
  - intros e He. unfold chargeback_exists. apply key_exists.
    assert (Htag : In (CaseEvents.chargeback_id e, CaseEvents.event_type e)
                      (event_tags (case_events db')))
      by (unfold event_tags; apply in_map_iff; exists e; auto).
    rewrite (seeded_events _ _ Hs) in Htag. unfold written_event_tags in Htag.
    apply in_flat_map in Htag. destruct Htag as (c & Hc & Htag).
    apply in_map_iff in Htag. destruct Htag as (ty & Hty & _).
    injection Hty as Hid _. rewrite <- Hid.
    rewrite (proj1 (chargeback_rows_ids _ _ (seeded_chargebacks _ _ Hs))).
    now apply in_map.
Qed.

Lemma X7_witness :
  disk small_store = Some small_db
  /\ initialized small_db = true
  /\ sequence_has_room small_db
  /\ exists st' db',
       seed_database small_store = Ok tt st'
       /\ disk st' = Some db'
       /\ (forall t, In t (transactions db') ->
             customer_exists db' (Transactions.customer_id t) = true
             /\ merchant_exists db' (Transactions.merchant_id t) = true)
       /\ (forall c, In c (chargebacks db') ->
             transaction_exists db' (Chargebacks.transaction_id c) = true)
       /\ (forall e, In e (case_events db') ->
             chargeback_exists db' (CaseEvents.chargeback_id e) = true).
Proof.
  split; [reflexivity |]. split; [reflexivity |].
  split; [vm_compute; discriminate |].
  apply (X7_generated_references_resolve small_store small_db);
    [reflexivity | reflexivity | vm_compute; discriminate].
Defined.

(** X8: in the data that a run leaves in the file a transaction has status
    [disputed] exactly when a chargeback references it, and status
    [completed] otherwise.  For every initialized store whose sequence of
    event ids has room for the run. *)
Theorem X8_disputed_iff_chargeback (st : St) (db : Db) :
  disk st = Some db ->
  initialized db = true ->
  sequence_has_room db ->
  exists st' db',
    seed_database st = Ok tt st'
    /\ disk st' = Some db'
    /\ forall t, In t (transactions db') ->
         (Transactions.status t = Some "disputed"
          /\ In (Transactions.transaction_id t)
                (map Chargebacks.transaction_id (chargebacks db')))
         \/ (Transactions.status t = Some "completed"
             /\ ~ In (Transactions.transaction_id t)
                     (map Chargebacks.transaction_id (chargebacks db'))).
Proof.
  intros Hdisk Hinit Hroom.
  destruct (seed_database_run st db Hdisk Hinit Hroom)
    as (cases & st' & db' & _ & E & Hd & _ & _ & Hs).
  exists st', db'. split; [exact E |]. split; [exact Hd |].
  assert (Hdisp : forall b t, In b case_blocks -> block_transaction b t ->
                    Transactions.status t = Some "disputed").
  { intros b t Hb (_ & _ & _ & Hst & _).
    pose proof case_blocks_disputed as D. rewrite forallb_forall in D.
    specialize (D b Hb). apply String.eqb_eq in D. now rewrite Hst, D. }
  intros t Ht.
  destruct (seeded_transaction_kind _ _ t Hs Ht) as [Ho | (b & Hb & Hbt & Hin)].
  - right. destruct Ho as (_ & _ & _ & Hst & _). split; [exact Hst |].
    intros Hin.
    destruct (seeded_split _ _ Hs)
      as (normal & rows & Htx & _ & _ & Hrows & Hrid & _).
    rewrite (proj2 (chargeback_rows_ids _ _ (seeded_chargebacks _ _ Hs))),
      <- Hrid in Hin.
    apply in_map_iff in Hin. destruct Hin as (r & Hr & Hin).
    assert (Hrt : In r (transactions db'))
      by (rewrite Htx; apply in_or_app; now right).
    assert (r = t)
      by (apply (NoDup_map_eq Transactions.transaction_id (transactions db'));
          [exact (seeded_tx_ids_NoDup _ _ Hs) | | |]; assumption).
    subst r. destruct (Forall2_In_r _ _ _ t Hrows Hin) as (b & Hb & Hbt).
    rewrite (Hdisp b t Hb Hbt) in Hst. discriminate Hst.
  - left. split; [exact (Hdisp b t Hb Hbt) | exact Hin].
Qed.

Lemma X8_witness :
  disk small_store = Some small_db
  /\ initialized small_db = true
  /\ sequence_has_room small_db
  /\ exists st' db',
       seed_database small_store = Ok tt st'
       /\ disk st' = Some db'
       /\ forall t, In t (transactions db') ->
            (Transactions.status t = Some "disputed"
             /\ In (Transactions.transaction_id t)
                   (map Chargebacks.transaction_id (chargebacks db')))
            \/ (Transactions.status t = Some "completed"
                /\ ~ In (Transactions.transaction_id t)
                        (map Chargebacks.transaction_id (chargebacks db'))).
Proof.
  split; [reflexivity |]. split; [reflexivity |].
  split; [vm_compute; discriminate |].
  apply (X8_disputed_iff_chargeback small_store small_db);
    [reflexivity | reflexivity | vm_compute; discriminate].
Defined.

(** X9: every chargeback that a run leaves in the file disputes the whole
    amount of its transaction: the stored [chargeback_amount] equals the
    [amount] of the transaction it references.  For every initialized store
    whose sequence of event ids has room for the run. *)
Theorem X9_chargeback_amount_is_transaction_amount (st : St) (db : Db) :
  disk st = Some db ->
  initialized db = true ->
  sequence_has_room db ->
  exists st' db',
    seed_database st = Ok tt st'
    /\ disk st' = Some db'
    /\ forall c, In c (chargebacks db') ->
         exists t,
           transaction_of db' (Chargebacks.transaction_id c) = Some t
           /\ Transactions.amount t = Chargebacks.chargeback_amount c.
Proof.
  intros Hdisk Hinit Hroom.
  destruct (seed_database_run st db Hdisk Hinit Hroom)
    as (cases & st' & db' & _ & E & Hd & _ & _ & Hs).
  exists st', db'. split; [exact E |]. split; [exact Hd |].
  intros r Hr.
  destruct (seeded_chargeback_case _ _ r Hs Hr) as (c & d & Hc & ->).
  destruct (seeded_transaction_of _ _ c Hs Hc) as (t & Ht).
  exists t. split; [exact Ht |].
  pose proof (find_some _ _ Ht) as [Hin Hk]. apply String.eqb_eq in Hk.
  destruct (seeded_case_transaction _ _ c t Hs Hc Hin Hk)
    as (b & Hb & Hbc & Hbt).
  pose proof case_blocks_amounts_agree as A. rewrite forallb_forall in A.
  specialize (A b Hb). apply Z.eqb_eq in A.
  destruct Hbc as (_ & Hamt & _). destruct Hbt as (_ & _ & Ha & _).
  simpl. congruence.
Qed.

Lemma X9_witness :
  disk small_store = Some small_db
  /\ initialized small_db = true
  /\ sequence_has_room small_db
  /\ exists st' db',
       seed_database small_store = Ok tt st'
       /\ disk st' = Some db'
       /\ forall c, In c (chargebacks db') ->
            exists t,
              transaction_of db' (Chargebacks.transaction_id c) = Some t
              /\ Transactions.amount t = Chargebacks.chargeback_amount c.
Proof.
  split; [reflexivity |]. split; [reflexivity |].
  split; [vm_compute; discriminate |].
  apply (X9_chargeback_amount_is_transaction_amount small_store small_db);
    [reflexivity | reflexivity | vm_compute; discriminate].
Defined.

(** X10: besides the 23 disputed transactions a run leaves in the file
    between 5 and 10 ordinary ones for each of the 7 customers, 35 to 70
    together, so between 58 and 93 transactions in all; every ordinary one
    is [completed], of risk level [low] with the velocity flag off, has a
    fraud score between 5 and 25 and an amount between 25 and 850.  For
    every initialized store whose sequence of event ids has room for the
    run. *)
Theorem X10_ordinary_transactions (st : St) (db : Db) :
  disk st = Some db ->
  initialized db = true ->
  sequence_has_room db ->
  exists st' db' normal disputed,
    seed_database st = Ok tt st'
    /\ disk st' = Some db'
    /\ transactions db' = (normal ++ disputed)%list
    /\ (forall cid, In cid customer_ids ->
          (5 <= List.length (transactions_of_customer cid normal) <= 10)%nat)
    /\ List.length customer_ids = 7%nat
    /\ (35 <= List.length normal <= 70)%nat
    /\ List.length disputed = 23%nat
    /\ (58 <= List.length (transactions db') <= 93)%nat
    /\ Forall ordinary_transaction normal.
Proof.
  intros Hdisk Hinit Hroom.
  destruct (seed_database_run st db Hdisk Hinit Hroom)
    as (cases & st' & db' & _ & E & Hd & _ & _ & Hs).
  destruct (seeded_split _ _ Hs)
    as (normal & rows & Htx & Hord & Hn & Hrows & _ & Hper).
  exists st', db', normal, rows.
  pose proof (Forall2_length Hrows) as L. simpl List.length in L.
  rewrite Htx, length_app.
  split; [exact E |]. split; [exact Hd |]. split; [reflexivity |].
  split; [exact Hper |]. split; [reflexivity |].
  split; [exact Hn |]. split; [now rewrite <- L |].
  split; [lia | exact Hord].
Qed.

Lemma X10_witness :
  disk small_store = Some small_db
  /\ initialized small_db = true
  /\ sequence_has_room small_db
  /\ exists st' db' normal disputed,
       seed_database small_store = Ok tt st'
       /\ disk st' = Some db'
       /\ transactions db' = (normal ++ disputed)%list
       /\ (forall cid, In cid customer_ids ->
             (5 <= List.length (transactions_of_customer cid normal) <= 10)%nat)
       /\ List.length customer_ids = 7%nat
       /\ (35 <= List.length normal <= 70)%nat
       /\ List.length disputed = 23%nat
       /\ (58 <= List.length (transactions db') <= 93)%nat
       /\ Forall ordinary_transaction normal.
Proof.
  split; [reflexivity |]. split; [reflexivity |].
  split; [vm_compute; discriminate |].
  apply (X10_ordinary_transactions small_store small_db);
    [reflexivity | reflexivity | vm_compute; discriminate].
Defined.

(** X17: on an initialized store whose sequence of event ids leaves no room
    for the 109 events of a run, the generator fails with
    [OperationalError: database or disk is full], at an INSERT into
    [case_events].  The five deletions were committed before and nothing
    after them is: the file is left with its five tables empty and its
    sequence as it was, so what the store held is lost.  Hence on
    initialized stores the generator completes exactly when the sequence has
    room. *)
Theorem X17_sequence_exhausted (st : St) (db : Db) :
  disk st = Some db ->
  initialized db = true ->
  (~ sequence_has_room db ->
   exists st',
     seed_database st = Raise database_full st'
     /\ disk st' = Some (cleared db)
     /\ emptied (cleared db)
     /\ case_events_seq (cleared db) = case_events_seq db)
  /\ ((exists st', seed_database st = Ok tt st') <-> sequence_has_room db).
Proof.
  intros Hdisk Hinit.
  assert (Hfull : ~ sequence_has_room db ->
                  exists st',
                    seed_database st = Raise database_full st'
                    /\ disk st' = Some (cleared db)
                    /\ emptied (cleared db)
                    /\ case_events_seq (cleared db) = case_events_seq db).
  { intros Hfull.
    destruct (seed_database_full st db Hdisk Hinit Hfull) as (st' & E & D).
    exists st'. split; [exact E |]. split; [exact D |].
    split; [apply emptied_cleared | reflexivity]. }
  split; [exact Hfull |]. split.
  - intros (st' & E).
    destruct (Z.le_gt_cases (case_events_seq db + events_per_run) max_rowid)
      as [H | H]; [exact H |].
    exfalso. destruct Hfull as (st2 & E2 & _).
    + unfold sequence_has_room. lia.
    + rewrite E in E2. discriminate E2.
  - intros Hroom.
    destruct (seed_database_run st db Hdisk Hinit Hroom)
      as (cases & st' & db' & _ & E & _).
    exists st'. exact E.
Qed.

Lemma X17_witness :
  disk exhausted_store = Some exhausted_db
  /\ initialized exhausted_db = true
  /\ ~ sequence_has_room exhausted_db
  /\ exists st',
       seed_database exhausted_store = Raise database_full st'
       /\ disk st' = Some (cleared exhausted_db)
       /\ emptied (cleared exhausted_db)
       /\ case_events_seq (cleared exhausted_db) = case_events_seq exhausted_db.
Proof.
  split; [reflexivity |]. split; [reflexivity |].
  split; [unfold sequence_has_room, events_per_run, max_rowid; simpl; lia |].
  apply (proj1 (X17_sequence_exhausted exhausted_store exhausted_db
                  eq_refl eq_refl)).
  unfold sequence_has_room, events_per_run, max_rowid; simpl; lia.
Defined.

(** ** The report *)

Lemma runs_select {A} (t : string) (q : Db -> A) (st : St) :
  has_table (work st) t = true ->
  runs (select t q) st (fun v st' => v = q (work st) /\ same_data st st').
Proof.
  intros H. exists (q (work st)), st. unfold select. rewrite H.
  repeat split.
Qed.

Lemma runs_select_sum {A} (t : string) (q : Db -> Exn + A) (st : St) (v : A) :
  has_table (work st) t = true ->
  q (work st) = inr v ->
  runs (select_sum t q) st (fun v' st' => v' = v /\ same_data st st').
Proof.
  intros H E. exists v, st. unfold select_sum. rewrite H, E.
  repeat split.
Qed.


Lemma runs_print_money (label : string) (c : Cell) (st : St) :
  is_number c = true ->
  runs (print_money label c) st (fun _ st' => same_data st st').
Proof.
  intros H. destruct c; try discriminate H; apply runs_print.
Qed.


Lemma runs_ret_same {A} (v : A) (st : St) :
  runs (ret v) st (fun _ st' => same_data st st').
Proof. apply runs_ret. apply same_data_refl. Qed.

Lemma runs_from {A} (m : M A) (s0 s : St) :
  same_data s0 s ->
  runs m s (fun _ st' => same_data s st') ->
  runs m s (fun _ st' => same_data s0 st').
Proof.
  intros S R. eapply runs_weaken; [exact R |].
  cbv beta. intros _ st' H. exact (same_data_trans _ _ _ S H).
Qed.

Lemma completes_close_last (st : St) (Q : unit -> St -> Prop) :
  Q tt {| disk := disk st; work := empty_db; foreign_keys := false;
          rand := rand st; pos := pos st; out := out st |} ->
  completes close st Q.
Proof. intros H. exists tt. eexists. split; [reflexivity | exact H]. Qed.

(** *** The aggregates *)

Lemma sql_sum_fits (l : list Dec) :
  l <> [] -> sum_fits l = true ->
  exists c, sql_sum l = inr c /\ is_number c = true.
Proof.
  intros Hl H. unfold sum_fits in H. apply negb_true_iff in H.
  destruct l as [| x l]; [contradiction |].
  unfold sql_sum. cbv zeta. rewrite H.
  destruct (approx (sum_ctx (x :: l))); eexists; split; reflexivity.
Qed.

Lemma sql_sum_fits_any (l : list Dec) :
  sum_fits l = true -> exists c, sql_sum l = inr c.
Proof.
  intros H. destruct l as [| x l]; [eexists; reflexivity |].
  destruct (sql_sum_fits (x :: l)) as (c & E & _);
    [discriminate | exact H | eauto].
Qed.


Lemma min_is_number (l : list Z) :
  l <> [] -> is_number (cell_dec (sql_min l)) = true.
Proof. destruct l; [contradiction | reflexivity]. Qed.

Lemma max_is_number (l : list Z) :
  l <> [] -> is_number (cell_dec (sql_max l)) = true.
Proof. destruct l; [contradiction | reflexivity]. Qed.

Lemma avg_is_number (l : list Z) :
  l <> [] -> is_number (sql_avg l) = true.
Proof. destruct l; [contradiction | reflexivity]. Qed.

Lemma map_not_nil {A B} (f : A -> B) (l : list A) : l <> [] -> map f l <> [].
Proof. destruct l; [contradiction | discriminate]. Qed.

(** Amounts of magnitude at most [B], few enough of them, are added without
    overflow. *)
Lemma sum_step_bounded (B k : Z) (p : SumCtx) (c : Dec) :
  0 <= B -> 0 <= k ->
  - (B * 100) <= c <= B * 100 ->
  (k + 1) * B <= int64_max ->
  overflow p = false ->
  (approx p = true \/ - (k * B) <= iSum p <= k * B) ->
  overflow (sum_step p c) = false
  /\ (approx (sum_step p c) = true
      \/ - ((k + 1) * B) <= iSum (sum_step p c) <= (k + 1) * B).
Proof.
  intros HB Hk Hc Hmax Hov Hs. unfold sum_step.
  destruct (stored_as_integer c); [| simpl; auto].
  rewrite Hov, orb_false_r.
  destruct (approx p) eqn:Ea; [split; [exact Hov | left; exact Ea] |].
  destruct Hs as [Hs | Hs]; [discriminate Hs |].
  pose proof (Z.div_mod c 100 ltac:(lia)) as D.
  pose proof (Z.mod_pos_bound c 100 ltac:(lia)) as M.
  assert (Hq : - B <= c / 100 <= B) by lia.
  assert (Hr : - ((k + 1) * B) <= iSum p + c / 100 <= (k + 1) * B) by lia.
  assert (Hin : (int64_min <=? iSum p + c / 100)
                && (iSum p + c / 100 <=? int64_max) = true).
  { apply andb_true_intro. unfold int64_min, int64_max in *.
    split; [apply Z.leb_le | apply Z.leb_le]; lia. }
  rewrite Hin. simpl. split; [reflexivity | right; exact Hr].
Qed.

Lemma sum_ctx_bounded_from (B : Z) (l : list Dec) :
  forall (k : Z) (p : SumCtx),
    0 <= B -> 0 <= k ->
    Forall (fun c => - (B * 100) <= c <= B * 100) l ->
    (k + Z.of_nat (List.length l)) * B <= int64_max ->
    overflow p = false ->
    (approx p = true \/ - (k * B) <= iSum p <= k * B) ->
    overflow (fold_left sum_step l p) = false.
Proof.
  induction l as [| c l IH]; intros k p HB Hk Hl Hmax Hov Hs;
    [exact Hov |].
  inversion Hl as [| ? ? Hc Hl']; subst.
  cbn [fold_left]. cbn [List.length] in Hmax.
  assert (Hmax1 : (k + 1) * B <= int64_max) by nia.
  destruct (sum_step_bounded B k p c HB Hk Hc Hmax1 Hov Hs) as [Hov' Hs'].
  apply (IH (k + 1)); auto; [lia |].
  replace (k + 1 + Z.of_nat (List.length l))
    with (k + Z.of_nat (S (List.length l))) by lia.
  exact Hmax.
Qed.

Lemma sum_fits_bounded (B : Z) (l : list Dec) :
  0 <= B ->
  Forall (fun c => - (B * 100) <= c <= B * 100) l ->
  Z.of_nat (List.length l) * B <= int64_max ->
  sum_fits l = true.
Proof.
  intros HB Hl Hmax. unfold sum_fits, sum_ctx. apply negb_true_iff.
  apply (sum_ctx_bounded_from B l 0); auto; try lia.
  right. simpl. lia.
Qed.

(** *** The queries with SUM *)

Lemma transaction_stats_fits (db : Db) :
  transactions db <> [] ->
  sum_fits (map Transactions.amount (transactions db)) = true ->
  exists total,
    is_number total = true
    /\ transaction_stats db
       = inr (Z.of_nat (List.length (transactions db)),
              count_distinct (map Transactions.customer_id (transactions db)),
              count_distinct (map Transactions.merchant_id (transactions db)),
              total,
              sql_avg (map Transactions.amount (transactions db)),
              cell_dec (sql_min (map Transactions.amount (transactions db))),
              cell_dec (sql_max (map Transactions.amount (transactions db)))).
Proof.
  intros Htx Hfit.
  destruct (sql_sum_fits _ (map_not_nil Transactions.amount _ Htx) Hfit)
    as (c & E & Hc).
  exists c. split; [exact Hc |].
  unfold transaction_stats. cbv zeta. now rewrite E.
Qed.



Lemma chargeback_stats_fits (db : Db) :
  chargebacks db <> [] ->
  sum_fits (map Chargebacks.chargeback_amount (chargebacks db)) = true ->
  exists total,
    is_number total = true
    /\ chargeback_stats db
       = inr (Z.of_nat (List.length (chargebacks db)),
              count_status "open" db, count_status "under_review" db,
              count_status "won" db, count_status "lost" db, total).
Proof.
  intros Hcb Hfit.
  destruct (sql_sum_fits _ (map_not_nil Chargebacks.chargeback_amount _ Hcb) Hfit)
    as (c & E & Hc).
  exists c. split; [exact Hc |].
  unfold chargeback_stats. now rewrite E.
Qed.



Lemma all_rows_ok {A} (l : list (Exn + A)) :
  Forall (fun x => exists a, x = inr a) l -> exists r, all_rows l = inr r.
Proof.
  induction 1 as [| x l (a & ->) _ (r & IH)]; [eexists; reflexivity |].
  simpl. rewrite IH. eexists. reflexivity.
Qed.

Lemma risk_stats_fits (db : Db) :
  forallb (fun k => sum_fits (map Transactions.amount (risk_rows db k)))
          (risk_levels db) = true ->
  exists r, risk_stats db = inr r.
Proof.
  intros H. unfold risk_stats.
  destruct (all_rows_ok (map (risk_group db) (risk_levels db))) as (r & E).
  - rewrite forallb_forall in H. apply Forall_forall. intros x Hx.
    apply in_map_iff in Hx. destruct Hx as (k & <- & Hk).
    destruct (sql_sum_fits_any _ (H k Hk)) as (c & E).
    unfold risk_group. cbv zeta. rewrite E. eexists. reflexivity.
  - rewrite E. eexists. reflexivity.
Qed.

(** One step of the report, justified by [lemma].  [S] names the fact that
    the connection and the file are as they were after connecting, [W0] that
    the connection then saw the tables [db]. *)
Ltac report_go lemma S W0 :=
  repeat match goal with
         | |- runs (bind (bind _ _) _) _ _ => apply runs_assoc
         | |- raises (bind (bind _ _) _) _ _ => apply raises_assoc
         | |- completes (bind (bind _ _) _) _ _ => apply completes_assoc
         end;
  match goal with
  | |- runs _ _ _ => eapply runs_bind
  | |- raises _ _ _ => eapply raises_bind
  | |- completes _ _ _ => eapply completes_bind
  end; [lemma |];
  let v := fresh "v" in let s := fresh "s" in
  let H := fresh "H" in let S' := fresh "S" in
  intros v s _ _ _ H;
  match type of S with
  | same_data ?s0 _ =>
      assert (S' : same_data s0 s)
        by first [ exact H
                 | eapply same_data_trans;
                   [exact S | first [ exact H | exact (proj2 H) ]] ]
  end;
  first [ destruct H as [H _]; subst v; rewrite ?(proj1 S), ?W0 | clear H ];
  clear S; rename S' into S.

(** The steps that cannot fail on an initialized store. *)
Ltac report_step Hi S W0 :=
  first
    [ report_go ltac:(apply runs_print) S W0
    | report_go ltac:(apply runs_ret_same) S W0
    | report_go ltac:(apply runs_select; rewrite (proj1 S), W0;
                      apply (initialized_has_table _ _ Hi); simpl; tauto) S W0
    | report_go ltac:(apply runs_if;
                      first [ apply runs_print | apply runs_ret_same ]) S W0 ].

(** A query with SUM whose result [E] is known. *)
Ltac sum_step Hi E S W0 :=
  report_go ltac:(eapply runs_select_sum;
                  [ rewrite (proj1 S), W0;
                    apply (initialized_has_table _ _ Hi); simpl; tauto
                  | rewrite (proj1 S), W0; exact E ]) S W0;
  cbv beta iota.

(** A sum, average, minimum or maximum that is a number. *)
Ltac money_step S W0 :=
  report_go ltac:(apply runs_print_money;
                  first [ assumption
                        | first [ apply avg_is_number | apply min_is_number
                                | apply max_is_number ];
                          apply map_not_nil; assumption ]) S W0.

(** The last statement of a block. *)
Ltac report_last lemma S := apply (runs_from _ _ _ S); lemma.

(** The section of the case events. *)
Ltac events_step Hi S W0 :=
  report_go ltac:(apply runs_if;
                  [ report_last ltac:(apply runs_print) S
                  | repeat report_step Hi S W0;
                    apply runs_if;
                    [ report_last ltac:(apply runs_ret_same) S
                    | report_last ltac:(apply runs_print) S ] ]) S W0.

(** The report from the connection on: [view_database] on a file [db]. *)
Lemma view_database_connected (st : St) (db : Db) :
  disk st = Some db ->
  work (connected st) = db /\ disk (connected st) = Some db.
Proof. intros H. unfold connected. simpl. now rewrite H. Qed.

(** On an initialized store whose [transactions] and [chargebacks] tables
    have a row and whose sums fit, every statement of the report
    completes. *)
Lemma view_database_completes (st : St) (db : Db) :
  disk st = Some db ->
  initialized db = true ->
  transactions db <> [] ->
  chargebacks db <> [] ->
  sums_fit db = true ->
  exists st', view_database st = Ok tt st' /\ disk st' = Some db.
Proof.
  intros Hdisk Hi Htx Hcb Hfit.
  unfold sums_fit in Hfit.
  apply andb_prop in Hfit. destruct Hfit as [Hfit Frisk].
  apply andb_prop in Hfit. destruct Hfit as [Ftx Fcb].
  destruct (transaction_stats_fits db Htx Ftx) as (total & Ntotal & Etx).
  destruct (chargeback_stats_fits db Hcb Fcb) as (cbtotal & Ncb & Ecb).
  destruct (risk_stats_fits db Frisk) as (risk & Erisk).
  unfold view_database. unfold bind at 1. unfold db_path_exists.
  rewrite Hdisk. cbn [negb]. rewrite bind_connect.
  destruct (view_database_connected st db Hdisk) as [W0 D0].
  pose proof (same_data_refl (connected st)) as S.
  match goal with
  | |- exists st', ?m ?s = Ok tt st' /\ _ =>
      assert (R : completes m s (fun _ st' => disk st' = Some db));
        [| destruct R as ([] & st' & E & D); exists st';
           split; [exact E | exact D]]
  end.
  cbn [for_each].
  repeat report_step Hi S W0.
  sum_step Hi Etx S W0.
  repeat first [ report_step Hi S W0 | money_step S W0 ].
  sum_step Hi Ecb S W0.
  repeat first [ report_step Hi S W0 | money_step S W0 ].
  events_step Hi S W0.
  repeat report_step Hi S W0.
  sum_step Hi Erisk S W0.
  repeat report_step Hi S W0.
  apply completes_close_last. cbn [disk].
  rewrite (proj2 S). exact D0.
Qed.

(** X11: on an initialized store whose [transactions] and [chargebacks]
    tables both have a row, and on which no SUM of the report overflows the
    64-bit integers, the report completes, and the file holds afterwards
    what it held before: the report only reads.  (The rows of a store hold
    numbers in their amount columns; the amounts of a sum fit whenever they
    are as the schema declares them.) *)
Theorem X11_view_database_read_only (st : St) (db : Db) :
  disk st = Some db ->
  initialized db = true ->
  transactions db <> [] ->
  chargebacks db <> [] ->
  sums_fit db = true ->
  exists st', view_database st = Ok tt st' /\ disk st' = Some db.
Proof. exact (view_database_completes st db). Qed.

Lemma X11_witness :
  disk small_store = Some small_db /\ initialized small_db = true
  /\ transactions small_db <> [] /\ chargebacks small_db <> []
  /\ sums_fit small_db = true
  /\ exists st', view_database small_store = Ok tt st'
                 /\ disk st' = Some small_db.
Proof.
  split; [reflexivity |]. split; [reflexivity |].
  split; [discriminate |]. split; [discriminate |].
  split; [vm_compute; reflexivity |].
  apply (X11_view_database_read_only small_store small_db);
    [reflexivity | reflexivity | discriminate | discriminate
    | vm_compute; reflexivity].
Defined.



(** *** The loop of the table counts *)

Lemma add_out_add_out (st : St) (l l' : list Out) :
  add_out (add_out st l) l' = add_out st (l ++ l').
Proof. unfold add_out. simpl. now rewrite app_assoc. Qed.

Lemma bind_print_add {A} (o : Out) (k : unit -> M A) (st : St) :
  bind (print o) k st = k tt (add_out st [o]).
Proof. reflexivity. Qed.

(** The loop prints the count of each table up to the first one that is
    missing, and fails there. *)
Lemma count_loop_missing (order : list string) (t : string) :
  forall st,
    first_missing (work st) order = Some t ->
    for_each order
      (fun table => count <- select table (count_rows table) ;;
                    print (LineCount table count)) st
    = Raise (no_such_table t)
            (add_out st (map (count_line (work st))
                             (present_prefix (work st) order))).
Proof.
  induction order as [| x order IH]; intros st Hm; [discriminate Hm |].
  unfold first_missing in Hm. cbn [find] in Hm.
  cbn [for_each present_prefix].
  destruct (has_table (work st) x) eqn:Hx; cbn [negb] in Hm.
  - unfold bind at 1. unfold bind at 1. unfold select at 1. rewrite Hx.
    unfold print at 1.
    match goal with
    | |- for_each _ _ ?s = _ =>
        change s with (add_out st [count_line (work st) x])
    end.
    rewrite (IH (add_out st [count_line (work st) x]) Hm).
    rewrite add_out_add_out. reflexivity.
  - injection Hm as <-.
    unfold bind at 1. unfold bind at 1. unfold select at 1. rewrite Hx.
    destruct st; unfold add_out; simpl. now rewrite app_nil_r.
Qed.

(** X13: on a file that lacks one of the five tables the report fails with
    [OperationalError: no such table] in the loop that prints the table
    counts; the table named is the first one that is missing in the order of
    that loop (customers, merchants, transactions, chargebacks,
    case_events).  Before the error the report has printed its head and the
    counts of the tables that come before the missing one; the file is as it
    was.  Every file that is not initialized has such a first missing
    table. *)
Theorem X13_view_database_uninitialized (st : St) (db : Db) :
  disk st = Some db ->
  (forall t,
     first_missing db count_order = Some t ->
     exists st',
       view_database st = Raise (no_such_table t) st'
       /\ disk st' = Some db
       /\ out st' = (out st ++ report_head
                     ++ map (count_line db) (present_prefix db count_order))%list)
  /\ (initialized db = false ->
      exists t, first_missing db count_order = Some t /\ In t schema_tables).
Proof.
  intros Hdisk. split.
  - intros t Hm.
    destruct (view_database_connected st db Hdisk) as [W0 D0].
    unfold view_database. unfold bind at 1. unfold db_path_exists.
    rewrite Hdisk. cbn [negb]. rewrite bind_connect.
    rewrite !bind_print_add, !add_out_add_out.
    match goal with
    | |- exists st', bind (for_each _ _) _ (add_out _ ?l) = _ /\ _ =>
        change l with report_head
    end.
    eexists. split.
    + apply bind_raise. apply count_loop_missing.
      cbn [add_out work]. rewrite W0. exact Hm.
    + cbn [add_out work disk out]. rewrite W0.
      split; [exact D0 |]. unfold connected. cbn [out].
      now rewrite app_assoc.
  - unfold initialized, first_missing, count_order, schema_tables.
    cbn [forallb find].
    destruct (has_table db "customers"); cbn [negb andb];
      [| intros _; eexists; split; [reflexivity | simpl; tauto] ].
    destruct (has_table db "merchants"); cbn [negb andb];
      [| intros _; eexists; split; [reflexivity | simpl; tauto] ].
    destruct (has_table db "transactions"); cbn [negb andb];
      [| intros _; eexists; split; [reflexivity | simpl; tauto] ].
    destruct (has_table db "chargebacks"); cbn [negb andb];
      [| intros _; eexists; split; [reflexivity | simpl; tauto] ].
    destruct (has_table db "case_events"); cbn [negb andb];
      [| intros _; eexists; split; [reflexivity | simpl; tauto] ].
    discriminate.
Qed.

Lemma X13_witness :
  disk partial_file = Some partial_db
  /\ first_missing partial_db count_order = Some "transactions"
  /\ initialized partial_db = false
  /\ (exists st',
        view_database partial_file = Raise (no_such_table "transactions") st'
        /\ disk st' = Some partial_db
        /\ out st' = (out partial_file ++ report_head
                      ++ [LineCount "customers" 0; LineCount "merchants" 0])%list)
  /\ (exists t, first_missing partial_db count_order = Some t
                /\ In t schema_tables).
Proof.
  split; [reflexivity |]. split; [reflexivity |]. split; [reflexivity |].
  split.
  - apply (proj1 (X13_view_database_uninitialized partial_file partial_db
                    eq_refl)).
    reflexivity.
  - apply (proj2 (X13_view_database_uninitialized partial_file partial_db
                    eq_refl)).
    reflexivity.
Defined.

(** ** The three programs in sequence *)

Lemma Forall2_not_nil {A B} (R : A -> B -> Prop) (l : list A) (l' : list B) :
  Forall2 R l l' -> l <> [] -> l' <> [].
Proof. intros H. destruct H; [contradiction | discriminate]. Qed.

Lemma case_blocks_not_nil : case_blocks <> [].
Proof. discriminate. Qed.

Lemma seeded_not_empty (cases : list Case.dict) (db : Db) :
  seeded cases db -> transactions db <> [] /\ chargebacks db <> [].
Proof.
  intros [_ _ _ (c0 & normal & rows & _ & Htx & _ & Hrows & _) Hc Hcb _ _].
  split.
  - rewrite Htx. intros E. apply app_eq_nil in E. destruct E as [_ E].
    exact (Forall2_not_nil _ _ _ Hrows case_blocks_not_nil E).
  - apply (Forall2_not_nil _ _ _ Hcb).
    exact (Forall2_not_nil _ _ _ Hc case_blocks_not_nil).
Qed.

Lemma Forall2_map_eq {A B K} (R : A -> B -> Prop) (f : A -> K) (g : B -> K)
    (l : list A) (l' : list B) :
  Forall2 R l l' -> (forall a b, R a b -> f a = g b) -> map f l = map g l'.
Proof.
  intros H Hfg. induction H as [| a b l l' Hab _ IH]; [reflexivity |].
  simpl. now rewrite (Hfg a b Hab), IH.
Qed.

Lemma filter_map_length {A B} (f : A -> B) (q : B -> bool) (l : list A) :
  List.length (filter (fun x => q (f x)) l) = List.length (filter q (map f l)).
Proof.
  induction l as [| x l IH]; [reflexivity |].
  simpl. destruct (q (f x)); simpl; now rewrite IH.
Qed.

Lemma seeded_chargeback_columns (cases : list Case.dict) (db : Db) :
  seeded cases db ->
  map Chargebacks.status (chargebacks db)
  = map (fun b => Some (cb_status b)) case_blocks
  /\ map Chargebacks.chargeback_amount (chargebacks db)
     = map cb_chargeback_amount case_blocks.
Proof.
  intros [_ _ _ _ Hc Hcb _ _]. split.
  - rewrite <- (Forall2_map_eq _ (fun c => Some (Case.status c)) _ _ _ Hcb)
      by (intros c r [d ->]; reflexivity).
    symmetry. apply (Forall2_map_eq _ _ _ _ _ Hc).
    intros b c (_ & _ & H & _). now rewrite H.
  - rewrite <- (Forall2_map_eq _ Case.chargeback_amount _ _ _ Hcb)
      by (intros c r [d ->]; reflexivity).
    symmetry. apply (Forall2_map_eq _ _ _ _ _ Hc).
    intros b c (_ & H & _). now rewrite H.
Qed.

(** The amounts of the case blocks are between 0 and 10000. *)
Lemma case_blocks_amounts_small :
  forallb (fun b => (0 <=? tx_amount b) && (tx_amount b <=? dec 10000 0))
          case_blocks = true.
Proof. vm_compute. reflexivity. Qed.

Lemma seeded_amounts (cases : list Case.dict) (db : Db) :
  seeded cases db ->
  Forall (fun t => - (10000 * 100) <= Transactions.amount t <= 10000 * 100)
         (transactions db)
  /\ (List.length (transactions db) <= 93)%nat.
Proof.
  intros Hs.
  destruct (seeded_split _ _ Hs)
    as (normal & rows & Htx & Hord & Hn & Hrows & _ & _).
  pose proof (Forall2_length Hrows) as L. simpl List.length in L.
  rewrite Htx. split; [| rewrite length_app; lia].
  apply Forall_app. split.
  - eapply Forall_impl; [| exact Hord].
    intros t (_ & _ & Ha & _). unfold dec in Ha. lia.
  - apply Forall_forall. intros t Ht.
    destruct (Forall2_In_r _ _ _ t Hrows Ht) as (b & Hb & Hbt).
    pose proof case_blocks_amounts_small as A. rewrite forallb_forall in A.
    specialize (A b Hb). apply andb_prop in A. destruct A as [A1 A2].
    apply Z.leb_le in A1, A2. unfold dec in A2.
    destruct Hbt as (_ & _ & Ha & _). rewrite Ha. lia.
Qed.

Lemma filter_length_le' {A} (q : A -> bool) (l : list A) :
  (List.length (filter q l) <= List.length l)%nat.
Proof.
  induction l as [| x l IH]; simpl; [lia |].
  destruct (q x); simpl; lia.
Qed.

Lemma Forall_filter {A} (P : A -> Prop) (q : A -> bool) (l : list A) :
  Forall P l -> Forall P (filter q l).
Proof.
  intros H. apply Forall_forall. intros x Hx. apply filter_In in Hx.
  rewrite Forall_forall in H. now apply H.
Qed.

Lemma Forall_map' {A B} (P : B -> Prop) (f : A -> B) (l : list A) :
  Forall (fun x => P (f x)) l -> Forall P (map f l).
Proof. induction 1; simpl; constructor; auto. Qed.

(** The sums of the report on the data of a run: no addition overflows. *)
Lemma seeded_sums_fit (cases : list Case.dict) (db : Db) :
  seeded cases db -> sums_fit db = true.
Proof.
  intros Hs. destruct (seeded_amounts _ _ Hs) as [Ha Hn].
  unfold sums_fit. apply andb_true_intro. split; [apply andb_true_intro; split |].
  - apply (sum_fits_bounded 10000); [lia | |].
    + apply Forall_map'. exact Ha.
    + rewrite length_map. unfold int64_max. lia.
  - rewrite (proj2 (seeded_chargeback_columns _ _ Hs)).
    vm_compute. reflexivity.
  - apply forallb_forall. intros k _.
    apply (sum_fits_bounded 10000); [lia | |].
    + apply Forall_map'. unfold risk_rows. apply Forall_filter. exact Ha.
    + rewrite length_map. unfold risk_rows.
      pose proof (filter_length_le'
                    (fun t => match Transactions.risk_level t with
                              | Some x => String.eqb x k
                              | None => false
                              end) (transactions db)).
      unfold int64_max. lia.
Qed.

(** X14: on an initialized store whose sequence of event ids has room for
    the run, whatever rows the store holds, the generator followed by the
    report both complete; the report leaves the file as the generator
    committed it. *)
Theorem X14_seed_then_view (st : St) (db : Db) :
  disk st = Some db ->
  initialized db = true ->
  sequence_has_room db ->
  exists st1 st2,
    seed_database st = Ok tt st1
    /\ view_database st1 = Ok tt st2
    /\ disk st2 = disk st1.
Proof.
  intros Hdisk Hinit Hroom.
  destruct (seed_database_run st db Hdisk Hinit Hroom)
    as (cases & st1 & db1 & _ & E1 & Hd & Hi & _ & Hs).
  destruct (seeded_not_empty _ _ Hs) as [Htx Hcb].
  destruct (view_database_completes st1 db1 Hd Hi Htx Hcb
              (seeded_sums_fit _ _ Hs)) as (st2 & E2 & D2).
  exists st1, st2. split; [exact E1 |]. split; [exact E2 | congruence].
Qed.

Lemma X14_witness :
  disk small_store = Some small_db /\ initialized small_db = true
  /\ sequence_has_room small_db
  /\ exists st1 st2,
       seed_database small_store = Ok tt st1
       /\ view_database st1 = Ok tt st2
       /\ disk st2 = disk st1.
Proof.
  split; [reflexivity |]. split; [reflexivity |].
  split; [vm_compute; discriminate |].
  apply (X14_seed_then_view small_store small_db);
    [reflexivity | reflexivity | vm_compute; discriminate].
Defined.

(** X15: from any state of the world, with or without a database file,
    the three programs run in the order setup, generator, report all
    complete. *)
Theorem X15_setup_seed_view (st : St) :
  exists st1 st2 st3,
    init_database st = Ok tt st1
    /\ seed_database st1 = Ok tt st2
    /\ view_database st2 = Ok tt st3.
Proof.
  destruct (init_database_run st) as (st1 & E1 & Hd & _ & _).
  destruct (seed_database_run st1 fresh_db Hd initialized_fresh_db
              fresh_db_has_room)
    as (cases & st2 & db2 & _ & E2 & Hd2 & Hi & _ & Hs).
  destruct (seeded_not_empty _ _ Hs) as [Htx Hcb].
  destruct (view_database_completes st2 db2 Hd2 Hi Htx Hcb
              (seeded_sums_fit _ _ Hs)) as (st3 & E3 & _).
  exists st1, st2, st3. auto.
Qed.

Lemma count_status_column (s : string) (db : Db) :
  count_status s db
  = Z.of_nat (List.length
      (filter (fun x => match x with
                        | Some x => String.eqb x s
                        | None => false
                        end) (map Chargebacks.status (chargebacks db)))).
Proof.
  unfold count_status. f_equal.
  apply (filter_map_length Chargebacks.status
           (fun x => match x with Some x => String.eqb x s | None => false end)).
Qed.

(** X16: after the generator has run on an initialized store whose sequence
    of event ids has room, whatever the store held and whatever the random
    draws, the summary query of the report on the [chargebacks] table
    returns 23 chargebacks, 11 open, none under review, 9 won and 3 lost;
    its total is the floating-point sum of the 23 amounts of the case blocks
    in their order, amounts whose exact sum is 9237.34. *)
Theorem X16_chargeback_summary (st : St) (db : Db) :
  disk st = Some db ->
  initialized db = true ->
  sequence_has_room db ->
  exists st' db',
    seed_database st = Ok tt st'
    /\ disk st' = Some db'
    /\ chargeback_stats db'
       = inr (23, 11, 0, 9, 3, CSum (map cb_chargeback_amount case_blocks))
    /\ fold_right Z.add 0 (map cb_chargeback_amount case_blocks)
       = dec 9237 34.
Proof.
  intros Hdisk Hinit Hroom.
  destruct (seed_database_run st db Hdisk Hinit Hroom)
    as (cases & st' & db' & _ & E & Hd & _ & _ & Hs).
  exists st', db'. split; [exact E |]. split; [exact Hd |].
  split; [| vm_compute; reflexivity].
  destruct (seeded_chargeback_columns _ _ Hs) as [Hst Ham].
  unfold chargeback_stats. rewrite !count_status_column, Hst, Ham.
  rewrite <- (length_map Chargebacks.status), Hst.
  vm_compute. reflexivity.
Qed.

Lemma X16_witness :
  disk small_store = Some small_db /\ initialized small_db = true
  /\ sequence_has_room small_db
  /\ exists st' db',
       seed_database small_store = Ok tt st'
       /\ disk st' = Some db'
       /\ chargeback_stats db'
          = inr (23, 11, 0, 9, 3, CSum (map cb_chargeback_amount case_blocks))
       /\ fold_right Z.add 0 (map cb_chargeback_amount case_blocks)
          = dec 9237 34.
Proof.
  split; [reflexivity |]. split; [reflexivity |].
  split; [vm_compute; discriminate |].
  apply (X16_chargeback_summary small_store small_db);
    [reflexivity | reflexivity | vm_compute; discriminate].
Defined.
